(** * vlsu_schedule_bot: the calendar resolver and the schedule normalizer

    A shallow embedding of [get_week_status] (src/app/bot.py) and of
    [normalize_schedule] with its helpers (src/app/vlsu_api.py), and the
    properties of both that the design document states.

    Python values are embedded as follows.
    - [datetime.date] is a record of its three fields; ordering, ordinals and
      [isoweekday] follow CPython's [datetime] module.
    - [str] is a list of Unicode code points ([pystr]); literals are written
      in UTF-8 and decoded by [u].
    - a decoded JSON payload is a [json] tree; a [dict] is an association
      list in insertion order.
    - an exception is the [Raise] case of [pyresult].

    Scope of the embedding. A JSON float is the rational it denotes (the
    literals NaN and Infinity, which are not JSON, are left out). The keys
    of a Python dict are pairwise distinct; lookups in the association list
    take the first entry, and no result depends on distinctness. The
    interpreter's recursion limit is not modelled. *)

From Stdlib Require Import ZArith NArith QArith List Bool String Ascii Lia.
From Stdlib Require Import DecimalString DecimalPos Sorting.Sorted.
Import ListNotations.

Local Open Scope Z_scope.

(* ================================================================== *)
(** * Part I: the academic calendar (src/app/bot.py) *)
(* ================================================================== *)

Module Calendar.

(** ** [datetime.date] *)

Record date := mkdate { year : Z; month : Z; day : Z }.

(** A [datetime] is a date with a time of day; [get_week_status] only keeps
    its date. *)
Record datetime := mkdatetime
  { dt_date : date; hour : Z; minute : Z; second : Z; microsecond : Z }.

Inductive date_like :=
| D (d : date)
| DT (t : datetime).

Definition _is_leap (y : Z) : bool :=
  (y mod 4 =? 0) && (negb (y mod 100 =? 0) || (y mod 400 =? 0)).

Definition _DAYS_BEFORE_MONTH : list Z :=
  [-1; 0; 31; 59; 90; 120; 151; 181; 212; 243; 273; 304; 334].

Definition _days_before_year (y : Z) : Z :=
  let y := y - 1 in
  y * 365 + y / 4 - y / 100 + y / 400.

Definition _days_before_month (y m : Z) : Z :=
  nth (Z.to_nat m) _DAYS_BEFORE_MONTH 0
  + (if (2 <? m) && _is_leap y then 1 else 0).

Definition _ymd2ord (y m d : Z) : Z :=
  _days_before_year y + _days_before_month y m + d.

Definition toordinal (d : date) : Z := _ymd2ord (year d) (month d) (day d).

(** [self.toordinal() % 7 or 7] *)
Definition isoweekday (d : date) : Z :=
  let r := toordinal d mod 7 in
  if r =? 0 then 7 else r.

(** [(a - b).days] *)
Definition days_between (a b : date) : Z := toordinal a - toordinal b.

(** [a <= b] on dates compares the tuples [(year, month, day)]. *)
Definition date_le (a b : date) : bool :=
  (year a <? year b)
  || ((year a =? year b)
      && ((month a <? month b)
          || ((month a =? month b) && (day a <=? day b)))).

(** ** Configuration *)

Definition SEMESTER_START : date := mkdate 2025 9 1.

Definition period : Type := date * date * string.

Definition p_start (p : period) : date := fst (fst p).
Definition p_end (p : period) : date := snd (fst p).
Definition p_kind (p : period) : string := snd p.

Definition SPECIAL_PERIODS : list period :=
  [ (mkdate 2025 9 29, mkdate 2025 10 11, "rc"%string);
    (mkdate 2025 11 10, mkdate 2025 11 22, "rc"%string);
    (mkdate 2025 12 22, mkdate 2025 12 30, "rc"%string);
    (mkdate 2026 3 2, mkdate 2026 3 14, "rc"%string);
    (mkdate 2026 4 13, mkdate 2026 4 25, "rc"%string);
    (mkdate 2026 5 25, mkdate 2026 6 6, "rc"%string);
    (mkdate 2025 11 3, mkdate 2025 11 4, "holiday"%string);
    (mkdate 2025 12 31, mkdate 2026 1 11, "holiday"%string);
    (mkdate 2026 2 23, mkdate 2026 2 23, "holiday"%string);
    (mkdate 2026 3 9, mkdate 2026 3 9, "holiday"%string);
    (mkdate 2026 5 1, mkdate 2026 5 2, "holiday"%string);
    (mkdate 2026 5 11, mkdate 2026 5 11, "holiday"%string);
    (mkdate 2026 6 12, mkdate 2026 6 13, "holiday"%string);
    (mkdate 2026 1 12, mkdate 2026 1 24, "exam"%string);
    (mkdate 2026 6 9, mkdate 2026 6 30, "exam"%string);
    (mkdate 2026 1 26, mkdate 2026 1 31, "vacation"%string) ].

(** ** [get_week_status] *)

(** The loop [for start, end, kind in SPECIAL_PERIODS: if start <= d <= end:
    return kind]; [None] when the loop falls through. *)
Fixpoint scan_periods (d : date) (ps : list period) : option string :=
  match ps with
  | [] => None
  | (s, e, kind) :: rest =>
      if date_le s d && date_le d e then Some kind else scan_periods d rest
  end.

Definition as_date (x : date_like) : date :=
  match x with
  | D d => d
  | DT t => dt_date t
  end.

Definition get_week_status (x : date_like) : string :=
  let d := as_date x in
  match scan_periods d SPECIAL_PERIODS with
  | Some kind => kind
  | None =>
      if isoweekday d =? 7 then "holiday"%string
      else
        let week_num := days_between d SEMESTER_START / 7 + 1 in
        if week_num <=? 0 then "before"%string
        else
          let block := (week_num - 1) / 7 in
          if block mod 2 =? 0 then "odd"%string else "even"%string
  end.

(** ** Vocabulary of the statements *)

(** Chronological order on dates, as the lexicographic order of
    (year, month, day). *)
Definition date_leq (a b : date) : Prop :=
  year a < year b
  \/ (year a = year b
      /\ (month a < month b \/ (month a = month b /\ day a <= day b))).

(** The inclusive range of the period contains the date. *)
Definition covers (p : period) (d : date) : Prop :=
  date_leq (p_start p) d /\ date_leq d (p_end p).

Definition regimes : list string :=
  [ "odd"; "even"; "holiday"; "vacation"; "exam"; "rc"; "before" ]%string.

(** Deciding "no period of the list contains the date" by evaluation. *)
Definition misses_all (d : date) (ps : list period) : bool :=
  forallb (fun p => negb (date_le (p_start p) d && date_le d (p_end p))) ps.

(** ** Date arithmetic ([datetime], as used by [monday_of_week] and the week
    navigation) *)

Definition MINYEAR : Z := 1.

Definition MAXYEAR : Z := 9999.

Definition _MAXORDINAL : Z := 3652059.

Definition _DAYS_IN_MONTH : list Z :=
  [-1; 31; 28; 31; 30; 31; 30; 31; 31; 30; 31; 30; 31].

Definition _DI400Y : Z := 146097.

Definition _DI100Y : Z := 36524.

Definition _DI4Y : Z := 1461.

(** [_days_in_month(year, month)] *)
Definition _days_in_month (y m : Z) : Z :=
  if (m =? 2) && _is_leap y then 29 else nth (Z.to_nat m) _DAYS_IN_MONTH 0.

(** The check of the [date] constructor. *)
Definition valid_date (d : date) : Prop :=
  MINYEAR <= year d <= MAXYEAR
  /\ 1 <= month d <= 12
  /\ 1 <= day d <= _days_in_month (year d) (month d).

(** [_ord2ymd(n)] *)
Definition _ord2ymd (n : Z) : date :=
  let n := n - 1 in
  let n400 := n / _DI400Y in
  let n := n mod _DI400Y in
  let year := n400 * 400 + 1 in
  let n100 := n / _DI100Y in
  let n := n mod _DI100Y in
  let n4 := n / _DI4Y in
  let n := n mod _DI4Y in
  let n1 := n / 365 in
  let n := n mod 365 in
  let year := year + n100 * 100 + n4 * 4 + n1 in
  if (n1 =? 4) || (n100 =? 4) then mkdate (year - 1) 12 31
  else
    let leapyear := (n1 =? 3) && (negb (n4 =? 24) || (n100 =? 3)) in
    let month := Z.shiftr (n + 50) 5 in
    let preceding :=
      nth (Z.to_nat month) _DAYS_BEFORE_MONTH 0
      + (if (2 <? month) && leapyear then 1 else 0) in
    let '(month, preceding) :=
      if n <? preceding
      then (month - 1,
            preceding
            - (nth (Z.to_nat (month - 1)) _DAYS_IN_MONTH 0
               + (if (month - 1 =? 2) && leapyear then 1 else 0)))
      else (month, preceding) in
    mkdate year month (n - preceding + 1).

(** [date.fromordinal(n)] *)
Definition fromordinal (n : Z) : date := _ord2ymd n.

(** [d + timedelta(days=k)]; [None] stands for OverflowError. *)
Definition date_add (d : date) (k : Z) : option date :=
  let o := toordinal d + k in
  if (0 <? o) && (o <=? _MAXORDINAL) then Some (fromordinal o) else None.

(** [d - timedelta(days=k)] is [d + timedelta(-k)]. *)
Definition date_sub (d : date) (k : Z) : option date := date_add d (- k).

(** [monday_of_week(d)]: [d - timedelta(days=d.isoweekday() - 1)] *)
Definition monday_of_week (d : date) : option date :=
  date_sub d (isoweekday d - 1).

(** ** Vocabulary of the statements on dates *)

(** The month and the day that [_ord2ymd] computes from the offset [n] in
    the year. *)
Definition month_day (leapyear : bool) (n : Z) : Z * Z :=
  let month := Z.shiftr (n + 50) 5 in
  let preceding :=
    nth (Z.to_nat month) _DAYS_BEFORE_MONTH 0
    + (if (2 <? month) && leapyear then 1 else 0) in
  let '(month, preceding) :=
    if n <? preceding
    then (month - 1,
          preceding
          - (nth (Z.to_nat (month - 1)) _DAYS_IN_MONTH 0
             + (if (month - 1 =? 2) && leapyear then 1 else 0)))
    else (month, preceding) in
  (month, n - preceding + 1).

(** [_days_before_month] and [_days_in_month] by the leap flag. *)
Definition days_before (leap : bool) (m : Z) : Z :=
  nth (Z.to_nat m) _DAYS_BEFORE_MONTH 0
  + (if (2 <? m) && leap then 1 else 0).

Definition days_in (leap : bool) (m : Z) : Z :=
  if (m =? 2) && leap then 29 else nth (Z.to_nat m) _DAYS_IN_MONTH 0.

(** Checks by evaluation over the days of a year and over the months. *)
Definition month_day_ok (leap : bool) (n : Z) : bool :=
  let '(m, d) := month_day leap n in
  (1 <=? m) && (m <=? 12) && (1 <=? d) && (d <=? days_in leap m)
  && (days_before leap m + d =? n + 1).

Definition months_ok (leap : bool) : bool :=
  forallb (fun m =>
             (0 <=? days_before leap m)
             && (days_before leap m + days_in leap m
                 <=? 365 + (if leap then 1 else 0))
             && forallb (fun m' =>
                           negb (m <? m')
                           || (days_before leap m + days_in leap m
                               <=? days_before leap m'))
                        [1; 2; 3; 4; 5; 6; 7; 8; 9; 10; 11; 12])
          [1; 2; 3; 4; 5; 6; 7; 8; 9; 10; 11; 12].

(** Strictly earlier in (year, month, day). *)
Definition date_lt (a b : date) : Prop :=
  year a < year b
  \/ (year a = year b
      /\ (month a < month b \/ (month a = month b /\ day a < day b))).

(** ** The week view of the bot *)

(** The three dates that [kb_week_nav] puts in the callbacks: the previous
    week, the week of [today], the next week. *)
Definition week_nav_dates (week_start today : date)
  : option (date * date * date) :=
  match date_sub week_start 7, date_add week_start 7,
        monday_of_week today with
  | Some prev_week, Some next_week, Some home_week =>
      Some (prev_week, home_week, next_week)
  | _, _, _ => None
  end.

(** The dates that [show_week_common] prints beside the day labels:
    [week_start + timedelta(days=d - 1)] for [d] in [range(1, 8)]. *)
Definition week_day_dates (week_start : date) : list (Z * option date) :=
  map (fun d => (d, date_add week_start (d - 1))) [1; 2; 3; 4; 5; 6; 7].

Definition STATUS_RU : list (string * string) :=
  [ ("odd", "неделя числитель (нечётная)");
    ("even", "неделя знаменатель (чётная)");
    ("holiday", "праздничный день");
    ("vacation", "каникулы");
    ("exam", "сессия");
    ("rc", "рейтинговый контроль");
    ("before", "до начала семестра") ]%string.

(** [table.get(k)] on a table of strings. *)
Fixpoint assoc_string (t : list (string * string)) (k : string)
  : option string :=
  match t with
  | [] => None
  | (k', v) :: rest => if String.eqb k' k then Some v else assoc_string rest k
  end.

(** [STATUS_RU.get(p, p)] *)
Definition parity_ru_full (p : string) : string :=
  match assoc_string STATUS_RU p with
  | Some v => v
  | None => p
  end.

(** The branch of [show_week_common]: [None] when the week is announced as
    having no classes, otherwise the parity passed to the lesson query. *)
Definition week_query_parity (status : string) : option string :=
  if existsb (String.eqb status) ["odd"; "even"; "rc"]%string
  then Some (if String.eqb status "odd" then "odd" else "even")%string
  else None.

(** The status of a date that no override period covers. *)
Definition computed_status (n : Z) : string :=
  if (if n mod 7 =? 0 then 7 else n mod 7) =? 7 then "holiday"%string
  else
    let week_num := (n - toordinal SEMESTER_START) / 7 + 1 in
    if week_num <=? 0 then "before"%string
    else if ((week_num - 1) / 7) mod 2 =? 0 then "odd"%string
         else "even"%string.

End Calendar.

(* ================================================================== *)
(** * Part II: Python text and JSON values *)
(* ================================================================== *)

(** ** [str]: sequences of code points *)

Definition codepoint := N.
Definition pystr := list codepoint.

(** UTF-8 decoding of a literal (well-formed input only). *)
Fixpoint u (s : string) : pystr :=
  match s with
  | EmptyString => []
  | String a s1 =>
      let b0 := N_of_ascii a in
      if (b0 <? 128)%N then b0 :: u s1
      else if (b0 <? 224)%N then
        match s1 with
        | String b s2 =>
            ((b0 - 192) * 64 + (N_of_ascii b - 128))%N :: u s2
        | EmptyString => [b0]
        end
      else if (b0 <? 240)%N then
        match s1 with
        | String b (String c s3) =>
            ((b0 - 224) * 4096 + (N_of_ascii b - 128) * 64
             + (N_of_ascii c - 128))%N :: u s3
        | _ => [b0]
        end
      else
        match s1 with
        | String b (String c (String d s4)) =>
            ((b0 - 240) * 262144 + (N_of_ascii b - 128) * 4096
             + (N_of_ascii c - 128) * 64 + (N_of_ascii d - 128))%N :: u s4
        | _ => [b0]
        end
  end.

Fixpoint str_eqb (a b : pystr) : bool :=
  match a, b with
  | [], [] => true
  | x :: a', y :: b' => (x =? y)%N && str_eqb a' b'
  | _, _ => false
  end.

(** [a <= b] on [str]: lexicographic on code points. *)
Fixpoint str_leb (a b : pystr) : bool :=
  match a, b with
  | [], _ => true
  | _ :: _, [] => false
  | x :: a', y :: b' =>
      if (x <? y)%N then true
      else if (x =? y)%N then str_leb a' b' else false
  end.

Definition in_range (c lo hi : codepoint) : bool :=
  ((lo <=? c) && (c <=? hi))%N.

(** [Py_UNICODE_ISSPACE]: the characters removed by [str.strip()]. *)
Definition isspace (c : codepoint) : bool :=
  existsb (fun r => in_range c (fst r) (snd r))
    [ (9, 13); (28, 32); (133, 133); (160, 160); (5760, 5760);
      (8192, 8202); (8232, 8233); (8239, 8239); (8287, 8287);
      (12288, 12288) ]%N.

(** The tens of the decimal digits (general category Nd, Unicode 14): each
    entry is the code point of a digit zero, followed by one to nine. *)
Definition DECIMAL_ZEROS : list codepoint :=
  [ 0x30; 0x660; 0x6f0; 0x7c0; 0x966; 0x9e6; 0xa66; 0xae6; 0xb66; 0xbe6;
    0xc66; 0xce6; 0xd66; 0xde6; 0xe50; 0xed0; 0xf20; 0x1040; 0x1090;
    0x17e0; 0x1810; 0x1946; 0x19d0; 0x1a80; 0x1a90; 0x1b50; 0x1bb0;
    0x1c40; 0x1c50; 0xa620; 0xa8d0; 0xa900; 0xa9d0; 0xa9f0; 0xaa50;
    0xabf0; 0xff10; 0x104a0; 0x10d30; 0x11066; 0x110f0; 0x11136; 0x111d0;
    0x112f0; 0x11450; 0x114d0; 0x11650; 0x116c0; 0x11730; 0x118e0;
    0x11950; 0x11c50; 0x11d50; 0x11da0; 0x16a60; 0x16ac0; 0x16b50;
    0x1d7ce; 0x1d7d8; 0x1d7e2; 0x1d7ec; 0x1d7f6;
    0x1e140; 0x1e2f0; 0x1e950; 0x1fbf0 ]%N.

(** The value of a decimal digit; [None] for any other character. *)
Definition decimal_value (c : codepoint) : option Z :=
  match find (fun z => in_range c z (z + 9)%N) DECIMAL_ZEROS with
  | Some z => Some (Z.of_N (c - z))
  | None => None
  end.

(** What the pattern [\d] matches in a [str]. *)
Definition isdecimal (c : codepoint) : bool :=
  match decimal_value c with Some _ => true | None => false end.

(** Digits that are not decimal (superscripts, circled digits, ...). *)
Definition OTHER_DIGITS : list (codepoint * codepoint) :=
  [ (0xb2, 0xb3); (0xb9, 0xb9); (0x1369, 0x1371); (0x19da, 0x19da);
    (0x2070, 0x2070); (0x2074, 0x2079); (0x2080, 0x2089); (0x2460, 0x2468);
    (0x2474, 0x247c); (0x2488, 0x2490); (0x24ea, 0x24ea); (0x24f5, 0x24fd);
    (0x24ff, 0x24ff); (0x2776, 0x277e); (0x2780, 0x2788); (0x278a, 0x2792);
    (0x10a40, 0x10a43); (0x10e60, 0x10e68); (0x11052, 0x1105a);
    (0x1f100, 0x1f10a) ]%N.

(** [str.isdigit()] *)
Definition str_isdigit (s : pystr) : bool :=
  negb (Nat.eqb (List.length s) 0)
  && forallb (fun c => isdecimal c
                       || existsb (fun r => in_range c (fst r) (snd r))
                                  OTHER_DIGITS) s.

(** [int(s)] for a string [s] that satisfies [isdigit()]: the decimal value
    when every character is a decimal digit and the text is within the
    interpreter's limit of 4300 digits; [None] stands for ValueError. *)
Definition int_of_digits (s : pystr) : option Z :=
  if (4300 <? List.length s)%nat then None
  else
    fold_left (fun acc c =>
                 match acc, decimal_value c with
                 | Some n, Some d => Some (10 * n + d)
                 | _, _ => None
                 end) s (Some 0).

Fixpoint lstrip (s : pystr) : pystr :=
  match s with
  | [] => []
  | c :: r => if isspace c then lstrip r else s
  end.

Definition rstrip (s : pystr) : pystr := rev (lstrip (rev s)).

(** [s.strip()] *)
Definition strip (s : pystr) : pystr := rstrip (lstrip s).

(** [s.split(sep)] for a one-character separator. *)
Fixpoint split (sep : codepoint) (s : pystr) : list pystr :=
  match s with
  | [] => [[]]
  | c :: r =>
      if (c =? sep)%N then [] :: split sep r
      else match split sep r with
           | h :: t => (c :: h) :: t
           | [] => [[c]]
           end
  end.

(** [sep.join(parts)] *)
Fixpoint join (sep : pystr) (parts : list pystr) : pystr :=
  match parts with
  | [] => []
  | [p] => p
  | p :: rest => p ++ sep ++ join sep rest
  end.

Fixpoint startswith (p s : pystr) : bool :=
  match p, s with
  | [], _ => true
  | _ :: _, [] => false
  | x :: p', y :: s' => (x =? y)%N && startswith p' s'
  end.

(** [needle in s] on strings. *)
Fixpoint contains (needle s : pystr) : bool :=
  startswith needle s
  || match s with
     | [] => false
     | _ :: r => contains needle r
     end.

(** [str(n)] for an integer. *)
Definition str_of_Z (n : Z) : pystr :=
  u (NilZero.string_of_int (Z.to_int n)).

(** ** JSON values as Python objects *)

(** A parsed payload. [JFloat] holds a finite float, as a rational: the
    floats without a finite value, which [json.loads] makes of [Infinity],
    [NaN] or [1e999], are no values of this type, and the development
    speaks of the payloads without them. (On such a float as a week value,
    [int(val)] in [normalize_week_type] raises OverflowError or
    ValueError.) *)

Unset Elimination Schemes.

Inductive json :=
| JNull
| JBool (b : bool)
| JInt (n : Z)
| JFloat (q : Q)
| JStr (s : pystr)
| JList (xs : list json)
| JDict (kvs : list (pystr * json)).

Set Elimination Schemes.

(** A [dict] with string keys, in insertion order. *)
Definition dict := list (pystr * json).

(** [d.get(k)]; Python's [None] for a missing key is [JNull] at the uses. *)
Fixpoint dict_get (d : dict) (k : pystr) : option json :=
  match d with
  | [] => None
  | (k', v) :: rest => if str_eqb k' k then Some v else dict_get rest k
  end.

(** [k in d] *)
Definition dict_has (d : dict) (k : pystr) : bool :=
  match dict_get d k with Some _ => true | None => false end.

(** [bool(v)] *)
Definition truthy (v : json) : bool :=
  match v with
  | JNull => false
  | JBool b => b
  | JInt n => negb (n =? 0)
  | JFloat q => negb (Qeq_bool q 0)
  | JStr s => negb (Nat.eqb (List.length s) 0)
  | JList xs => negb (Nat.eqb (List.length xs) 0)
  | JDict kvs => negb (Nat.eqb (List.length kvs) 0)
  end.

(** The parts of the interpreter that are taken as given: [str.lower()]
    (the full Unicode case conversion) and [repr()] of a float, a list or a
    dict. The general results hold for every such pair of functions. *)
Class PyRuntime := {
  str_lower : pystr -> pystr;
  py_repr : json -> pystr
}.

(** Exceptions and results: the two exceptions that the normalizer raises on
    a payload of the type above; OverflowError and ValueError need a float
    without a finite value. *)
Inductive exn := AttributeError | TypeError.

Inductive pyresult (A : Type) :=
| Ok (a : A)
| Raise (e : exn).

Arguments Ok {A} a.
Arguments Raise {A} e.

Definition bind {A B} (r : pyresult A) (k : A -> pyresult B) : pyresult B :=
  match r with
  | Ok a => k a
  | Raise e => Raise e
  end.

Notation "x <- r ;; k" := (bind r (fun x => k))
  (at level 61, r at next level, right associativity).

(* ================================================================== *)
(** * Part III: the schedule normalizer (src/app/vlsu_api.py) *)
(* ================================================================== *)

(** A canonical lesson: the dict with the eight fixed keys that both parsers
    build. Python's [None] is [JNull]. *)
Record lesson := mklesson {
  day : json;
  start : json;
  end_ : json;
  title : json;
  teacher : json;
  room : json;
  kind : json;
  week : json
}.

Definition PAIR_TIMES : list (Z * (pystr * pystr)) :=
  [ (1, (u "08:30", u "10:00"));
    (2, (u "10:20", u "11:50"));
    (3, (u "12:10", u "13:40"));
    (4, (u "14:00", u "15:30"));
    (5, (u "15:50", u "17:20"));
    (6, (u "17:40", u "19:10"));
    (7, (u "19:30", u "21:00")) ].

Definition DAY_MAP_RU : list (pystr * Z) :=
  [ (u "понедельник", 1);
    (u "вторник", 2);
    (u "среда", 3);
    (u "четверг", 4);
    (u "пятница", 5);
    (u "суббота", 6);
    (u "воскресенье", 7) ].

(** [table.get(k)] on the two constant tables. *)
Fixpoint assoc_Z {V} (t : list (Z * V)) (k : Z) : option V :=
  match t with
  | [] => None
  | (k', v) :: rest => if k' =? k then Some v else assoc_Z rest k
  end.

Fixpoint assoc_str {V} (t : list (pystr * V)) (k : pystr) : option V :=
  match t with
  | [] => None
  | (k', v) :: rest => if str_eqb k' k then Some v else assoc_str rest k
  end.

Definition opt_json (o : option pystr) : json :=
  match o with
  | Some s => JStr s
  | None => JNull
  end.

(** [any(vs)] *)
Definition any_truthy (vs : list json) : bool := existsb truthy vs.

(** [v in (None, "")] *)
Definition none_or_empty (v : json) : bool :=
  match v with
  | JNull => true
  | JStr [] => true
  | _ => false
  end.

(** [_pick(d, *keys, default=default)] *)
Fixpoint _pick (d : dict) (keys : list pystr) (default : json) : json :=
  match keys with
  | [] => default
  | k :: ks =>
      match dict_get d k with
      | Some v => if none_or_empty v then _pick d ks default else v
      | None => _pick d ks default
      end
  end.

(** [any(k in node for k in keys)] *)
Definition has_any (d : dict) (keys : list pystr) : bool :=
  existsb (dict_has d) keys.

(** [re.search(r"\d", s)] or ["-" in s], on the stripped text. *)
Definition _looks_like_room (s : pystr) : bool :=
  let s := strip s in
  existsb isdecimal s || contains (u "-") s.

Definition _looks_like_teacher (s : pystr) : bool :=
  contains (u ".") s && contains (u " ") s.

(** [enumerate(parts)] *)
Definition enumerate {A} (l : list A) : list (nat * A) :=
  combine (seq 0 (List.length l)) l.

Definition used_has (used : list nat) (i : nat) : bool :=
  existsb (Nat.eqb i) used.

(** The two scanning loops of [_parse_cell_text]: the first part, in order,
    whose index is not used and that passes the test. *)
Definition first_unused (test : pystr -> bool) (used : list nat)
           (parts : list (nat * pystr)) : option (nat * pystr) :=
  find (fun ip => negb (used_has used (fst ip)) && test (snd ip)) parts.

Definition cell := (option pystr * option pystr * option pystr
                    * option pystr)%type.

(** [_parse_cell_text(s)] returns [(kind, room, teacher, title)]. *)
Definition _parse_cell_text (s : pystr) : cell :=
  match s with
  | [] => (None, None, None, None)
  | _ =>
      let parts :=
        map strip
            (filter (fun p => negb (Nat.eqb (List.length (strip p)) 0))
                    (split 44%N s)) in
      let '(kind, used) :=
        match parts with
        | p0 :: _ =>
            if (List.length p0 <=? 3)%nat then (Some p0, [0%nat])
            else (None, [])
        | [] => (None, [])
        end in
      let '(room, used) :=
        match first_unused _looks_like_room used (enumerate parts) with
        | Some (i, p) => (Some p, i :: used)
        | None => (None, used)
        end in
      let '(teacher, used) :=
        match first_unused _looks_like_teacher used (enumerate parts) with
        | Some (i, p) => (Some p, i :: used)
        | None => (None, used)
        end in
      let title_parts :=
        map snd (filter (fun ip => negb (used_has used (fst ip)))
                        (enumerate parts)) in
      let title :=
        match title_parts with
        | [] => None
        | _ => Some (join (u ", ") title_parts)
        end in
      (kind, room, teacher, title)
  end.

(** A loop whose body appends to the output list and may raise. *)
Fixpoint for_each {A B} (f : A -> pyresult (list B)) (xs : list A)
  : pyresult (list B) :=
  match xs with
  | [] => Ok []
  | x :: rest =>
      ys <- f x ;;
      zs <- for_each f rest ;;
      Ok (ys ++ zs)
  end.

(** [int(q)] on a float: truncation towards zero. *)
Definition trunc (q : Q) : Z := Z.quot (Qnum q) (Z.pos (Qden q)).

Section Normalizer.

Context {RT : PyRuntime}.

(** [str(v)] *)
Definition py_str (v : json) : pystr :=
  match v with
  | JStr s => s
  | JNull => u "None"
  | JBool true => u "True"
  | JBool false => u "False"
  | JInt n => str_of_Z n
  | JFloat _ | JList _ | JDict _ => py_repr v
  end.

(** [int(v)], applied in [push] to a value whose text satisfies
    [isdigit()]; [None] stands for the exception. *)
Definition py_int (v : json) : option Z :=
  match v with
  | JInt n => Some n
  | JBool b => Some (if b then 1 else 0)
  | JFloat q => Some (trunc q)
  | JStr s => int_of_digits s
  | JNull | JList _ | JDict _ => None
  end.

Definition week_of_int (v : Z) : pystr :=
  if v =? 1 then u "odd" else if v =? 2 then u "even" else u "all".

(** [normalize_week_type(val)]; on a number [int(val)] is the truncation,
    which exists for every finite float. *)
Definition normalize_week_type (val : json) : pystr :=
  match val with
  | JNull => u "all"
  | JBool b => week_of_int (if b then 1 else 0)
  | JInt n => week_of_int n
  | JFloat q => week_of_int (trunc q)
  | JStr _ | JList _ | JDict _ =>
      let s := str_lower (strip (py_str val)) in
      if contains (u "числ") s || contains (u "odd") s then u "odd"
      else if contains (u "знам") s || contains (u "even") s then u "even"
      else if existsb (str_eqb s) [u "0"; u "all"; u ""] then u "all"
      else u "all"
  end.

(** *** The slotted-day parser *)

(** [(day_obj.get(key) or "").strip()]; a truthy value that is not a string
    has no [strip]. *)
Definition cell_text (d : dict) (key : pystr) : pyresult pystr :=
  let v := match dict_get d key with
           | Some v => if truthy v then v else JStr []
           | None => JStr []
           end in
  match v with
  | JStr s => Ok (strip s)
  | _ => Raise AttributeError
  end.

(** The body of the inner loop, for one pair index and one parity slot. *)
Definition slot_records (d : dict) (day_num idx : Z) (slot : pystr * pystr)
  : pyresult (list lesson) :=
  let '(key, wk) := slot in
  c <- cell_text d (key ++ str_of_Z idx) ;;
  if Nat.eqb (List.length c) 0 then Ok []
  else
    let '(kind, room, teacher, title) := _parse_cell_text c in
    let '(start, end_) :=
      match assoc_Z PAIR_TIMES idx with
      | Some (s, e) => (JStr s, JStr e)
      | None => (JNull, JNull)
      end in
    if negb (any_truthy [opt_json title; opt_json room; opt_json teacher;
                         opt_json kind])
    then Ok []
    else Ok [ mklesson (JInt day_num) start end_ (opt_json title)
                       (opt_json teacher) (opt_json room) (opt_json kind)
                       (JStr wk) ].

Definition SLOTS : list (pystr * pystr) :=
  [ (u "n", u "odd"); (u "z", u "even") ].

(** [str(day_obj.get("name", "")).strip().lower()] *)
Definition day_name (d : dict) : pystr :=
  let v := match dict_get d (u "name") with
           | Some v => v
           | None => JStr []
           end in
  str_lower (strip (py_str v)).

(** The body of the outer loop, for one element of the list. *)
Definition day_records (day_obj : json) : pyresult (list lesson) :=
  match day_obj with
  | JDict d =>
      match dict_get d (u "type") with
      | Some (JStr t) =>
          if str_eqb t (u "Lessons") then
            match assoc_str DAY_MAP_RU (day_name d) with
            | Some day_num =>
                if day_num =? 0 then Ok []
                else
                  for_each
                    (fun idx => for_each (slot_records d day_num idx) SLOTS)
                    [1; 2; 3; 4; 5; 6; 7]
            | None => Ok []
            end
          else Ok []
      | _ => Ok []
      end
  | _ => Ok []
  end.

Definition _normalize_special_day_array (raw : list json)
  : pyresult (list lesson) :=
  for_each day_records raw.

(** *** The generic walker *)

Definition WEEK_KEYS : list pystr :=
  [u "WeekType"; u "Week"; u "WeekMode"; u "TypeWeek"].
Definition DAY_KEYS : list pystr := [u "Day"; u "DayOfWeek"; u "WeekDay"].
Definition START_KEYS : list pystr :=
  [u "Start"; u "TimeStart"; u "Begin"; u "From"; u "StartTime"].
Definition END_KEYS : list pystr :=
  [u "End"; u "TimeEnd"; u "Finish"; u "To"; u "EndTime"].
Definition TITLE_KEYS : list pystr :=
  [u "Title"; u "Discipline"; u "Subject"; u "Name"; u "Lesson"].
Definition TEACHER_KEYS : list pystr :=
  [u "Teacher"; u "Lecturer"; u "Professor"; u "Prepod"; u "TeacherName"].
Definition ROOM_KEYS : list pystr :=
  [u "Room"; u "Audience"; u "Auditory"; u "Classroom"; u "Cabinet"; u "Aud"].
Definition KIND_KEYS : list pystr :=
  [u "Kind"; u "Type"; u "LessonType"; u "Format"].

(** The keys probed by [walk] before it calls [push]. *)
Definition PROBE_TITLE_KEYS : list pystr :=
  [u "Title"; u "Discipline"; u "Subject"; u "Lesson"; u "Name"].

Definition CONTAINER_KEYS : list pystr :=
  [u "Days"; u "DayItems"; u "Schedule"; u "Lessons"; u "Pairs"; u "Items"].

Definition WEEK_VARIANTS : list (pystr * pystr) :=
  [ (u "All", u "all"); (u "Numerator", u "odd"); (u "Odd", u "odd");
    (u "Denominator", u "even"); (u "Even", u "even") ].

(** [int(day) if str(day).isdigit() else day], with the exception of [int]
    caught. *)
Definition day_value (day : json) : json :=
  if str_isdigit (py_str day) then
    match py_int day with
    | Some n => JInt n
    | None => day
    end
  else day.

(** [push(item, ctx_day, ctx_week)]: the lessons it appends (none or one). *)
Definition push (item : json) (ctx_day ctx_week : json) : list lesson :=
  match item with
  | JDict d =>
      let week := normalize_week_type (_pick d WEEK_KEYS ctx_week) in
      let day := _pick d DAY_KEYS ctx_day in
      let start := _pick d START_KEYS JNull in
      let end_ := _pick d END_KEYS JNull in
      let title := _pick d TITLE_KEYS JNull in
      let teacher := _pick d TEACHER_KEYS JNull in
      let room := _pick d ROOM_KEYS JNull in
      let kind := _pick d KIND_KEYS JNull in
      if negb (any_truthy [title; room; teacher; start; end_]) then []
      else [ mklesson (day_value day) start end_ title teacher room kind
                      (JStr week) ]
  | _ => []
  end.

End Normalizer.

(** [if key in node: f(node[key])], as a loop body that appends. *)
Definition at_key {B} (f : json -> list B) (key : pystr)
  : dict -> list B :=
  fix go (d : dict) : list B :=
    match d with
    | [] => []
    | (k, v) :: rest => if str_eqb k key then f v else go rest
    end.

(** [walk(node, ctx_day, ctx_week)]: the lessons it appends, in order. *)
Fixpoint walk {RT : PyRuntime} (node : json) (ctx_day ctx_week : json)
         {struct node} : list lesson :=
  match node with
  | JList xs => flat_map (fun x => walk x ctx_day ctx_week) xs
  | JDict d =>
      let new_day := _pick d DAY_KEYS ctx_day in
      let new_week := _pick d WEEK_KEYS ctx_week in
      (if has_any d START_KEYS || has_any d PROBE_TITLE_KEYS
       then push node ctx_day ctx_week else [])
      ++ flat_map (fun key => at_key (fun v => walk v new_day new_week) key d)
                  CONTAINER_KEYS
      ++ flat_map (fun kw => at_key (fun v => walk v ctx_day (JStr (snd kw)))
                                    (fst kw) d)
                  WEEK_VARIANTS
      ++ flat_map (fun kv =>
                     match snd kv with
                     | JDict _ | JList _ => walk (snd kv) new_day new_week
                     | _ => []
                     end) d
  | _ => []
  end.

(** *** Deduplication *)

(** The tuple [(l["day"], l["start"], l["end"], l["title"], l["teacher"],
    l["room"], l["kind"], l["week"])]. *)
Definition lesson_key (l : lesson) : list json :=
  [day l; start l; end_ l; title l; teacher l; room l; kind l; week l].

(** A list or a dict has no hash. *)
Definition hashable (v : json) : bool :=
  match v with
  | JList _ | JDict _ => false
  | _ => true
  end.

(** The number a bool, an int or a float stands for. *)
Definition num_val (v : json) : option Q :=
  match v with
  | JBool b => Some (inject_Z (if b then 1 else 0))
  | JInt n => Some (inject_Z n)
  | JFloat q => Some q
  | _ => None
  end.

(** [a == b] on hashable values: numbers compare by value across bool, int
    and float; strings by content; [None] only equals [None]. *)
Definition py_eqb (a b : json) : bool :=
  match a, b with
  | JNull, JNull => true
  | JStr s, JStr t => str_eqb s t
  | _, _ =>
      match num_val a, num_val b with
      | Some x, Some y => Qeq_bool x y
      | _, _ => false
      end
  end.

(** Equality of two key tuples, item by item. *)
Fixpoint key_eqb (k1 k2 : list json) : bool :=
  match k1, k2 with
  | [], [] => true
  | a :: k1', b :: k2' => py_eqb a b && key_eqb k1' k2'
  | _, _ => false
  end.

(** The final loop of [normalize_schedule]: [seen] is the set of keys met so
    far, [uniq] the list built so far; hashing a key with a list or a dict in
    it raises TypeError. *)
Fixpoint dedup_loop (lessons : list lesson) (seen : list (list json))
         (uniq : list lesson) : pyresult (list lesson) :=
  match lessons with
  | [] => Ok uniq
  | l :: rest =>
      let key := lesson_key l in
      if negb (forallb hashable key) then Raise TypeError
      else if existsb (key_eqb key) seen then dedup_loop rest seen uniq
      else dedup_loop rest (key :: seen) (uniq ++ [l])
  end.

(** *** [normalize_schedule] *)

(** [isinstance(x, dict) and ("n1" in x or "z1" in x)] *)
Definition has_first_slot (x : json) : bool :=
  match x with
  | JDict d => dict_has d (u "n1") || dict_has d (u "z1")
  | _ => false
  end.

(** The test that selects the slotted-day parser. *)
Definition is_slotted (raw : json) : bool :=
  match raw with
  | JList xs => existsb has_first_slot xs
  | _ => false
  end.

Definition normalize_schedule {RT : PyRuntime} (raw : json)
  : pyresult (list lesson) :=
  match raw with
  | JList xs =>
      if existsb has_first_slot xs then _normalize_special_day_array xs
      else dedup_loop (walk raw JNull JNull) [] []
  | _ => dedup_loop (walk raw JNull JNull) [] []
  end.

(** ** A reference runtime for evaluating examples

    [lower_basic] converts the capital letters of Basic Latin and of the
    Cyrillic block and leaves every other character alone; [repr_basic]
    prints lists and dicts without escapes in strings and a float by its
    integer part followed by ".0". The examples below never reach the
    inputs on which these differ from CPython. *)

Definition lower_cp (c : codepoint) : codepoint :=
  (if in_range c 65 90 then c + 32
   else if in_range c 0x410 0x42f then c + 32
   else if in_range c 0x400 0x40f then c + 80
   else c)%N.

Definition lower_basic (s : pystr) : pystr := map lower_cp s.

Fixpoint repr_basic (v : json) : pystr :=
  match v with
  | JNull => u "None"
  | JBool true => u "True"
  | JBool false => u "False"
  | JInt n => str_of_Z n
  | JFloat q => str_of_Z (trunc q) ++ u ".0"
  | JStr s => u "'" ++ s ++ u "'"
  | JList xs => u "[" ++ join (u ", ") (map repr_basic xs) ++ u "]"
  | JDict kvs =>
      u "{"
      ++ join (u ", ")
              (map (fun kv => u "'" ++ fst kv ++ u "': " ++ repr_basic (snd kv))
                   kvs)
      ++ u "}"
  end.

Definition basic_runtime : PyRuntime :=
  {| str_lower := lower_basic; py_repr := repr_basic |}.

(* ================================================================== *)
(** * Part IV: vocabulary of the statements and example payloads *)
(* ================================================================== *)

(** ** Vocabulary of the statements *)

(** A field is present when it is not [None]. *)
Definition present (v : json) : Prop := v <> JNull.



(** The shape of a record of the slotted-day parser. *)
Definition day_in_range (l : lesson) : Prop :=
  exists name n,
    In (name, n) DAY_MAP_RU /\ day l = JInt n /\ 1 <= n <= 7.

Definition week_is_parity (l : lesson) : Prop :=
  week l = JStr (u "odd") \/ week l = JStr (u "even").

Definition times_from_table (l : lesson) : Prop :=
  exists idx s e,
    In (idx, (s, e)) PAIR_TIMES /\ start l = JStr s /\ end_ l = JStr e.

(** The record that the slotted-day parser builds from the stripped cell
    text [c] found at pair [idx] of day [n], in the slot of parity [wk]. *)
Definition slot_lesson (n idx : Z) (c wk : pystr) : lesson :=
  let '(kind, room, teacher, title) := _parse_cell_text c in
  let times := assoc_Z PAIR_TIMES idx in
  mklesson (JInt n)
           (match times with Some (s, _) => JStr s | None => JNull end)
           (match times with Some (_, e) => JStr e | None => JNull end)
           (opt_json title) (opt_json teacher) (opt_json room)
           (opt_json kind) (JStr wk).

(** The cell text is not empty and yields a kind, a room, a teacher or a
    title. *)
Definition informative (c : pystr) : bool :=
  let '(kind, room, teacher, title) := _parse_cell_text c in
  negb (Nat.eqb (List.length c) 0)
  && any_truthy [opt_json title; opt_json room; opt_json teacher;
                 opt_json kind].

(** Two records are equal on the tuple of their eight fields. *)
Definition same_key (a b : lesson) : Prop :=
  key_eqb (lesson_key a) (lesson_key b) = true.

(** No two records of the list are equal on the tuple. *)
Definition distinct_keys (ls : list lesson) : Prop :=
  ForallOrdPairs (fun a b => ~ same_key a b) ls.

(** [a] is [b] with some elements removed, the order kept. *)
Inductive subseq {A} : list A -> list A -> Prop :=
| subseq_nil : subseq [] []
| subseq_skip x a b : subseq a b -> subseq a (x :: b)
| subseq_keep x a b : subseq a b -> subseq (x :: a) (x :: b).

(** [l] occurs in [ls] with no earlier record equal to it on the tuple. *)
Definition first_of_its_key (l : lesson) (ls : list lesson) : Prop :=
  exists pre post,
    ls = pre ++ l :: post /\ forall x, In x pre -> ~ same_key x l.

(** The detection condition in the words of the design document: the
    element is a dict that carries an index-suffixed numerator or denominator
    slot key, n1..n7 or z1..z7. *)
Definition SLOT_KEY_NAMES : list pystr :=
  flat_map (fun idx => [u "n" ++ str_of_Z idx; u "z" ++ str_of_Z idx])
           [1; 2; 3; 4; 5; 6; 7].

Definition exposes_slot_keys (x : json) : bool :=
  match x with
  | JDict d => has_any d SLOT_KEY_NAMES
  | _ => false
  end.

(** The detection condition of the code, as a proposition. *)
Definition has_first_slot_key (raw : json) : Prop :=
  exists xs d,
    raw = JList xs /\ In (JDict d) xs
    /\ (dict_has d (u "n1") = true \/ dict_has d (u "z1") = true).

(** ** Example payloads *)

(** The two cell texts of the docstring of [_parse_cell_text]. *)
Definition cell_lecture : pystr :=
  u "лк, 529а-3, Филатов Д.О., Общая психология".
Definition cell_practice : pystr :=
  u "пр, Физическая культура и спорт, поток".

(** A day-object of the slotted format with the first pair filled in on
    both parities. *)
Definition monday_obj : json :=
  JDict [ (u "type", JStr (u "Lessons"));
          (u "name", JStr (u "Понедельник"));
          (u "n1", JStr cell_lecture);
          (u "z1", JStr cell_practice) ].

(** A day-object with one cell. *)
Definition lecture_obj : json :=
  JDict [ (u "type", JStr (u "Lessons"));
          (u "name", JStr (u "Понедельник"));
          (u "n1", JStr cell_lecture) ].

(** A day-object with the same cell in both slots of the third pair. *)
Definition tuesday_obj : json :=
  JDict [ (u "type", JStr (u "Lessons"));
          (u "name", JStr (u "вторник"));
          (u "n3", JStr cell_lecture);
          (u "z3", JStr cell_lecture) ].

Definition tuesday_lecture (wk : string) : lesson :=
  mklesson (JInt 2) (JStr (u "12:10")) (JStr (u "13:40"))
           (JStr (u "Общая психология")) (JStr (u "Филатов Д.О."))
           (JStr (u "529а-3")) (JStr (u "лк")) (JStr (u wk)).

(** A day-object whose name is no weekday. *)
Definition noday_obj : json :=
  JDict [ (u "type", JStr (u "Lessons"));
          (u "name", JStr (u "Каникулы"));
          (u "n1", JStr cell_lecture) ].

(** A day-object that only has the second pair: no key "n1" or "z1". *)
Definition second_pair_obj : json :=
  JDict [ (u "type", JStr (u "Lessons"));
          (u "name", JStr (u "Понедельник"));
          (u "n2", JStr cell_lecture) ].

Definition lecture_at (t_start t_end wk : string) : lesson :=
  mklesson (JInt 1) (JStr (u t_start)) (JStr (u t_end))
           (JStr (u "Общая психология")) (JStr (u "Филатов Д.О."))
           (JStr (u "529а-3")) (JStr (u "лк")) (JStr (u wk)).

Definition practice_even : lesson :=
  mklesson (JInt 1) (JStr (u "08:30")) (JStr (u "10:00"))
           (JStr (u "Физическая культура и спорт, поток")) JNull JNull
           (JStr (u "пр")) (JStr (u "even")).

(** A nested payload: the lesson node is reached twice, through the
    container key and through the catch-all loop. *)
Definition math_node : json :=
  JDict [ (u "Title", JStr (u "Math")); (u "Start", JStr (u "08:30")) ].

Definition nested_payload : json :=
  JDict [ (u "Lessons", JList [math_node]) ].

Definition math_lesson (d : json) (wk : string) : lesson :=
  mklesson d (JStr (u "08:30")) JNull (JStr (u "Math")) JNull JNull JNull
           (JStr (u wk)).

(** A node with a day of its own and a week-variant container. *)
Definition numerator_payload : json :=
  JDict [ (u "Day", JInt 1); (u "Numerator", JList [math_node]) ].

(** A node whose only field is a title that is present but not truthy. *)
Definition zero_title_payload : json := JDict [ (u "Title", JInt 0) ].


(** A node whose end precedes its start. *)
Definition reversed_payload : json :=
  JDict [ (u "Start", JStr (u "10:00")); (u "End", JStr (u "08:30")) ].

(* ================================================================== *)
(** * Part IV-b: more of the code *)
(* ================================================================== *)

(** ** HTML formatting of the week view (src/app/bot.py) *)

(** [s.replace(old, new)] for a one-character [old]. *)
Definition replace_char (old : codepoint) (new s : pystr) : pystr :=
  flat_map (fun c => if (c =? old)%N then new else [c]) s.

(** [hesc(s)]; the argument is a [str] or [None]. *)
Definition hesc (s : option pystr) : pystr :=
  let s := match s with Some s => s | None => [] end in
  replace_char 62%N (u "&gt;")
    (replace_char 60%N (u "&lt;") (replace_char 38%N (u "&amp;") s)).

(** What the three replacements of [hesc] make of one character. *)
Definition hesc_char (c : codepoint) : pystr :=
  if (c =? 38)%N then u "&amp;"
  else if (c =? 60)%N then u "&lt;"
  else if (c =? 62)%N then u "&gt;"
  else [c].

(** [html_quote(lines)] *)
Definition html_quote (lines : list pystr) : pystr :=
  u "<blockquote>" ++ join [10%N] (map (fun x => hesc (Some x)) lines)
    ++ u "</blockquote>".

(** A row of the lesson query: (day, time_start, time_end, title, teacher,
    room, kind, week); a text column holds a string or NULL. *)
Record lesson_row := mkrow {
  r_day : Z;
  r_ts : option pystr;
  r_te : option pystr;
  r_title : option pystr;
  r_teacher : option pystr;
  r_room : option pystr;
  r_kind : option pystr;
  r_week : option pystr
}.

(** [bool(s)] for a string or [None]. *)
Definition text_truthy (s : option pystr) : bool :=
  match s with
  | Some (_ :: _) => true
  | _ => false
  end.

Section Rendering.

(** [str.upper()], taken as given. *)
Variable str_upper : pystr -> pystr.

Definition row_to_lines (row : lesson_row) : list pystr :=
  let title_line := hesc (r_title row) in
  let info_parts :=
    (if text_truthy (r_ts row) && text_truthy (r_te row)
     then [hesc (r_ts row) ++ u "–" ++ hesc (r_te row)] else [])
    ++ (if text_truthy (r_kind row)
        then [hesc (Some (str_upper
                            (match r_kind row with Some k => k | None => [] end)))]
        else [])
    ++ (if text_truthy (r_room row) then [hesc (r_room row)] else []) in
  [title_line]
    ++ (if text_truthy (r_teacher row) then [hesc (r_teacher row)] else [])
    ++ [join (u "   ") info_parts].

(** [if lines and lines[-1] == "": lines.pop()] *)
Definition pop_blank (lines : list pystr) : list pystr :=
  match rev lines with
  | [] :: rest => rev rest
  | _ => lines
  end.

Definition render_day_block (header_line : pystr) (rows : list lesson_row)
  : pystr :=
  match rows with
  | [] => html_quote [header_line; u "пар нет"]
  | _ =>
      html_quote
        (pop_blank
           (header_line :: flat_map (fun r => row_to_lines r ++ [[]]) rows))
  end.

End Rendering.

(** Decoding of the three entities that [hesc] writes, in one pass from the
    left; [fuel] bounds the number of steps. *)
Fixpoint unescape_fuel (fuel : nat) (s : pystr) : pystr :=
  match fuel with
  | O => []
  | S fuel' =>
      match s with
      | [] => []
      | c :: r =>
          if startswith (u "&amp;") s then 38%N :: unescape_fuel fuel' (skipn 5 s)
          else if startswith (u "&lt;") s
               then 60%N :: unescape_fuel fuel' (skipn 4 s)
               else if startswith (u "&gt;") s
                    then 62%N :: unescape_fuel fuel' (skipn 4 s)
                    else c :: unescape_fuel fuel' r
      end
  end.

Definition unescape (s : pystr) : pystr := unescape_fuel (List.length s) s.

(** A text without the characters that [hesc] rewrites. *)
Definition plain_text (s : pystr) : Prop :=
  Forall (fun c => c <> 38%N /\ c <> 60%N /\ c <> 62%N) s.

(** A text without angle brackets. *)
Definition no_angle (s : pystr) : Prop :=
  Forall (fun c => c <> 60%N /\ c <> 62%N) s.

(** ** Vocabulary for the helpers of the normalizer *)

(** The key is missing from the dict, or holds [None] or the empty string:
    [_pick] passes over it. *)
Definition blank_at (d : dict) (k : pystr) : Prop :=
  match dict_get d k with
  | Some v => none_or_empty v = true
  | None => True
  end.

(** The tokens of a cell text: the comma-separated parts, stripped, the
    empty ones dropped. *)
Definition cell_tokens (s : pystr) : list pystr :=
  map strip
      (filter (fun p => negb (Nat.eqb (List.length (strip p)) 0))
              (split 44%N s)).

(** The three values of the week column. *)
Definition WEEK_VALUES : list json :=
  [JStr (u "all"); JStr (u "odd"); JStr (u "even")].

(** A value that is neither empty nor a string: a cell holding it has no
    [strip]. *)
Definition not_text (v : json) : Prop :=
  truthy v = true /\ forall s, v <> JStr s.

(** A day-object that the parser goes through: its type is "Lessons" and
    its name is a weekday. *)
Definition recognised_day {RT : PyRuntime} (d : dict) : Prop :=
  dict_get d (u "type") = Some (JStr (u "Lessons"))
  /\ exists n, assoc_str DAY_MAP_RU (day_name d) = Some n.

(** One of the fourteen slot keys of the day-object holds a value that is
    neither empty nor a string. *)
Definition bad_cell (d : dict) : Prop :=
  exists idx slot v,
    In idx [1; 2; 3; 4; 5; 6; 7] /\ In slot SLOTS
    /\ dict_get d (fst slot ++ str_of_Z idx) = Some v /\ not_text v.

(** ** Groups (src/app/vlsu_api.py) *)

(** The exceptions of the functions below. *)
Module Exc.
Inductive t := KeyError | ValueError | TypeError | AttributeError.
End Exc.

Inductive outcome (A : Type) :=
| Returns (a : A)
| Raises (e : Exc.t).

Arguments Returns {A} a.
Arguments Raises {A} e.

(** [d.get(k)] with Python's [None] for a missing key. *)
Definition dict_get_none (d : dict) (k : pystr) : json :=
  match dict_get d k with
  | Some v => v
  | None => JNull
  end.

(** [d.get(k1) or d.get(k2) or ... or d.get(kn)]: the first truthy value,
    or the last value when none is truthy. *)
Fixpoint get_or (d : dict) (keys : list pystr) : json :=
  match keys with
  | [] => JNull
  | [k] => dict_get_none d k
  | k :: ks =>
      let v := dict_get_none d k in
      if truthy v then v else get_or d ks
  end.

(** [_normalize_groups(raw)] *)
Definition _normalize_groups (raw : json) : list dict :=
  match raw with
  | JList xs =>
      flat_map
        (fun g =>
           match g with
           | JDict d =>
               [ [ (u "id", get_or d [u "Nrec"; u "Value"; u "Id"; u "ID"]);
                   (u "name", get_or d [u "Name"; u "Text"]);
                   (u "course",
                    get_or d [u "Course"; u "Kurs"; u "CourseNumber"]) ] ]
           | _ => []
           end) xs
  | _ => []
  end.

Section Groups.

Context {RT : PyRuntime}.

(** [(query or "").lower().replace(" ", "")] *)
Definition group_query (query : option pystr) : pystr :=
  replace_char 32%N []
    (str_lower (match query with Some q => q | None => [] end)).

(** [str(g["name"]).lower().replace(" ", "")]; a dict without the key
    raises KeyError. *)
Definition group_name_key (g : dict) : outcome pystr :=
  match dict_get g (u "name") with
  | Some v => Returns (replace_char 32%N [] (str_lower (py_str v)))
  | None => Raises Exc.KeyError
  end.

(** One loop of [find_group]: the first group whose name passes the test. *)
Fixpoint first_group (test : pystr -> bool) (groups : list dict)
  : outcome (option dict) :=
  match groups with
  | [] => Returns None
  | g :: rest =>
      match group_name_key g with
      | Raises e => Raises e
      | Returns name =>
          if test name then Returns (Some g) else first_group test rest
      end
  end.

Definition find_group (groups : list dict) (query : option pystr)
  : outcome (option dict) :=
  let q := group_query query in
  match first_group (str_eqb q) groups with
  | Returns None => first_group (contains q) groups
  | r => r
  end.

End Groups.

(** ** [int(x)] *)

(** The white space that [int] skips around the number: the characters of
    [str.isspace] except the four separators U+001C..U+001F. *)
Definition int_space (c : codepoint) : bool :=
  isspace c && negb (in_range c 28%N 31%N).

Fixpoint int_lstrip (s : pystr) : pystr :=
  match s with
  | [] => []
  | c :: r => if int_space c then int_lstrip r else s
  end.

Definition int_strip (s : pystr) : pystr :=
  rev (int_lstrip (rev (int_lstrip s))).

(** [int(s)] for a string, in base ten: white space around, a sign, and
    groups of decimal digits joined by single underscores; [None] stands
    for ValueError. *)
Definition int_of_str (s : pystr) : option Z :=
  let s := int_strip s in
  let '(negative, body) :=
    match s with
    | c :: r =>
        if (c =? 45)%N then (true, r)
        else if (c =? 43)%N then (false, r) else (false, s)
    | [] => (false, s)
    end in
  let groups := split 95%N body in
  if forallb (fun g => negb (Nat.eqb (List.length g) 0) && forallb isdecimal g)
             groups
  then
    match int_of_digits (List.concat groups) with
    | Some n => Some (if negative then - n else n)
    | None => None
    end
  else None.

(** [int(v)] on a JSON value. *)
Definition int_of_json (v : json) : outcome Z :=
  match v with
  | JNull | JList _ | JDict _ => Raises Exc.TypeError
  | JBool b => Returns (if b then 1 else 0)
  | JInt n => Returns n
  | JFloat q => Returns (trunc q)
  | JStr s =>
      match int_of_str s with
      | Some n => Returns n
      | None => Raises Exc.ValueError
      end
  end.

(** ** [int(str(n))] *)

(** The characters of a decimal number. *)
Definition ascii_digit (c : codepoint) : bool := in_range c 48%N 57%N.

(** One step of reading a number: the next digit is appended. *)
Definition digit_step (acc : option Z) (c : codepoint) : option Z :=
  match acc, decimal_value c with
  | Some n, Some d => Some (10 * n + d)
  | _, _ => None
  end.

(** The integers that [str] converts: those of at most 4300 digits. *)
Definition str_limit (n : Z) : Prop :=
  (List.length (str_of_Z (Z.abs n)) <= 4300)%nat.

(** ** The structured dump and the rows of the lessons table
    (src/app/cli.py) *)

Definition DAYS_RU : list (Z * pystr) :=
  [ (1, u "Понедельник"); (2, u "Вторник"); (3, u "Среда");
    (4, u "Четверг"); (5, u "Пятница"); (6, u "Суббота");
    (7, u "Воскресенье") ].

(** [pack(lesson)]: the dict with the keys time (start, end), title,
    teacher, room, kind. *)
Record packed := mkpacked {
  p_start : json;
  p_end : json;
  p_title : json;
  p_teacher : json;
  p_room : json;
  p_kind : json
}.

Definition pack (l : lesson) : packed :=
  mkpacked (start l) (end_ l) (title l) (teacher l) (room l) (kind l).

(** [{str(i): [] for i in range(1, 8)}] *)
Definition day_lists : Type := list (pystr * list packed).

Definition empty_days : day_lists :=
  map (fun i => (str_of_Z i, [])) [1; 2; 3; 4; 5; 6; 7].

Definition WEEK_NAMES : list pystr := [u "all"; u "odd"; u "even"].

Definition empty_weeks : list (pystr * day_lists) :=
  map (fun wk => (wk, empty_days)) WEEK_NAMES.

(** [days[dk].append(x)] *)
Fixpoint days_append (dk : pystr) (x : packed) (days : day_lists)
  : day_lists :=
  match days with
  | [] => []
  | (k, arr) :: rest =>
      if str_eqb k dk then (k, arr ++ [x]) :: rest
      else (k, arr) :: days_append dk x rest
  end.

(** [weeks[wk][dk].append(x)] *)
Fixpoint weeks_append (wk dk : pystr) (x : packed)
         (weeks : list (pystr * day_lists)) : list (pystr * day_lists) :=
  match weeks with
  | [] => []
  | (k, days) :: rest =>
      if str_eqb k wk then (k, days_append dk x days) :: rest
      else (k, days) :: weeks_append wk dk x rest
  end.

(** [weeks[wk][dk]], when both keys are there. *)
Definition bucket {A} (weeks : list (pystr * list (pystr * A)))
           (wk dk : pystr) : option A :=
  match assoc_str weeks wk with
  | Some days => assoc_str days dk
  | None => None
  end.

(** The keys of [weeks] and, under each, the keys of its days. *)
Definition shape {A} (weeks : list (pystr * list (pystr * A)))
  : list (pystr * list pystr) :=
  map (fun kv => (fst kv, map fst (snd kv))) weeks.

(** A day of the cleaned block: its name and its lessons. *)
Record day_block := mkblock {
  b_name : pystr;
  b_lessons : list packed
}.

(** [DAYS_RU.get(int(day_key), day_key)] *)
Definition day_block_name (day_key : pystr) : pystr :=
  match int_of_str day_key with
  | Some i =>
      match assoc_Z DAYS_RU i with
      | Some name => name
      | None => day_key
      end
  | None => day_key
  end.

(** The second loop: empty days are dropped, the others get their name. *)
Definition clean_days (days : day_lists) : list (pystr * day_block) :=
  flat_map (fun kv =>
              match snd kv with
              | [] => []
              | arr => [(fst kv, mkblock (day_block_name (fst kv)) arr)]
              end) days.

Section StructuredPayload.

Context {RT : PyRuntime}.

(** [wk = (l.get("week") or "all").lower()], then "all" when [wk] is no
    key of [weeks]. *)
Definition lesson_week (l : lesson) : outcome pystr :=
  let v := if truthy (week l) then week l else JStr (u "all") in
  match v with
  | JStr s =>
      let wk := str_lower s in
      Returns (if existsb (str_eqb wk) WEEK_NAMES then wk else u "all")
  | _ => Raises Exc.AttributeError
  end.

(** [day = int(l.get("day") or 0)] *)
Definition lesson_day (l : lesson) : outcome Z :=
  int_of_json (if truthy (day l) then day l else JInt 0).

(** The body of the first loop of [_structured_payload]. *)
Definition file_lesson (weeks : list (pystr * day_lists)) (l : lesson)
  : outcome (list (pystr * day_lists)) :=
  match lesson_week l with
  | Raises e => Raises e
  | Returns wk =>
      match lesson_day l with
      | Raises e => Raises e
      | Returns d =>
          if (d <? 1) || (7 <? d) then Returns weeks
          else Returns (weeks_append wk (str_of_Z d) (pack l) weeks)
      end
  end.

Fixpoint file_lessons (weeks : list (pystr * day_lists))
         (lessons : list lesson) : outcome (list (pystr * day_lists)) :=
  match lessons with
  | [] => Returns weeks
  | l :: rest =>
      match file_lesson weeks l with
      | Raises e => Raises e
      | Returns weeks' => file_lessons weeks' rest
      end
  end.

(** The value under "weeks" of [_structured_payload(..., lessons=lessons)]. *)
Definition structured_weeks (lessons : list lesson)
  : outcome (list (pystr * list (pystr * day_block))) :=
  match file_lessons empty_weeks lessons with
  | Raises e => Raises e
  | Returns weeks =>
      Returns (map (fun kv => (fst kv, clean_days (snd kv))) weeks)
  end.

(** The lessons that the dump lists under week [wk] and day [d]. *)
Definition filed_under (wk : pystr) (d : Z) (l : lesson) : bool :=
  match lesson_week l, lesson_day l with
  | Returns wk', Returns d' => str_eqb wk' wk && (d' =? d)
  | _, _ => false
  end.

Definition selection (lessons : list lesson) (wk : pystr) (d : Z)
  : list packed :=
  map pack (filter (filed_under wk d) lessons).

End StructuredPayload.

(** A row of the INSERT of [_db_save_lessons]. *)
Record db_row := mkdbrow {
  db_group_id : pystr;
  db_day : Z;
  db_time_start : json;
  db_time_end : json;
  db_title : json;
  db_teacher : json;
  db_room : json;
  db_kind : json;
  db_week : json
}.

(** [(group_id, int(x.get("day", 0)), x.get("start", ""), ...)] for a
    record of the normalizer, which has all eight keys. *)
Definition lesson_db_row (group_id : pystr) (x : lesson) : outcome db_row :=
  match int_of_json (day x) with
  | Raises e => Raises e
  | Returns d =>
      Returns (mkdbrow group_id d (start x) (end_ x) (title x) (teacher x)
                       (room x) (kind x) (week x))
  end.

(** The list comprehension passed to [executemany]. *)
Fixpoint lesson_db_rows (group_id : pystr) (lessons : list lesson)
  : outcome (list db_row) :=
  match lessons with
  | [] => Returns []
  | x :: rest =>
      match lesson_db_row group_id x with
      | Raises e => Raises e
      | Returns r =>
          match lesson_db_rows group_id rest with
          | Raises e => Raises e
          | Returns rs => Returns (r :: rs)
          end
      end
  end.

(** What the lessons table demands of a row: day, time_start and time_end
    are NOT NULL, and week is one of 'all', 'odd', 'even'. *)
Definition row_fits_table (r : db_row) : Prop :=
  db_time_start r <> JNull /\ db_time_end r <> JNull
  /\ In (db_week r) WEEK_VALUES.

(** ** Keyboards and callback queries (src/app/bot.py) *)

(** A button: the arguments of one call of [kb.button]. *)
Record button := mkbutton {
  btn_text : pystr;
  btn_data : pystr
}.

(** The bound [i] of a slice of a sequence of length [n]. *)
Definition slice_index (n i : Z) : Z :=
  if i <? 0 then Z.max (i + n) 0 else Z.min i n.

(** [items[start:stop]] *)
Definition py_slice {A} (items : list A) (start stop : Z) : list A :=
  let n := Z.of_nat (List.length items) in
  let a := slice_index n start in
  let b := slice_index n stop in
  firstn (Z.to_nat (b - a)) (skipn (Z.to_nat a) items).

(** A row of the institutes query, (id, name), and a row of the groups
    queries, (id, name, course); the columns are texts. *)
Definition inst_row : Type := pystr * pystr.
Definition group_row : Type := pystr * pystr * pystr.

Definition row_id (r : group_row) : pystr := fst (fst r).
Definition row_name (r : group_row) : pystr := snd (fst r).

(** [build_inst_page(page)], on the rows that [q_institutes] returned: the
    buttons in the order in which they are added. *)
Definition build_inst_page (insts : list inst_row) (page : Z) : list button :=
  let start := page * 10 in
  let chunk := py_slice insts start (start + 10) in
  map (fun r => mkbutton (snd r) (u "inst:" ++ fst r)) chunk
  ++ (if 0 <? page
      then [mkbutton (u "« Назад") (u "instpage:" ++ str_of_Z (page - 1))]
      else [])
  ++ (if start + 10 <? Z.of_nat (List.length insts)
      then [mkbutton (u "Вперёд »") (u "instpage:" ++ str_of_Z (page + 1))]
      else []).

(** [kb_courses(course_nums)] *)
Definition kb_courses (course_nums : list Z) : list button :=
  map (fun cnum => mkbutton (str_of_Z cnum ++ u " курс")
                            (u "course:" ++ str_of_Z cnum)) course_nums
  ++ [mkbutton (u "Все курсы") (u "course:all")].

(** [kb_groups(items, page, per_page)] *)
Definition kb_groups (items : list group_row) (page per_page : Z)
  : list button :=
  let start := page * per_page in
  let chunk := py_slice items start (start + per_page) in
  map (fun r => mkbutton (row_name r) (u "group:" ++ row_id r)) chunk
  ++ (if 0 <? page
      then [mkbutton (u "« Назад") (u "grouppage:" ++ str_of_Z (page - 1))]
      else [])
  ++ (if start + per_page <? Z.of_nat (List.length items)
      then [mkbutton (u "Вперёд »") (u "grouppage:" ++ str_of_Z (page + 1))]
      else []).

(** The handlers of callback queries, in the order of their registration. *)
Inductive handler :=
| h_pick_inst
| h_pick_course
| h_group_page
| h_pick_group
| h_navigate_week
| h_change_group.

Definition HANDLERS : list handler :=
  [h_pick_inst; h_pick_course; h_group_page; h_pick_group; h_navigate_week;
   h_change_group].

(** The filter of a handler on the data of the query. *)
Definition callback_filter (h : handler) (data : pystr) : bool :=
  match h with
  | h_pick_inst => startswith (u "inst:") data
  | h_pick_course => startswith (u "course:") data
  | h_group_page => startswith (u "grouppage:") data
  | h_pick_group => startswith (u "group:") data
  | h_navigate_week => startswith (u "week:") data
  | h_change_group => str_eqb data (u "menu:change")
  end.

(** The handler that gets the query: the first whose filter accepts the
    data, if any. *)
Definition dispatch (data : pystr) : option handler :=
  find (fun h => callback_filter h data) HANDLERS.

(** [c.data.split(":")[1]]; [None] stands for IndexError. *)
Definition callback_arg (data : pystr) : option pystr :=
  nth_error (split 58%N data) 1.

(** [group_page]: the keyboard that it shows for the cached groups; [None]
    when reading the page number raises. *)
Definition group_page (data : pystr) (groups : list group_row)
  : option (list button) :=
  match callback_arg data with
  | Some arg =>
      match int_of_str arg with
      | Some page => Some (kb_groups groups page 12)
      | None => None
      end
  | None => None
  end.

(** [pick_group]: the group id and the group name that it stores in the
    profile, [next((n for i, n, _ in groups if i == gid), gid)]. *)
Definition pick_group (data : pystr) (groups : list group_row)
  : option (pystr * pystr) :=
  match callback_arg data with
  | Some gid =>
      Some (gid,
            match find (fun r => str_eqb (row_id r) gid) groups with
            | Some r => row_name r
            | None => gid
            end)
  | None => None
  end.

(** What [pick_course] reads from the data: all courses or one course. *)
Inductive course_choice :=
| AllCourses
| Course (course_num : Z).

Definition pick_course (data : pystr) : option course_choice :=
  match callback_arg data with
  | Some sel =>
      if str_eqb sel (u "all") then Some AllCourses
      else option_map Course (int_of_str sel)
  | None => None
  end.

(** The first match of [(\d+)] from a position where a digit stands. *)
Fixpoint digit_run (s : pystr) : pystr :=
  match s with
  | c :: r => if isdecimal c then c :: digit_run r else []
  | [] => []
  end.

(** [re.search(r"(\d+)", s)]: group 1 of the leftmost match. *)
Fixpoint search_digits (s : pystr) : option pystr :=
  match s with
  | [] => None
  | c :: r => if isdecimal c then Some (c :: digit_run r)
              else search_digits r
  end.

(** [_course_to_int(s)]; [None] at the top stands for ValueError. *)
Definition _course_to_int (s : option pystr) : option (option Z) :=
  match s with
  | None | Some [] => Some None
  | Some s =>
      match search_digits s with
      | Some m => option_map Some (int_of_str m)
      | None => Some None
      end
  end.

(** [sorted(set(xs))] on integers: the elements of [xs] in ascending order,
    each once. *)
Fixpoint insert_sorted (x : Z) (l : list Z) : list Z :=
  match l with
  | [] => [x]
  | y :: r =>
      if x <? y then x :: l
      else if x =? y then l
      else y :: insert_sorted x r
  end.

Definition sorted_set (xs : list Z) : list Z := fold_right insert_sorted [] xs.

(** [[c for c in (_course_to_int(v) for v in vals) if c]]; [None] stands
    for ValueError. *)
Fixpoint course_ints (vals : list pystr) : option (list Z) :=
  match vals with
  | [] => Some []
  | v :: rest =>
      match _course_to_int (Some v) with
      | None => None
      | Some c =>
          match course_ints rest with
          | None => None
          | Some cs =>
              Some (match c with
                    | Some n => if n =? 0 then cs else n :: cs
                    | None => cs
                    end)
          end
      end
  end.

(** [q_courses_for_institute], on the values that its query returned. *)
Definition q_courses_for_institute (vals : list pystr) : option (list Z) :=
  option_map sorted_set (course_ints vals).

(* ================================================================== *)
(** * Part V: properties of the calendar resolver *)
(* ================================================================== *)

Module CalendarFacts.

Import Calendar.

(** ** Lemmas *)

Lemma date_le_spec (a b : date) : date_le a b = true <-> date_leq a b.
Proof.
  unfold date_le, date_leq.
  rewrite !orb_true_iff, !andb_true_iff, orb_true_iff, andb_true_iff.
  rewrite !Z.ltb_lt, !Z.eqb_eq, Z.leb_le.
  tauto.
Qed.

Lemma covers_spec (s e : date) (k : string) (d : date) :
  date_le s d && date_le d e = true <-> covers (s, e, k) d.
Proof.
  unfold covers, p_start, p_end; simpl.
  rewrite andb_true_iff, !date_le_spec. tauto.
Qed.

Lemma scan_periods_first (d : date) (pre : list period) (p : period)
      (post : list period) :
  (forall q, In q pre -> ~ covers q d) ->
  covers p d ->
  scan_periods d (pre ++ p :: post) = Some (p_kind p).
Proof.
  intros Hpre Hp.
  induction pre as [|[[s e] k] pre IH]; simpl.
  - destruct p as [[s e] k].
    apply covers_spec in Hp. rewrite Hp. reflexivity.
  - destruct (date_le s d && date_le d e) eqn:E.
    + exfalso. apply (Hpre (s, e, k)); [now left|].
      now apply (covers_spec s e k) in E.
    + apply IH. intros q Hq. apply Hpre. now right.
Qed.

Lemma scan_periods_none (d : date) (ps : list period) :
  (forall q, In q ps -> ~ covers q d) ->
  scan_periods d ps = None.
Proof.
  induction ps as [|[[s e] k] ps IH]; simpl; intros H; [reflexivity|].
  destruct (date_le s d && date_le d e) eqn:E.
  - exfalso. apply (H (s, e, k)); [now left|].
    now apply (covers_spec s e k) in E.
  - apply IH. intros q Hq. apply H. now right.
Qed.

Lemma scan_periods_kind (d : date) (ps : list period) (k : string) :
  scan_periods d ps = Some k -> In k (map p_kind ps).
Proof.
  induction ps as [|[[s e] k'] ps IH]; simpl; [discriminate|].
  destruct (date_le s d && date_le d e).
  - intros [= ->]. now left.
  - intros H. right. now apply IH.
Qed.

(** C1. [get_week_status] returns the tag of the first override period, in
    list order, whose inclusive range contains the date; on a date that no
    period contains it returns "holiday" when the ISO weekday is 7, and
    otherwise computes weekIndex = floor(days since the semester start / 7)
    + 1 and returns "before" when weekIndex <= 0, else "odd" when
    block = floor((weekIndex - 1) / 7) is even and "even" when it is odd.
    Every date resolves to one of the seven regimes. *)
Theorem get_week_status_resolves (x : date_like) :
  let d := as_date x in
  (forall pre p post,
      SPECIAL_PERIODS = pre ++ p :: post ->
      (forall q, In q pre -> ~ covers q d) ->
      covers p d ->
      get_week_status x = p_kind p)
  /\ ((forall q, In q SPECIAL_PERIODS -> ~ covers q d) ->
      (isoweekday d = 7 -> get_week_status x = "holiday"%string)
      /\ (isoweekday d <> 7 ->
          let weekIndex := days_between d SEMESTER_START / 7 + 1 in
          (weekIndex <= 0 -> get_week_status x = "before"%string)
          /\ (0 < weekIndex ->
              let block := (weekIndex - 1) / 7 in
              (Z.Even block -> get_week_status x = "odd"%string)
              /\ (Z.Odd block -> get_week_status x = "even"%string))))
  /\ In (get_week_status x) regimes.
Proof.
  intros d.
  assert (Hunfold : get_week_status x =
            match scan_periods d SPECIAL_PERIODS with
            | Some k => k
            | None =>
                if isoweekday d =? 7 then "holiday"%string
                else if days_between d SEMESTER_START / 7 + 1 <=? 0
                     then "before"%string
                     else if ((days_between d SEMESTER_START / 7 + 1 - 1) / 7)
                               mod 2 =? 0
                          then "odd"%string else "even"%string
            end) by reflexivity.
  split; [|split].
  - intros pre p post Hl Hpre Hp.
    rewrite Hunfold, Hl.
    now rewrite (scan_periods_first d pre p post Hpre Hp).
  - intros Hnone.
    rewrite Hunfold, (scan_periods_none d _ Hnone).
    split.
    + intros Hsun. apply Z.eqb_eq in Hsun. now rewrite Hsun.
    + intros Hweekday weekIndex. subst weekIndex.
      apply Z.eqb_neq in Hweekday. rewrite Hweekday.
      split.
      * intros Hw. apply Z.leb_le in Hw. now rewrite Hw.
      * intros Hw block. subst block.
        apply Z.leb_gt in Hw. rewrite Hw.
        split; intros [k Hk]; rewrite Hk.
        -- rewrite Z.mul_comm, Z.mod_mul by lia. reflexivity.
        -- rewrite Z.add_comm, Z.mul_comm, Z.mod_add by lia. reflexivity.
  - rewrite Hunfold.
    destruct (scan_periods d SPECIAL_PERIODS) as [k|] eqn:E.
    + apply scan_periods_kind in E.
      simpl in E. unfold regimes. simpl. intuition (subst; auto).
    + unfold regimes.
      destruct (isoweekday d =? 7); [simpl; auto|].
      destruct (_ <=? 0); [simpl; auto 10|].
      destruct (_ =? 0); simpl; auto.
Qed.

Lemma misses_all_spec (d : date) (ps : list period) :
  misses_all d ps = true -> forall q, In q ps -> ~ covers q d.
Proof.
  unfold misses_all. rewrite forallb_forall.
  intros Hall [[s e] k] Hin Hc.
  specialize (Hall _ Hin). simpl in Hall.
  apply (covers_spec s e k) in Hc.
  unfold p_start, p_end in Hall. simpl in Hall.
  rewrite Hc in Hall. discriminate.
Qed.

Lemma get_week_status_resolves_witness :
  get_week_status (D (mkdate 2025 11 3)) = "holiday"%string
  /\ get_week_status (D (mkdate 2025 9 7)) = "holiday"%string
  /\ get_week_status (D (mkdate 2025 8 30)) = "before"%string
  /\ get_week_status (D (mkdate 2025 9 15)) = "odd"%string
  /\ get_week_status (DT (mkdatetime (mkdate 2025 10 20) 8 30 0 0))
     = "even"%string.
Proof.
  split; [|split; [|split; [|split]]].
  - pose proof (get_week_status_resolves (D (mkdate 2025 11 3))) as R.
    destruct R as [R _].
    apply (R (firstn 6 SPECIAL_PERIODS)
             (mkdate 2025 11 3, mkdate 2025 11 4, "holiday"%string)
             (skipn 7 SPECIAL_PERIODS)).
    + reflexivity.
    + apply misses_all_spec. reflexivity.
    + apply (covers_spec _ _ "holiday"%string). reflexivity.
  - pose proof (get_week_status_resolves (D (mkdate 2025 9 7))) as R.
    destruct R as [_ [R _]].
    apply R; [apply misses_all_spec|]; reflexivity.
  - pose proof (get_week_status_resolves (D (mkdate 2025 8 30))) as R.
    destruct R as [_ [R _]].
    apply R; [apply misses_all_spec; reflexivity| |]; vm_compute; congruence.
  - pose proof (get_week_status_resolves (D (mkdate 2025 9 15))) as R.
    destruct R as [_ [R _]].
    apply R;
      [apply misses_all_spec; reflexivity
      |vm_compute; congruence
      |reflexivity
      |exists 0; reflexivity].
  - pose proof (get_week_status_resolves
                  (DT (mkdatetime (mkdate 2025 10 20) 8 30 0 0))) as R.
    destruct R as [_ [R _]].
    apply R;
      [apply misses_all_spec; reflexivity
      |vm_compute; congruence
      |reflexivity
      |exists 0; reflexivity].
Defined.

(** The claim C7 as stated fails on its second date: 2025-08-31 is a Sunday,
    and the weekday test comes before the week-index test. *)
Lemma semester_eve_not_before :
  ~ (get_week_status (D (mkdate 2025 9 1)) = "odd"%string
     /\ get_week_status (D (mkdate 2025 8 31)) = "before"%string).
Proof.
  intros [_ H]. vm_compute in H. discriminate.
Qed.

(** C7 (amended). With the semester start 2025-09-01 and the configured
    override periods, 2025-09-01 resolves to "odd"; 2025-08-31 is a Sunday
    outside every override period and resolves to "holiday"; the day before
    it, 2025-08-30, resolves to "before". *)
Theorem semester_boundary :
  SEMESTER_START = mkdate 2025 9 1
  /\ get_week_status (D (mkdate 2025 9 1)) = "odd"%string
  /\ isoweekday (mkdate 2025 8 31) = 7
  /\ get_week_status (D (mkdate 2025 8 31)) = "holiday"%string
  /\ get_week_status (D (mkdate 2025 8 30)) = "before"%string.
Proof.
  repeat split; reflexivity.
Qed.

End CalendarFacts.

(* ================================================================== *)
(** * Part VI: properties of the normalizer *)
(* ================================================================== *)

(** ** Induction on JSON trees *)

Fixpoint json_ind (P : json -> Prop)
         (Hnull : P JNull)
         (Hbool : forall b, P (JBool b))
         (Hint : forall n, P (JInt n))
         (Hfloat : forall q, P (JFloat q))
         (Hstr : forall s, P (JStr s))
         (Hlist : forall xs, (forall x, In x xs -> P x) -> P (JList xs))
         (Hdict : forall kvs, (forall k v, In (k, v) kvs -> P v)
                              -> P (JDict kvs))
         (v : json) {struct v} : P v.
Proof.
  pose (rec := json_ind P Hnull Hbool Hint Hfloat Hstr Hlist Hdict).
  destruct v as [| b | n | q | s | xs | kvs].
  - exact Hnull.
  - apply Hbool.
  - apply Hint.
  - apply Hfloat.
  - apply Hstr.
  - apply Hlist. induction xs as [|y ys IH]; intros x Hx.
    + destruct Hx.
    + destruct Hx as [<- | Hx]; [apply rec | now apply IH].
  - apply Hdict. induction kvs as [|[k' w] kvs IH]; intros k v Hkv.
    + destruct Hkv.
    + destruct Hkv as [E | Hkv].
      * injection E as _ <-. apply rec.
      * now apply (IH k v).
Defined.

(** ** Loops *)

Lemma for_each_in {A B} (f : A -> pyresult (list B)) (xs : list A)
      (out : list B) (y : B) :
  for_each f xs = Ok out -> In y out ->
  exists x ys, In x xs /\ f x = Ok ys /\ In y ys.
Proof.
  revert out. induction xs as [|x xs IH]; simpl; intros out H Hy.
  - injection H as <-. destruct Hy.
  - destruct (f x) as [ys|e] eqn:Ex; simpl in H; [|discriminate].
    destruct (for_each f xs) as [zs|e] eqn:Er; simpl in H; [|discriminate].
    injection H as <-. apply in_app_or in Hy. destruct Hy as [Hy|Hy].
    + exists x, ys. auto.
    + destruct (IH zs eq_refl Hy) as (x' & ys' & Hin & Hf & Hy').
      exists x', ys'. auto.
Qed.

Lemma for_each_skip {A B} (f : A -> pyresult (list B)) (xs ys : list A)
      (x : A) :
  f x = Ok [] -> for_each f (xs ++ x :: ys) = for_each f (xs ++ ys).
Proof.
  intros Hx. induction xs as [|a xs IH]; simpl.
  - rewrite Hx. simpl. now destruct (for_each f ys).
  - now rewrite IH.
Qed.

Lemma for_each_ok_at {A B} (f : A -> pyresult (list B)) (xs : list A)
      (out : list B) (x : A) :
  for_each f xs = Ok out -> In x xs -> exists ys, f x = Ok ys.
Proof.
  revert out. induction xs as [|a xs IH]; simpl; intros out H Hx;
    [destruct Hx|].
  destruct (f a) as [ys'|e] eqn:Ea; simpl in H; [|discriminate].
  destruct (for_each f xs) as [zs|e] eqn:Er; simpl in H; [|discriminate].
  destruct Hx as [<-|Hx]; [eauto|].
  exact (IH zs eq_refl Hx).
Qed.

Lemma for_each_incl {A B} (f : A -> pyresult (list B)) (xs : list A)
      (out : list B) (x : A) (ys : list B) :
  for_each f xs = Ok out -> In x xs -> f x = Ok ys -> incl ys out.
Proof.
  revert out. induction xs as [|a xs IH]; simpl; intros out H Hx Hf;
    [destruct Hx|].
  destruct (f a) as [ys'|e] eqn:Ea; simpl in H; [|discriminate].
  destruct (for_each f xs) as [zs|e] eqn:Er; simpl in H; [|discriminate].
  injection H as <-. intros y Hy. apply in_or_app.
  destruct Hx as [->|Hx].
  - left. rewrite Ea in Hf. injection Hf as <-. exact Hy.
  - right. exact (IH zs eq_refl Hx Hf y Hy).
Qed.

Lemma assoc_Z_In {V} (t : list (Z * V)) (k : Z) (v : V) :
  assoc_Z t k = Some v -> In (k, v) t.
Proof.
  induction t as [|[k' v'] t IH]; simpl; [discriminate|].
  destruct (k' =? k) eqn:E.
  - intros [= ->]. apply Z.eqb_eq in E. subst. now left.
  - intros H. right. now apply IH.
Qed.

Lemma str_eqb_eq (a b : pystr) : str_eqb a b = true <-> a = b.
Proof.
  revert b. induction a as [|x a IH]; destruct b as [|y b]; simpl;
    try (split; [discriminate | discriminate]); [tauto|].
  rewrite andb_true_iff, N.eqb_eq, IH.
  split; [intros [-> ->]; reflexivity | intros [= -> ->]; auto].
Qed.

Lemma str_eqb_refl (a : pystr) : str_eqb a a = true.
Proof. now apply str_eqb_eq. Qed.

Lemma assoc_str_In {V} (t : list (pystr * V)) (k : pystr) (v : V) :
  assoc_str t k = Some v -> In (k, v) t.
Proof.
  induction t as [|[k' v'] t IH]; simpl; [discriminate|].
  destruct (str_eqb k' k) eqn:E.
  - intros [= ->]. apply str_eqb_eq in E. subst. now left.
  - intros H. right. now apply IH.
Qed.

Lemma assoc_str_None {V} (t : list (pystr * V)) (k : pystr) :
  ~ In k (map fst t) -> assoc_str t k = None.
Proof.
  induction t as [|[k' v'] t IH]; simpl; intros H; [reflexivity|].
  destruct (str_eqb k' k) eqn:E.
  - apply str_eqb_eq in E. tauto.
  - apply IH. tauto.
Qed.

Lemma DAY_MAP_RU_range :
  Forall (fun kv => 1 <= snd kv <= 7) DAY_MAP_RU.
Proof. repeat constructor; simpl; lia. Qed.

Lemma PAIR_TIMES_ordered :
  Forall (fun e => str_leb (fst (snd e)) (snd (snd e)) = true) PAIR_TIMES.
Proof. repeat constructor. Qed.

(** ** Equality of keys *)

Lemma Qeq_bool_sym (x y : Q) : Qeq_bool x y = Qeq_bool y x.
Proof.
  destruct (Qeq_bool x y) eqn:E1, (Qeq_bool y x) eqn:E2; try reflexivity.
  - apply Qeq_bool_iff in E1. symmetry in E1. apply Qeq_bool_iff in E1.
    congruence.
  - apply Qeq_bool_iff in E2. symmetry in E2. apply Qeq_bool_iff in E2.
    congruence.
Qed.

Lemma str_eqb_sym (a b : pystr) : str_eqb a b = str_eqb b a.
Proof.
  destruct (str_eqb a b) eqn:E1, (str_eqb b a) eqn:E2; try reflexivity.
  - apply str_eqb_eq in E1. subst. now rewrite str_eqb_refl in E2.
  - apply str_eqb_eq in E2. subst. now rewrite str_eqb_refl in E1.
Qed.

Lemma py_eqb_sym (a b : json) : py_eqb a b = py_eqb b a.
Proof.
  destruct a, b; simpl; try reflexivity;
    try apply Qeq_bool_sym; apply str_eqb_sym.
Qed.

(** What [py_eqb a b = true] amounts to. *)
Lemma py_eqb_true (a b : json) :
  py_eqb a b = true ->
  (a = JNull /\ b = JNull)
  \/ (exists s, a = JStr s /\ b = JStr s)
  \/ (exists x y, num_val a = Some x /\ num_val b = Some y /\ Qeq x y).
Proof.
  destruct a, b; simpl; try discriminate; intros H;
    try (left; split; reflexivity);
    try (right; right; do 2 eexists; split; [reflexivity|split;
           [reflexivity | now apply Qeq_bool_iff]]).
  right; left. apply str_eqb_eq in H. subst. eauto.
Qed.

Lemma py_eqb_trans (a b c : json) :
  py_eqb a b = true -> py_eqb b c = true -> py_eqb a c = true.
Proof.
  intros Hab Hbc.
  destruct (py_eqb_true _ _ Hab) as [[-> ->] | [(s & -> & ->) | Hn]];
    [exact Hbc | exact Hbc |].
  destruct Hn as (x & y & Hx & Hy & Hxy).
  destruct (py_eqb_true _ _ Hbc) as [[-> _] | [(s & -> & _) | Hm]];
    try discriminate.
  destruct Hm as (y' & z & Hy' & Hz & Hyz).
  rewrite Hy in Hy'. injection Hy' as <-.
  assert (Hxz : Qeq_bool x z = true)
    by (apply Qeq_bool_iff; now rewrite Hxy).
  destruct a, c; simpl in *; try discriminate;
    try (injection Hx as <-); try (injection Hz as <-); exact Hxz.
Qed.

Lemma key_eqb_sym (k1 k2 : list json) : key_eqb k1 k2 = key_eqb k2 k1.
Proof.
  revert k2. induction k1 as [|a k1 IH]; destruct k2 as [|b k2]; simpl;
    try reflexivity.
  now rewrite py_eqb_sym, IH.
Qed.

Lemma key_eqb_trans (k1 k2 k3 : list json) :
  key_eqb k1 k2 = true -> key_eqb k2 k3 = true -> key_eqb k1 k3 = true.
Proof.
  revert k2 k3. induction k1 as [|a k1 IH]; destruct k2 as [|b k2];
    destruct k3 as [|c k3]; simpl; try discriminate; auto.
  rewrite !andb_true_iff. intros [H1 H2] [H3 H4]. split.
  - exact (py_eqb_trans _ _ _ H1 H3).
  - exact (IH _ _ H2 H4).
Qed.

(** ** The deduplication loop *)

Lemma existsb_false {A} (f : A -> bool) (l : list A) :
  existsb f l = false <-> forall x, In x l -> f x = false.
Proof.
  induction l as [|a l IH]; simpl.
  - split; [intros _ x [] | reflexivity].
  - rewrite orb_false_iff, IH. split.
    + intros [Ha Hl] x [<-|Hx]; auto.
    + intros H. split; [apply H; now left | intros x Hx; apply H; now right].
Qed.

Lemma dedup_loop_spec (ls : list lesson) :
  forall seen uniq out,
    dedup_loop ls seen uniq = Ok out ->
    exists kept,
      out = uniq ++ kept
      /\ subseq kept ls
      /\ (forall l, In l kept ->
                    existsb (key_eqb (lesson_key l)) seen = false)
      /\ ForallOrdPairs
           (fun a b => key_eqb (lesson_key b) (lesson_key a) = false) kept
      /\ (forall l, In l kept ->
            exists pre post,
              ls = pre ++ l :: post
              /\ forall x, In x pre ->
                           key_eqb (lesson_key l) (lesson_key x) = false)
      /\ (forall pre l post,
            ls = pre ++ l :: post ->
            (forall x, In x pre ->
                       key_eqb (lesson_key l) (lesson_key x) = false) ->
            existsb (key_eqb (lesson_key l)) seen = false ->
            In l kept).
Proof.
  induction ls as [|l0 rest IH]; intros seen uniq out H.
  - injection H as <-. exists []. rewrite app_nil_r.
    split; [reflexivity|]. split; [constructor|].
    split; [intros l []|]. split; [constructor|].
    split; [intros l []|].
    intros [|x pre] l post E; discriminate.
  - cbn [dedup_loop] in H.
    destruct (negb (forallb hashable (lesson_key l0))); [discriminate|].
    destruct (existsb (key_eqb (lesson_key l0)) seen) eqn:Eseen.
    + destruct (IH _ _ _ H) as (kept & Hout & Hsub & Hnew & Hdis & Hfst & Hin).
      exists kept. split; [|split; [|split; [|split; [|split]]]]; auto.
      * now constructor.
      * intros l Hl. destruct (Hfst l Hl) as (pre & post & -> & Hpre).
        exists (l0 :: pre), post. split; [reflexivity|].
        intros x [<-|Hx]; [|now apply Hpre].
        destruct (key_eqb (lesson_key l) (lesson_key l0)) eqn:E;
          [|reflexivity].
        apply existsb_exists in Eseen. destruct Eseen as (k & Hk & Exk).
        pose proof (key_eqb_trans _ _ _ E Exk) as Elk.
        specialize (Hnew l Hl). rewrite existsb_false in Hnew.
        rewrite (Hnew k Hk) in Elk. discriminate.
      * intros [|x pre] l post E Hpre Hl.
        -- injection E as -> ->. congruence.
        -- injection E as -> ->. apply (Hin pre l post eq_refl); auto.
           intros y Hy. apply Hpre. now right.
    + destruct (IH _ _ _ H) as (kept & Hout & Hsub & Hnew & Hdis & Hfst & Hin).
      exists (l0 :: kept). split; [|split; [|split; [|split; [|split]]]].
      * now rewrite Hout, <- app_assoc.
      * now constructor.
      * intros l [<-|Hl]; [exact Eseen|].
        specialize (Hnew l Hl). cbn [existsb] in Hnew.
        now apply orb_false_iff in Hnew.
      * constructor; [|exact Hdis].
        apply Forall_forall. intros l Hl.
        specialize (Hnew l Hl). cbn [existsb] in Hnew.
        now apply orb_false_iff in Hnew.
      * intros l [<-|Hl].
        -- exists [], rest. split; [reflexivity | intros x []].
        -- destruct (Hfst l Hl) as (pre & post & -> & Hpre).
           exists (l0 :: pre), post. split; [reflexivity|].
           intros x [<-|Hx]; [|now apply Hpre].
           specialize (Hnew l Hl). cbn [existsb] in Hnew.
           now apply orb_false_iff in Hnew.
      * intros [|x pre] l post E Hpre Hl.
        -- injection E as -> ->. now left.
        -- injection E as -> ->. right.
           apply (Hin pre l post eq_refl).
           ++ intros y Hy. apply Hpre. now right.
           ++ cbn [existsb]. rewrite Hl.
              now rewrite (Hpre x (or_introl eq_refl)).
Qed.

(** The loop returns whenever every key is hashable. *)
Lemma dedup_loop_total (ls : list lesson) :
  Forall (fun l => forallb hashable (lesson_key l) = true) ls ->
  forall seen uniq, exists out, dedup_loop ls seen uniq = Ok out.
Proof.
  induction 1 as [|l ls Hl _ IH]; intros seen uniq.
  - exists uniq. reflexivity.
  - cbn [dedup_loop]. rewrite Hl. cbn [negb].
    destruct (existsb (key_eqb (lesson_key l)) seen); apply IH.
Qed.

Lemma dedup_loop_subset (ls : list lesson) (out : list lesson) (l : lesson) :
  dedup_loop ls [] [] = Ok out -> In l out -> In l ls.
Proof.
  intros H Hl.
  destruct (dedup_loop_spec _ _ _ _ H) as (kept & -> & _ & _ & _ & Hfst & _).
  destruct (Hfst l Hl) as (pre & post & -> & _).
  apply in_or_app. right. now left.
Qed.

Section NormalizerProperties.

Context {RT : PyRuntime}.

(** ** The slotted-day parser *)

Lemma slot_records_shape (d : dict) (n idx : Z) (key wk : pystr)
      (ls : list lesson) (l : lesson) :
  slot_records d n idx (key, wk) = Ok ls -> In l ls ->
  day l = JInt n /\ week l = JStr wk
  /\ match assoc_Z PAIR_TIMES idx with
     | Some (s, e) => start l = JStr s /\ end_ l = JStr e
     | None => start l = JNull /\ end_ l = JNull
     end.
Proof.
  unfold slot_records.
  destruct (cell_text d (key ++ str_of_Z idx)) as [c|e]; cbn [bind];
    [|discriminate].
  destruct (Nat.eqb (List.length c) 0).
  { intros [= <-] []. }
  destruct (_parse_cell_text c) as [[[k r] t] ti].
  destruct (assoc_Z PAIR_TIMES idx) as [[s e]|];
    destruct (negb _); intros [= <-] Hin; try destruct Hin as [<-|[]];
    try destruct Hin; simpl; auto.
Qed.

Lemma day_records_shape (obj : json) (ls : list lesson) (l : lesson) :
  day_records obj = Ok ls -> In l ls ->
  day_in_range l /\ week_is_parity l /\ times_from_table l.
Proof.
  unfold day_records.
  destruct obj as [| | | | |xs|d]; try (intros [= <-] []).
  destruct (dict_get d (u "type")) as [[| | | |t| |]|];
    try (intros [= <-] []).
  destruct (str_eqb t (u "Lessons")); [|intros [= <-] []].
  destruct (assoc_str DAY_MAP_RU (day_name d)) as [n|] eqn:En;
    [|intros [= <-] []].
  destruct (n =? 0); [intros [= <-] []|].
  intros H Hin.
  destruct (for_each_in _ _ _ _ H Hin) as (idx & ys & Hidx & Hys & Hl).
  destruct (for_each_in _ _ _ _ Hys Hl) as ([key wk] & zs & Hslot & Hzs & Hl').
  destruct (slot_records_shape _ _ _ _ _ _ _ Hzs Hl') as (Hd & Hw & Ht).
  split; [|split].
  - exists (day_name d), n. apply assoc_str_In in En.
    split; [exact En|]. split; [exact Hd|].
    pose proof DAY_MAP_RU_range as R. rewrite Forall_forall in R.
    exact (R _ En).
  - unfold week_is_parity. rewrite Hw.
    destruct Hslot as [E|[E|[]]]; injection E as _ <-; auto.
  - destruct (assoc_Z PAIR_TIMES idx) as [[s e]|] eqn:Ea.
    + exists idx, s, e. split; [now apply assoc_Z_In|exact Ht].
    + exfalso. simpl in Hidx.
      repeat (destruct Hidx as [<-|Hidx]; [discriminate Ea|]).
      destruct Hidx.
Qed.

Lemma slotted_shape (raw : list json) (out : list lesson) (l : lesson) :
  _normalize_special_day_array raw = Ok out -> In l out ->
  day_in_range l /\ week_is_parity l /\ times_from_table l.
Proof.
  unfold _normalize_special_day_array. intros H Hin.
  destruct (for_each_in _ _ _ _ H Hin) as (obj & ys & _ & Hys & Hl).
  exact (day_records_shape _ _ _ Hys Hl).
Qed.

Lemma cell_text_str (d : dict) (key c : pystr) :
  dict_get d key = Some (JStr c) -> cell_text d key = Ok (strip c).
Proof.
  unfold cell_text. intros ->. destruct c; reflexivity.
Qed.

Lemma slot_records_informative (d : dict) (n idx : Z) (key wk c : pystr) :
  cell_text d (key ++ str_of_Z idx) = Ok c -> informative c = true ->
  slot_records d n idx (key, wk) = Ok [slot_lesson n idx c wk].
Proof.
  unfold slot_records, informative, slot_lesson. intros -> H. cbn [bind].
  destruct (_parse_cell_text c) as [[[k r] t] ti].
  apply andb_true_iff in H. destruct H as [Hlen Hany].
  apply negb_true_iff in Hlen. rewrite Hlen, Hany. cbn [negb].
  now destruct (assoc_Z PAIR_TIMES idx) as [[s e]|].
Qed.

(** The records of one filled slot of a recognised day are in the output. *)
Lemma slotted_slot_in (raw : list json) (out : list lesson) (d : dict)
      (n idx : Z) (key wk c : pystr) :
  _normalize_special_day_array raw = Ok out ->
  In (JDict d) raw ->
  dict_get d (u "type") = Some (JStr (u "Lessons")) ->
  assoc_str DAY_MAP_RU (day_name d) = Some n ->
  In idx [1; 2; 3; 4; 5; 6; 7] ->
  In (key, wk) SLOTS ->
  dict_get d (key ++ str_of_Z idx) = Some (JStr c) ->
  informative (strip c) = true ->
  In (slot_lesson n idx (strip c) wk) out.
Proof.
  intros Hout Hd Htype Hname Hidx Hslot Hcell Hinf.
  assert (Hn : (n =? 0) = false).
  { apply assoc_str_In in Hname.
    pose proof DAY_MAP_RU_range as R. rewrite Forall_forall in R.
    specialize (R _ Hname). cbn [snd] in R. apply Z.eqb_neq. lia. }
  assert (Hday : day_records (JDict d)
                 = for_each
                     (fun i => for_each (slot_records d n i) SLOTS)
                     [1; 2; 3; 4; 5; 6; 7]).
  { unfold day_records. rewrite Htype, str_eqb_refl, Hname, Hn.
    reflexivity. }
  unfold _normalize_special_day_array in Hout.
  destruct (for_each_ok_at _ _ _ _ Hout Hd) as (ys & Eys).
  pose proof (for_each_incl _ _ _ _ _ Hout Hd Eys) as I1.
  rewrite Hday in Eys.
  destruct (for_each_ok_at _ _ _ _ Eys Hidx) as (zs & Ezs).
  pose proof (for_each_incl _ _ _ _ _ Eys Hidx Ezs) as I2.
  pose proof (slot_records_informative d n idx key wk _
                (cell_text_str _ _ _ Hcell) Hinf) as E3.
  pose proof (for_each_incl _ _ _ _ _ Ezs Hslot E3) as I3.
  apply I1, I2, I3. now left.
Qed.

Lemma day_records_unknown_name (d : dict) :
  ~ In (day_name d) (map fst DAY_MAP_RU) -> day_records (JDict d) = Ok [].
Proof.
  intros H. unfold day_records.
  destruct (dict_get d (u "type")) as [[| | | |t| |]|]; try reflexivity.
  destruct (str_eqb t (u "Lessons")); [|reflexivity].
  now rewrite (assoc_str_None _ _ H).
Qed.

(** ** The generic walker *)

Lemma walk_list (xs : list json) (cd cw : json) :
  walk (JList xs) cd cw = flat_map (fun x => walk x cd cw) xs.
Proof. reflexivity. Qed.

Lemma walk_dict (d : dict) (cd cw : json) :
  walk (JDict d) cd cw =
  (if has_any d START_KEYS || has_any d PROBE_TITLE_KEYS
   then push (JDict d) cd cw else [])
  ++ flat_map (fun key =>
                 at_key (fun v => walk v (_pick d DAY_KEYS cd)
                                       (_pick d WEEK_KEYS cw)) key d)
              CONTAINER_KEYS
  ++ flat_map (fun kw =>
                 at_key (fun v => walk v cd (JStr (snd kw))) (fst kw) d)
              WEEK_VARIANTS
  ++ flat_map (fun kv =>
                 match snd kv with
                 | JDict _ | JList _ =>
                     walk (snd kv) (_pick d DAY_KEYS cd) (_pick d WEEK_KEYS cw)
                 | _ => []
                 end) d.
Proof. reflexivity. Qed.

Lemma at_key_in {B} (f : json -> list B) (key : pystr) (d : dict) (y : B) :
  In y (at_key f key d) -> exists k v, In (k, v) d /\ In y (f v).
Proof.
  induction d as [|[k v] d IH]; simpl; [intros []|].
  destruct (str_eqb k key).
  - intros H. exists k, v. auto.
  - intros H. destruct (IH H) as (k' & v' & Hin & Hy).
    exists k', v'. auto.
Qed.

(** Every lesson appended by [walk] was appended by some call of [push]. *)
Lemma walk_pushes (P : lesson -> Prop) :
  (forall item cd cw l, In l (push item cd cw) -> P l) ->
  forall node cd cw l, In l (walk node cd cw) -> P l.
Proof.
  intros HP node.
  induction node as [| b | n | q | s | xs IH | d IH] using json_ind;
    intros cd cw l Hl; try destruct Hl.
  - rewrite walk_list in Hl. apply in_flat_map in Hl.
    destruct Hl as (x & Hx & Hl). exact (IH x Hx _ _ _ Hl).
  - rewrite walk_dict in Hl.
    apply in_app_or in Hl. destruct Hl as [Hl|Hl].
    { destruct (has_any d START_KEYS || has_any d PROBE_TITLE_KEYS);
        [exact (HP _ _ _ _ Hl) | destruct Hl]. }
    apply in_app_or in Hl. destruct Hl as [Hl|Hl].
    { apply in_flat_map in Hl. destruct Hl as (key & _ & Hl).
      apply at_key_in in Hl. destruct Hl as (k & v & Hkv & Hl).
      exact (IH k v Hkv _ _ _ Hl). }
    apply in_app_or in Hl. destruct Hl as [Hl|Hl].
    { apply in_flat_map in Hl. destruct Hl as (kw & _ & Hl).
      apply at_key_in in Hl. destruct Hl as (k & v & Hkv & Hl).
      exact (IH k v Hkv _ _ _ Hl). }
    apply in_flat_map in Hl. destruct Hl as ([k v] & Hkv & Hl).
    cbn [snd] in Hl.
    destruct v; try destruct Hl; exact (IH k _ Hkv _ _ _ Hl).
Qed.






Lemma normalize_generic (raw : json) :
  is_slotted raw = false ->
  normalize_schedule raw = dedup_loop (walk raw JNull JNull) [] [].
Proof.
  unfold is_slotted, normalize_schedule.
  destruct raw; try reflexivity. now intros ->.
Qed.

Lemma normalize_slotted (raw : json) :
  is_slotted raw = true ->
  exists xs, raw = JList xs
             /\ normalize_schedule raw = _normalize_special_day_array xs.
Proof.
  unfold is_slotted, normalize_schedule.
  destruct raw; try discriminate. intros ->. eauto.
Qed.

Lemma is_slotted_spec (raw : json) :
  is_slotted raw = true <-> has_first_slot_key raw.
Proof.
  unfold is_slotted, has_first_slot_key. split.
  - destruct raw; try discriminate. intros H.
    apply existsb_exists in H. destruct H as (x & Hx & H).
    destruct x; try discriminate. simpl in H.
    apply orb_true_iff in H. eauto 6.
  - intros (xs & d & -> & Hin & H).
    apply existsb_exists. exists (JDict d). split; [exact Hin|].
    simpl. now apply orb_true_iff.
Qed.

(** ** The claims *)

(** C2 (amended). When the input is a top-level list in which some dict
    element has the key "n1" or the key "z1", [normalize_schedule] returns
    exactly the result of the slotted-day parser on that list; for every
    other input it returns the deduplicated output of the generic walker. *)
Theorem normalize_dispatch (raw : json) :
  (has_first_slot_key raw ->
   exists xs, raw = JList xs
              /\ normalize_schedule raw = _normalize_special_day_array xs)
  /\ (~ has_first_slot_key raw ->
      normalize_schedule raw = dedup_loop (walk raw JNull JNull) [] []).
Proof.
  split; intros H.
  - apply normalize_slotted. now apply is_slotted_spec.
  - apply normalize_generic.
    destruct (is_slotted raw) eqn:E; [|reflexivity].
    exfalso. apply H. now apply is_slotted_spec.
Qed.

(** C4 (amended). For every input that is not handed to the slotted-day
    parser, the returned sequence has no two records equal on the tuple
    (day, start, end, title, teacher, room, kind, week); it keeps the order
    of the walk, and its records are exactly the records of the walk that
    have no earlier record with the same tuple. *)
Theorem normalize_generic_dedup (raw : json) (out : list lesson) :
  is_slotted raw = false ->
  normalize_schedule raw = Ok out ->
  distinct_keys out
  /\ subseq out (walk raw JNull JNull)
  /\ (forall l, In l out <-> first_of_its_key l (walk raw JNull JNull)).
Proof.
  intros Hs H. rewrite (normalize_generic raw Hs) in H.
  destruct (dedup_loop_spec _ _ _ _ H)
    as (kept & -> & Hsub & _ & Hdis & Hfst & Hin).
  cbn [app]. split; [|split].
  - unfold distinct_keys.
    clear - Hdis. induction Hdis as [|a ls Ha Hd IH]; constructor.
    + apply Forall_forall. intros b Hb Hk.
      rewrite Forall_forall in Ha. specialize (Ha b Hb).
      unfold same_key in Hk. rewrite key_eqb_sym in Hk. congruence.
    + exact IH.
  - exact Hsub.
  - intros l. split.
    + intros Hl. destruct (Hfst l Hl) as (pre & post & E & Hpre).
      exists pre, post. split; [exact E|].
      intros x Hx Hk. unfold same_key in Hk. rewrite key_eqb_sym in Hk.
      rewrite (Hpre x Hx) in Hk. discriminate.
    + intros (pre & post & E & Hpre).
      apply (Hin pre l post E); [|reflexivity].
      intros x Hx.
      destruct (key_eqb (lesson_key l) (lesson_key x)) eqn:Ek;
        [|reflexivity].
      exfalso. apply (Hpre x Hx). unfold same_key.
      now rewrite key_eqb_sym.
Qed.


(** C8. Every record produced by the slotted-day parser has as its day an
    integer from 1 to 7 taken from the weekday-name table, and a day-object
    whose weekday name is not in the table contributes no record: the result
    is the same as without that object. *)
Theorem slotted_day_from_table (raw : list json) :
  (forall out l,
      _normalize_special_day_array raw = Ok out -> In l out ->
      day_in_range l)
  /\ (forall pre d post,
         raw = pre ++ JDict d :: post ->
         ~ In (day_name d) (map fst DAY_MAP_RU) ->
         day_records (JDict d) = Ok []
         /\ _normalize_special_day_array raw
            = _normalize_special_day_array (pre ++ post)).
Proof.
  split.
  - intros out l H Hl. now destruct (slotted_shape _ _ _ H Hl).
  - intros pre d post -> Hname.
    pose proof (day_records_unknown_name d Hname) as E.
    split; [exact E|].
    unfold _normalize_special_day_array. now apply for_each_skip.
Qed.

(** C9 (amended). For every input handed to the slotted-day parser, every
    returned record has both start and end present, taken from the pair-time
    table, with start lexicographically less than or equal to end. *)
Theorem slotted_times_ordered (raw : json) (out : list lesson) (l : lesson) :
  is_slotted raw = true ->
  normalize_schedule raw = Ok out -> In l out ->
  exists s e,
    start l = JStr s /\ end_ l = JStr e /\ str_leb s e = true.
Proof.
  intros Es H Hl.
  destruct (normalize_slotted raw Es) as (xs & -> & E). rewrite E in H.
  destruct (slotted_shape _ _ _ H Hl) as (_ & _ & idx & s & e & Hin & Hs & He).
  exists s, e. split; [exact Hs|]. split; [exact He|].
  pose proof PAIR_TIMES_ordered as R. rewrite Forall_forall in R.
  exact (R _ Hin).
Qed.

(** C10. Every record produced by the slotted-day parser has week "odd" or
    "even" and never "all", and has both start and end present, taken from
    one entry of the seven-entry pair-time table; a cell text that stands in
    both the numerator and the denominator slot of a pair gives two records,
    one of week "odd" and one of week "even". *)
Theorem slotted_week_and_times (raw : list json) (out : list lesson) :
  _normalize_special_day_array raw = Ok out ->
  (forall l, In l out ->
             week_is_parity l
             /\ week l <> JStr (u "all")
             /\ present (start l) /\ present (end_ l)
             /\ times_from_table l)
  /\ List.length PAIR_TIMES = 7%nat
  /\ (forall d n idx c,
         In (JDict d) raw ->
         dict_get d (u "type") = Some (JStr (u "Lessons")) ->
         assoc_str DAY_MAP_RU (day_name d) = Some n ->
         In idx [1; 2; 3; 4; 5; 6; 7] ->
         dict_get d (u "n" ++ str_of_Z idx) = Some (JStr c) ->
         dict_get d (u "z" ++ str_of_Z idx) = Some (JStr c) ->
         informative (strip c) = true ->
         In (slot_lesson n idx (strip c) (u "odd")) out
         /\ In (slot_lesson n idx (strip c) (u "even")) out).
Proof.
  intros H. split; [|split; [reflexivity|]].
  - intros l Hl.
    destruct (slotted_shape _ _ _ H Hl) as (_ & Hw & Ht).
    split; [exact Hw|]. split.
    + destruct Hw as [-> | ->]; intros E; discriminate E.
    + destruct Ht as (idx & s & e & Hin & Hs & He).
      split; [unfold present; rewrite Hs; discriminate|].
      split; [unfold present; rewrite He; discriminate|].
      exists idx, s, e. auto.
  - intros d n idx c Hd Htype Hname Hidx Hn Hz Hinf. split.
    + apply (slotted_slot_in raw out d n idx (u "n") (u "odd") c); auto.
      now left.
    + apply (slotted_slot_in raw out d n idx (u "z") (u "even") c); auto.
      right. now left.
Qed.

End NormalizerProperties.

(** ** The claims on concrete payloads *)

#[local] Existing Instance basic_runtime.

(** C3. The cell tokenizer on the two documented cell texts: the first gives
    kind "лк", room "529а-3", teacher "Филатов Д.О." and title
    "Общая психология"; the second gives kind "пр", no room, no teacher and
    the title "Физическая культура и спорт, поток", none of its remaining
    tokens passing the room test or the teacher test. *)
Theorem parse_cell_text_examples :
  _parse_cell_text cell_lecture
  = (Some (u "лк"), Some (u "529а-3"), Some (u "Филатов Д.О."),
     Some (u "Общая психология"))
  /\ _parse_cell_text cell_practice
     = (Some (u "пр"), None, None,
        Some (u "Физическая культура и спорт, поток"))
  /\ forallb (fun p => negb (_looks_like_room p)
                       && negb (_looks_like_teacher p))
             [u "Физическая культура и спорт"; u "поток"] = true.
Proof.
  split; [|split]; vm_compute; reflexivity.
Qed.

(** The slotted-day parser on the example day. *)
Example monday_records :
  _normalize_special_day_array [monday_obj]
  = Ok [lecture_at "08:30" "10:00" "odd"; practice_even].
Proof. vm_compute. reflexivity. Qed.

(** A lesson held on both parities is two records. *)
Example both_parities_two_records :
  _normalize_special_day_array [tuesday_obj]
  = Ok [tuesday_lecture "odd"; tuesday_lecture "even"].
Proof. vm_compute. reflexivity. Qed.

(** The walk of the nested payload meets the lesson twice; one is kept. *)
Example nested_walk :
  walk nested_payload JNull JNull
  = [math_lesson JNull "all"; math_lesson JNull "all"]
  /\ normalize_schedule nested_payload = Ok [math_lesson JNull "all"].
Proof. split; vm_compute; reflexivity. Qed.

(** The two exceptions of the normalizer: a field that is a list cannot be
    hashed by the deduplication, and a cell that is a number has no
    [strip]. *)
Example list_title_raises :
  normalize_schedule (JDict [ (u "Title", JList [JStr (u "Math")]) ])
  = Raise TypeError.
Proof. vm_compute. reflexivity. Qed.

Example number_cell_raises :
  normalize_schedule
    (JList [ JDict [ (u "type", JStr (u "Lessons"));
                     (u "name", JStr (u "среда"));
                     (u "n1", JInt 5) ] ])
  = Raise AttributeError.
Proof. vm_compute. reflexivity. Qed.

(** *** C2 *)

(** The claim C2 as stated fails: an element that only carries "n2" exposes
    the slot-key convention, yet the input goes to the generic walker, which
    finds nothing, while the slotted-day parser would return a record. *)
Lemma slot_key_n2_not_detected :
  existsb exposes_slot_keys [second_pair_obj] = true
  /\ normalize_schedule (JList [second_pair_obj]) = Ok []
  /\ _normalize_special_day_array [second_pair_obj]
     = Ok [lecture_at "10:20" "11:50" "odd"]
  /\ normalize_schedule (JList [second_pair_obj])
     <> _normalize_special_day_array [second_pair_obj].
Proof.
  split; [|split; [|split]]; try (vm_compute; reflexivity).
  vm_compute. discriminate.
Qed.

Lemma normalize_dispatch_witness :
  (exists xs, JList [monday_obj] = JList xs
              /\ normalize_schedule (JList [monday_obj])
                 = _normalize_special_day_array xs)
  /\ normalize_schedule nested_payload
     = dedup_loop (walk nested_payload JNull JNull) [] [].
Proof.
  split.
  - apply (normalize_dispatch (JList [monday_obj])).
    exists [monday_obj], (match monday_obj with JDict d => d | _ => [] end).
    split; [reflexivity|]. split; [now left|]. left. reflexivity.
  - apply (normalize_dispatch nested_payload).
    intros (xs & d & E & _). discriminate E.
Defined.

(** *** C4 *)

(** The claim C4 as stated fails on the slotted path, which returns what
    the parser built: a repeated day-object gives repeated records. *)
Lemma slotted_output_repeats :
  normalize_schedule (JList [lecture_obj; lecture_obj])
  = Ok [lecture_at "08:30" "10:00" "odd"; lecture_at "08:30" "10:00" "odd"]
  /\ ~ distinct_keys [lecture_at "08:30" "10:00" "odd";
                      lecture_at "08:30" "10:00" "odd"].
Proof.
  split; [vm_compute; reflexivity|].
  intros H. inversion H as [|a ls Ha _]; subst.
  inversion Ha as [|b ls' Hb _]; subst.
  apply Hb. vm_compute. reflexivity.
Qed.

Lemma normalize_generic_dedup_witness :
  distinct_keys [math_lesson JNull "all"]
  /\ subseq [math_lesson JNull "all"] (walk nested_payload JNull JNull)
  /\ (forall l, In l [math_lesson JNull "all"]
                <-> first_of_its_key l (walk nested_payload JNull JNull)).
Proof.
  apply (normalize_generic_dedup nested_payload [math_lesson JNull "all"]).
  - reflexivity.
  - vm_compute. reflexivity.
Defined.

(** *** C5 *)


(** A title that is present but not truthy does not keep its candidate. *)
Lemma falsy_title_dropped :
  present (JInt 0) /\ truthy (JInt 0) = false
  /\ normalize_schedule zero_title_payload = Ok [].
Proof. split; [discriminate|]. split; vm_compute; reflexivity. Qed.


(** *** C6 *)

(** C6 (evaluation at the failing input). The lesson under "Numerator" of a
    node with "Day": 1 is appended with week "odd" and the inherited day,
    [None], not with the day of the node; the catch-all loop appends it a
    second time with day 1 and week "all". *)
Theorem week_variant_uses_inherited_day :
  normalize_schedule numerator_payload
  = Ok [math_lesson JNull "odd"; math_lesson (JInt 1) "all"].
Proof. vm_compute. reflexivity. Qed.

(** *** C8 *)

Lemma slotted_day_from_table_witness :
  day_in_range (lecture_at "08:30" "10:00" "odd")
  /\ _normalize_special_day_array [monday_obj; noday_obj]
     = _normalize_special_day_array ([monday_obj] ++ []).
Proof.
  split.
  - apply (proj1 (slotted_day_from_table [monday_obj])
                 [lecture_at "08:30" "10:00" "odd"; practice_even]).
    + vm_compute. reflexivity.
    + now left.
  - apply (proj2 (slotted_day_from_table [monday_obj; noday_obj])
                 [monday_obj]
                 (match noday_obj with JDict d => d | _ => [] end) []).
    + reflexivity.
    + vm_compute. intuition discriminate.
Defined.

(** *** C9 *)

(** The claim C9 as stated fails on the generic path, which copies start
    and end as it finds them. *)
Lemma reversed_times_kept :
  exists l,
    normalize_schedule reversed_payload = Ok [l]
    /\ start l = JStr (u "10:00") /\ end_ l = JStr (u "08:30")
    /\ str_leb (u "10:00") (u "08:30") = false.
Proof.
  eexists. split; [vm_compute; reflexivity|].
  repeat split.
Qed.

Lemma slotted_times_ordered_witness :
  exists s e,
    start practice_even = JStr s /\ end_ practice_even = JStr e
    /\ str_leb s e = true.
Proof.
  apply (slotted_times_ordered (JList [monday_obj])
           [lecture_at "08:30" "10:00" "odd"; practice_even]).
  - reflexivity.
  - vm_compute. reflexivity.
  - right. now left.
Defined.

(** *** C10 *)

Lemma slotted_week_and_times_witness :
  (forall l, In l [tuesday_lecture "odd"; tuesday_lecture "even"] ->
             week_is_parity l
             /\ week l <> JStr (u "all")
             /\ present (start l) /\ present (end_ l)
             /\ times_from_table l)
  /\ List.length PAIR_TIMES = 7%nat
  /\ In (slot_lesson 2 3 (strip cell_lecture) (u "odd"))
        [tuesday_lecture "odd"; tuesday_lecture "even"]
  /\ In (slot_lesson 2 3 (strip cell_lecture) (u "even"))
        [tuesday_lecture "odd"; tuesday_lecture "even"].
Proof.
  pose proof (slotted_week_and_times [tuesday_obj]
                [tuesday_lecture "odd"; tuesday_lecture "even"]) as W.
  destruct W as (Winv & Wlen & Wboth); [vm_compute; reflexivity|].
  split; [exact Winv|]. split; [exact Wlen|].
  apply (Wboth (match tuesday_obj with JDict d => d | _ => [] end) 2 3
               cell_lecture).
  - now left.
  - reflexivity.
  - vm_compute. reflexivity.
  - simpl. auto.
  - vm_compute. reflexivity.
  - vm_compute. reflexivity.
  - vm_compute. reflexivity.
Defined.

(* ================================================================== *)
(** * Part VII: dates, weeks and the week view of the bot (src/app/bot.py) *)
(* ================================================================== *)

Module CalendarArithmetic.

Import Calendar.
Import CalendarFacts.

(** ** Ordinals *)

(* ---------------- proofs ---------------- *)

Lemma dby_split (a b c e : Z) :
  0 <= b <= 3 -> 0 <= c <= 24 -> 0 <= e <= 3 ->
  _days_before_year (400 * a + 100 * b + 4 * c + e + 1)
  = 146097 * a + 36524 * b + 1461 * c + 365 * e.
Proof.
  intros Hb Hc He. unfold _days_before_year. cbv zeta.
  replace (400 * a + 100 * b + 4 * c + e + 1 - 1)
    with (400 * a + 100 * b + 4 * c + e) by lia.
  Z.to_euclidean_division_equations. lia.
Qed.

Lemma is_leap_split (a b c e : Z) :
  0 <= b <= 3 -> 0 <= c <= 24 -> 0 <= e <= 3 ->
  _is_leap (400 * a + 100 * b + 4 * c + e + 1)
  = (e =? 3) && (negb (c =? 24) || (b =? 3)).
Proof.
  intros Hb Hc He. unfold _is_leap.
  destruct (e =? 3) eqn:E3, (c =? 24) eqn:E24, (b =? 3) eqn:Eb;
    cbn [andb orb negb];
    repeat match goal with
           | |- context [?x mod ?k =? 0] =>
               let E := fresh "E" in destruct (x mod k =? 0) eqn:E
           end; cbn [andb orb negb]; try reflexivity; exfalso;
    repeat match goal with
           | H : (_ =? _) = true |- _ => apply Z.eqb_eq in H
           | H : (_ =? _) = false |- _ => apply Z.eqb_neq in H
           end;
    Z.to_euclidean_division_equations; lia.
Qed.

Lemma month_day_spec (leap : bool) (n : Z) :
  0 <= n < 365 + (if leap then 1 else 0) ->
  month_day_ok leap n = true.
Proof.
  intros Hn.
  assert (Hall : forallb (fun k => month_day_ok leap (Z.of_nat k))
                         (seq 0 (if leap then 366 else 365)) = true)
    by (destruct leap; vm_compute; reflexivity).
  rewrite forallb_forall in Hall.
  rewrite <- (Z2Nat.id n) by lia. apply Hall. apply in_seq.
  destruct leap; lia.
Qed.

Lemma ord2ymd_eq (n : Z) :
  _ord2ymd n =
  let N := n - 1 in
  let a := N / 146097 in
  let r1 := N mod 146097 in
  let b := r1 / 36524 in
  let r2 := r1 mod 36524 in
  let c := r2 / 1461 in
  let r3 := r2 mod 1461 in
  let e := r3 / 365 in
  let r4 := r3 mod 365 in
  let y := a * 400 + 1 + b * 100 + c * 4 + e in
  if (e =? 4) || (b =? 4) then mkdate (y - 1) 12 31
  else
    let leap := (e =? 3) && (negb (c =? 24) || (b =? 3)) in
    mkdate y (fst (month_day leap r4)) (snd (month_day leap r4)).
Proof.
  unfold _ord2ymd, month_day, _DI400Y, _DI100Y, _DI4Y. cbv zeta.
  destruct (_ || _); [reflexivity|].
  destruct (_ <? _); reflexivity.
Qed.

Lemma days_in_month_eq (y m : Z) :
  _days_in_month y m = days_in (_is_leap y) m.
Proof. reflexivity. Qed.

Lemma days_before_month_eq (y m : Z) :
  _days_before_month y m = days_before (_is_leap y) m.
Proof. reflexivity. Qed.

(** [fromordinal] inverts [toordinal] and builds a month and a day that the
    constructor accepts. *)
Lemma fromordinal_spec (n : Z) :
  1 <= n ->
  let d := fromordinal n in
  toordinal d = n
  /\ 1 <= month d <= 12
  /\ 1 <= day d <= _days_in_month (year d) (month d).
Proof.
  intros Hn. unfold fromordinal. rewrite ord2ymd_eq. cbv zeta.
  set (N := n - 1).
  set (a := N / 146097). set (r1 := N mod 146097).
  set (b := r1 / 36524). set (r2 := r1 mod 36524).
  set (c := r2 / 1461). set (r3 := r2 mod 1461).
  set (e := r3 / 365). set (r4 := r3 mod 365).
  assert (HN : N = 146097 * a + r1 /\ 0 <= r1 < 146097)
    by (subst a r1; Z.to_euclidean_division_equations; lia).
  assert (H1 : r1 = 36524 * b + r2 /\ 0 <= r2 < 36524)
    by (subst b r2; Z.to_euclidean_division_equations; lia).
  assert (H2 : r2 = 1461 * c + r3 /\ 0 <= r3 < 1461)
    by (subst c r3; Z.to_euclidean_division_equations; lia).
  assert (H3 : r3 = 365 * e + r4 /\ 0 <= r4 < 365)
    by (subst e r4; Z.to_euclidean_division_equations; lia).
  assert (HNn : N = n - 1) by reflexivity.
  clearbody N a r1 b r2 c r3 e r4.
  assert (Hb : 0 <= b <= 4) by lia.
  assert (Hc : 0 <= c <= 24) by lia.
  assert (He : 0 <= e <= 4) by lia.
  destruct ((e =? 4) || (b =? 4)) eqn:Hend.
  - (* the last day of a four-year or of a four-hundred-year cycle *)
    unfold toordinal. cbn [year month day].
    unfold _ymd2ord. rewrite days_in_month_eq, days_before_month_eq.
    assert (Hleap : _is_leap (a * 400 + 1 + b * 100 + c * 4 + e - 1) = true
                    /\ _days_before_year
                         (a * 400 + 1 + b * 100 + c * 4 + e - 1) + 366 = n).
    { apply orb_true_iff in Hend.
      destruct Hend as [E|E]; apply Z.eqb_eq in E.
      + assert (Hc' : c <= 23) by lia.
        assert (Hb' : b <= 3) by lia.
        replace (a * 400 + 1 + b * 100 + c * 4 + e - 1)
          with (400 * a + 100 * b + 4 * c + 3 + 1) by lia.
        rewrite dby_split, is_leap_split by lia.
        change (3 =? 3) with true.
        replace (c =? 24) with false by (symmetry; apply Z.eqb_neq; lia).
        cbn [andb orb negb]. split; [reflexivity | lia].
      + replace (a * 400 + 1 + b * 100 + c * 4 + e - 1)
          with (400 * a + 100 * 3 + 4 * 24 + 3 + 1) by lia.
        rewrite dby_split, is_leap_split by lia.
        change (3 =? 3) with true. change (24 =? 24) with true.
        cbn [andb orb negb]. split; [reflexivity | lia]. }
    destruct Hleap as [-> Hd].
    change (days_before true 12) with 335.
    change (days_in true 12) with 31. lia.
  - apply orb_false_iff in Hend. destruct Hend as [E4 Eb4].
    apply Z.eqb_neq in E4. apply Z.eqb_neq in Eb4.
    set (leap := (e =? 3) && (negb (c =? 24) || (b =? 3))).
    assert (Hr4 : 0 <= r4 < 365 + (if leap then 1 else 0)).
    { subst leap. destruct (e =? 3) eqn:E3, (c =? 24) eqn:E24,
        (b =? 3) eqn:Eb3; cbn [andb orb negb]; try lia;
        apply Z.eqb_eq in E3; apply Z.eqb_eq in E24; apply Z.eqb_neq in Eb3;
        lia. }
    pose proof (month_day_spec leap r4 Hr4) as Hmd.
    unfold month_day_ok in Hmd.
    destruct (month_day leap r4) as [m d]. cbn [fst snd].
    repeat (apply andb_true_iff in Hmd; destruct Hmd as [Hmd ?]).
    unfold toordinal. cbn [year month day]. unfold _ymd2ord.
    rewrite days_in_month_eq, days_before_month_eq.
    replace (a * 400 + 1 + b * 100 + c * 4 + e)
      with (400 * a + 100 * b + 4 * c + e + 1) by lia.
    rewrite dby_split, is_leap_split by lia. fold leap.
    repeat match goal with
           | H : (_ =? _) = true |- _ => apply Z.eqb_eq in H
           | H : (_ <=? _) = true |- _ => apply Z.leb_le in H
           end.
    lia.
Qed.

Lemma dby_mono (y y' : Z) :
  y <= y' -> _days_before_year y <= _days_before_year y'.
Proof.
  intros H. unfold _days_before_year. cbv zeta.
  Z.to_euclidean_division_equations. lia.
Qed.

Lemma dby_succ (y : Z) :
  _days_before_year (y + 1)
  = _days_before_year y + 365 + (if _is_leap y then 1 else 0).
Proof.
  unfold _days_before_year, _is_leap. cbv zeta.
  replace (y + 1 - 1) with y by lia.
  repeat match goal with
         | |- context [?x mod ?k =? 0] =>
             let E := fresh "E" in destruct (x mod k =? 0) eqn:E
         end; cbn [andb orb negb];
    repeat match goal with
           | H : (_ =? _) = true |- _ => apply Z.eqb_eq in H
           | H : (_ =? _) = false |- _ => apply Z.eqb_neq in H
           end;
    Z.to_euclidean_division_equations; lia.
Qed.

Lemma months_ok_all (leap : bool) : months_ok leap = true.
Proof. destruct leap; vm_compute; reflexivity. Qed.

Lemma month_in_list (m : Z) :
  1 <= m <= 12 -> In m [1; 2; 3; 4; 5; 6; 7; 8; 9; 10; 11; 12].
Proof. intros H. simpl. lia. Qed.

Lemma month_facts (leap : bool) (m : Z) :
  1 <= m <= 12 ->
  0 <= days_before leap m
  /\ days_before leap m + days_in leap m <= 365 + (if leap then 1 else 0)
  /\ forall m', 1 <= m' <= 12 -> m < m' ->
                days_before leap m + days_in leap m <= days_before leap m'.
Proof.
  intros Hm. pose proof (months_ok_all leap) as H.
  unfold months_ok in H. rewrite forallb_forall in H.
  specialize (H m (month_in_list m Hm)).
  apply andb_true_iff in H. destruct H as [H H3].
  apply andb_true_iff in H. destruct H as [H1 H2].
  apply Z.leb_le in H1. apply Z.leb_le in H2.
  split; [exact H1|]. split; [exact H2|].
  intros m' Hm' Hlt. rewrite forallb_forall in H3.
  specialize (H3 m' (month_in_list m' Hm')).
  apply orb_true_iff in H3. destruct H3 as [H3|H3].
  - apply negb_true_iff, Z.ltb_ge in H3. lia.
  - now apply Z.leb_le.
Qed.

(** The ordinal of a date of year [y] lies in the days of that year. *)
Lemma toordinal_in_year (d : date) :
  1 <= month d <= 12 ->
  1 <= day d <= _days_in_month (year d) (month d) ->
  _days_before_year (year d) + 1 <= toordinal d
  <= _days_before_year (year d + 1).
Proof.
  intros Hm Hd. unfold toordinal, _ymd2ord.
  rewrite dby_succ, days_before_month_eq.
  rewrite days_in_month_eq in Hd.
  destruct (month_facts (_is_leap (year d)) (month d) Hm) as (H0 & H1 & _).
  lia.
Qed.

Lemma valid_toordinal (d : date) :
  valid_date d -> 1 <= toordinal d <= _MAXORDINAL.
Proof.
  intros (Hy & Hm & Hd).
  pose proof (toordinal_in_year d Hm Hd) as H.
  pose proof (dby_mono 1 (year d) (proj1 Hy)) as H1.
  assert (H2 : _days_before_year (year d + 1) <= _days_before_year 10000)
    by (apply dby_mono; unfold MAXYEAR in Hy; lia).
  change (_days_before_year 1) with 0 in H1.
  change (_days_before_year 10000) with 3652059 in H2.
  unfold _MAXORDINAL. lia.
Qed.

Lemma fromordinal_valid (n : Z) :
  1 <= n <= _MAXORDINAL -> valid_date (fromordinal n).
Proof.
  intros Hn.
  destruct (fromordinal_spec n (proj1 Hn)) as (Ho & Hm & Hd).
  split; [|split; assumption].
  pose proof (toordinal_in_year _ Hm Hd) as H. rewrite Ho in H.
  unfold MINYEAR, MAXYEAR, _MAXORDINAL in *.
  destruct (Z_lt_le_dec (year (fromordinal n)) 1) as [Hlt|Hge].
  - pose proof (dby_mono (year (fromordinal n) + 1) 1 ltac:(lia)) as H1.
    change (_days_before_year 1) with 0 in H1. lia.
  - split; [exact Hge|].
    destruct (Z_lt_le_dec 9999 (year (fromordinal n))) as [Hgt|Hle];
      [|exact Hle].
    pose proof (dby_mono 10000 (year (fromordinal n)) ltac:(lia)) as H1.
    change (_days_before_year 10000) with 3652059 in H1. lia.
Qed.

Lemma toordinal_lt (a b : date) :
  valid_date a -> valid_date b -> date_lt a b -> toordinal a < toordinal b.
Proof.
  intros (_ & Hma & Hda) (_ & Hmb & Hdb) Hlt.
  destruct Hlt as [Hy | [Hy [Hm | [Hm Hd]]]].
  - pose proof (toordinal_in_year a Hma Hda) as Ha.
    pose proof (toordinal_in_year b Hmb Hdb) as Hb.
    pose proof (dby_mono (year a + 1) (year b) ltac:(lia)). lia.
  - unfold toordinal, _ymd2ord. rewrite Hy, !days_before_month_eq.
    rewrite days_in_month_eq, Hy in Hda.
    destruct (month_facts (_is_leap (year b)) (month a) Hma) as (_ & _ & H).
    specialize (H (month b) Hmb Hm). lia.
  - unfold toordinal, _ymd2ord. rewrite Hy, Hm. lia.
Qed.

Lemma date_trichotomy (a b : date) : date_lt a b \/ a = b \/ date_lt b a.
Proof.
  destruct a as [ya ma da], b as [yb mb db]. unfold date_lt. simpl.
  destruct (Z.lt_trichotomy ya yb) as [?|[->|?]]; auto.
  destruct (Z.lt_trichotomy ma mb) as [?|[->|?]]; auto 6.
  destruct (Z.lt_trichotomy da db) as [?|[->|?]]; auto 8.
Qed.

Lemma toordinal_inj (a b : date) :
  valid_date a -> valid_date b -> toordinal a = toordinal b -> a = b.
Proof.
  intros Ha Hb E.
  destruct (date_trichotomy a b) as [H|[H|H]]; [|exact H|].
  - pose proof (toordinal_lt a b Ha Hb H). lia.
  - pose proof (toordinal_lt b a Hb Ha H). lia.
Qed.

Lemma fromordinal_toordinal (d : date) :
  valid_date d -> fromordinal (toordinal d) = d.
Proof.
  intros Hd. pose proof (valid_toordinal d Hd) as Hn.
  apply toordinal_inj; [now apply fromordinal_valid | exact Hd |].
  now destruct (fromordinal_spec (toordinal d) (proj1 Hn)).
Qed.

(* ------------- theorems ------------- *)

Lemma date_add_spec (d : date) (k : Z) (e : date) :
  date_add d k = Some e ->
  toordinal e = toordinal d + k /\ valid_date e.
Proof.
  unfold date_add. cbv zeta.
  destruct ((0 <? toordinal d + k) && (toordinal d + k <=? _MAXORDINAL))
    eqn:E; [|discriminate].
  intros [= <-]. apply andb_true_iff in E. destruct E as [E1 E2].
  apply Z.ltb_lt in E1. apply Z.leb_le in E2.
  split.
  - now destruct (fromordinal_spec (toordinal d + k) ltac:(lia)).
  - apply fromordinal_valid. lia.
Qed.

Lemma date_add_some (d : date) (k : Z) :
  1 <= toordinal d + k <= _MAXORDINAL ->
  date_add d k = Some (fromordinal (toordinal d + k)).
Proof.
  intros H. unfold date_add. cbv zeta.
  replace (0 <? toordinal d + k) with true
    by (symmetry; apply Z.ltb_lt; lia).
  replace (toordinal d + k <=? _MAXORDINAL) with true
    by (symmetry; apply Z.leb_le; lia).
  reflexivity.
Qed.

Lemma isoweekday_range (d : date) : 1 <= isoweekday d <= 7.
Proof.
  unfold isoweekday. cbv zeta.
  destruct (toordinal d mod 7 =? 0) eqn:E; [lia|].
  apply Z.eqb_neq in E. Z.to_euclidean_division_equations. lia.
Qed.

Lemma monday_of_week_spec (d : date) :
  valid_date d ->
  exists m,
    monday_of_week d = Some m
    /\ valid_date m
    /\ isoweekday m = 1
    /\ days_between d m = isoweekday d - 1
    /\ 0 <= days_between d m <= 6.
Proof.
  intros Hd. pose proof (valid_toordinal d Hd) as Hn.
  pose proof (isoweekday_range d) as Hw.
  assert (Ho : 1 <= toordinal d + - (isoweekday d - 1) <= _MAXORDINAL).
  { revert Hw. unfold isoweekday. cbv zeta.
    destruct (toordinal d mod 7 =? 0) eqn:E.
    - apply Z.eqb_eq in E. Z.to_euclidean_division_equations. lia.
    - Z.to_euclidean_division_equations. lia. }
  exists (fromordinal (toordinal d + - (isoweekday d - 1))).
  assert (Hm : monday_of_week d
               = Some (fromordinal (toordinal d + - (isoweekday d - 1))))
    by (unfold monday_of_week, date_sub; now apply date_add_some).
  destruct (date_add_spec _ _ _ Hm) as (Hord & Hval).
  split; [exact Hm|]. split; [exact Hval|].
  unfold days_between. rewrite Hord.
  split; [|split; lia].
  unfold isoweekday at 1. cbv zeta. rewrite Hord.
  unfold isoweekday. cbv zeta.
  destruct (toordinal d mod 7 =? 0) eqn:E.
  - apply Z.eqb_eq in E.
    replace ((toordinal d + - (7 - 1)) mod 7) with 1
      by (Z.to_euclidean_division_equations; lia).
    reflexivity.
  - apply Z.eqb_neq in E.
    replace ((toordinal d + - (toordinal d mod 7 - 1)) mod 7) with 1
      by (Z.to_euclidean_division_equations; lia).
    reflexivity.
Qed.

(** X1. For every valid date, [monday_of_week] returns (without overflow) a
    valid date that is a Monday, on the date itself or at most six days
    before it: the distance is the ISO weekday minus one. *)
Theorem monday_of_week_monday (d : date) :
  valid_date d ->
  exists m,
    monday_of_week d = Some m
    /\ valid_date m
    /\ isoweekday m = 1
    /\ days_between d m = isoweekday d - 1
    /\ 0 <= days_between d m <= 6.
Proof.
  intros Hd. pose proof (valid_toordinal d Hd) as Hn.
  pose proof (isoweekday_range d) as Hw.
  assert (Ho : 1 <= toordinal d + - (isoweekday d - 1) <= _MAXORDINAL).
  { revert Hw. unfold isoweekday. cbv zeta.
    destruct (toordinal d mod 7 =? 0) eqn:E.
    - apply Z.eqb_eq in E. Z.to_euclidean_division_equations. lia.
    - Z.to_euclidean_division_equations. lia. }
  exists (fromordinal (toordinal d + - (isoweekday d - 1))).
  assert (Hm : monday_of_week d
               = Some (fromordinal (toordinal d + - (isoweekday d - 1))))
    by (unfold monday_of_week, date_sub; now apply date_add_some).
  destruct (date_add_spec _ _ _ Hm) as (Hord & Hval).
  split; [exact Hm|]. split; [exact Hval|].
  unfold days_between. rewrite Hord.
  split; [|split; lia].
  unfold isoweekday at 1. cbv zeta. rewrite Hord.
  unfold isoweekday. cbv zeta.
  destruct (toordinal d mod 7 =? 0) eqn:E.
  - apply Z.eqb_eq in E.
    replace ((toordinal d + - (7 - 1)) mod 7) with 1
      by (Z.to_euclidean_division_equations; lia).
    reflexivity.
  - apply Z.eqb_neq in E.
    replace ((toordinal d + - (toordinal d mod 7 - 1)) mod 7) with 1
      by (Z.to_euclidean_division_equations; lia).
    reflexivity.
Qed.

Lemma week_of_monday_spec (m e : date) (k : Z) :
  valid_date m -> isoweekday m = 1 -> 0 <= k <= 6 ->
  date_add m k = Some e ->
  monday_of_week e = Some m /\ isoweekday e = k + 1.
Proof.
  intros Hm Hmon Hk He.
  destruct (date_add_spec _ _ _ He) as (Hord & Hval).
  pose proof (valid_toordinal m Hm) as Hn.
  assert (Hwe : isoweekday e = k + 1).
  { revert Hmon. unfold isoweekday. cbv zeta. rewrite Hord.
    destruct (toordinal m mod 7 =? 0) eqn:E; [lia|]. intros Hmon.
    destruct ((toordinal m + k) mod 7 =? 0) eqn:E2.
    - apply Z.eqb_eq in E2. Z.to_euclidean_division_equations. lia.
    - Z.to_euclidean_division_equations. lia. }
  split; [|exact Hwe].
  unfold monday_of_week, date_sub. rewrite Hwe.
  rewrite date_add_some by (rewrite Hord; lia).
  rewrite Hord. replace (toordinal m + k + - (k + 1 - 1)) with (toordinal m)
    by lia.
  now rewrite fromordinal_toordinal.
Qed.

(** X2. The date [k] days after a Monday, for [k] from 0 to 6, has ISO
    weekday [k + 1], and [monday_of_week] maps it back to that Monday; so
    [monday_of_week] is idempotent and constant on a Monday-to-Sunday
    week. *)
Theorem monday_of_week_same_week (m e : date) (k : Z) :
  valid_date m -> isoweekday m = 1 -> 0 <= k <= 6 ->
  date_add m k = Some e ->
  monday_of_week e = Some m /\ isoweekday e = k + 1.
Proof.
  intros Hm Hmon Hk He.
  destruct (date_add_spec _ _ _ He) as (Hord & Hval).
  pose proof (valid_toordinal m Hm) as Hn.
  assert (Hwe : isoweekday e = k + 1).
  { revert Hmon. unfold isoweekday. cbv zeta. rewrite Hord.
    destruct (toordinal m mod 7 =? 0) eqn:E; [lia|]. intros Hmon.
    destruct ((toordinal m + k) mod 7 =? 0) eqn:E2.
    - apply Z.eqb_eq in E2. Z.to_euclidean_division_equations. lia.
    - Z.to_euclidean_division_equations. lia. }
  split; [|exact Hwe].
  unfold monday_of_week, date_sub. rewrite Hwe.
  rewrite date_add_some by (rewrite Hord; lia).
  rewrite Hord. replace (toordinal m + k + - (k + 1 - 1)) with (toordinal m)
    by lia.
  now rewrite fromordinal_toordinal.
Qed.

(** X3. The week navigation of [kb_week_nav] overflows exactly in the first
    week of year 1 and the last week of year 9999; otherwise the previous
    and the next week are seven days away on the same weekday, going
    forward from the previous week or back from the next week returns to
    the week shown, and the home week is the Monday of today. *)
Theorem week_nav_round_trip (week_start today : date) :
  valid_date week_start -> valid_date today ->
  (week_nav_dates week_start today = None
   <-> toordinal week_start <= 7 \/ _MAXORDINAL - 7 < toordinal week_start)
  /\ (forall p h n,
         week_nav_dates week_start today = Some (p, h, n) ->
         date_add p 7 = Some week_start
         /\ date_sub n 7 = Some week_start
         /\ isoweekday p = isoweekday week_start
         /\ isoweekday n = isoweekday week_start
         /\ monday_of_week today = Some h).
Proof.
  intros Hw Ht. pose proof (valid_toordinal _ Hw) as Hn.
  destruct (monday_of_week_spec today Ht) as (h0 & Hh & _).
  unfold week_nav_dates. rewrite Hh.
  split.
  - unfold date_sub, date_add. cbv zeta. cbn [Z.opp].
    destruct (Z.ltb_spec 0 (toordinal week_start + - 7)),
      (Z.leb_spec (toordinal week_start + - 7) _MAXORDINAL),
      (Z.ltb_spec 0 (toordinal week_start + 7)),
      (Z.leb_spec (toordinal week_start + 7) _MAXORDINAL);
      cbn [andb]; split; intros Hx; try discriminate; try reflexivity;
      lia.
  - intros p h n.
    destruct (date_sub week_start 7) as [p'|] eqn:Ep; [|discriminate].
    destruct (date_add week_start 7) as [n'|] eqn:En; [|discriminate].
    intros [= <- <- <-].
    destruct (date_add_spec _ _ _ Ep) as (Hp & Hpv).
    destruct (date_add_spec _ _ _ En) as (Hn' & Hnv).
    pose proof (valid_toordinal _ Hpv). pose proof (valid_toordinal _ Hnv).
    repeat split.
    + rewrite date_add_some by lia.
      replace (toordinal p' + 7) with (toordinal week_start) by lia.
      now rewrite fromordinal_toordinal.
    + unfold date_sub. rewrite date_add_some by lia.
      replace (toordinal n' + Z.opp 7) with (toordinal week_start) by lia.
      now rewrite fromordinal_toordinal.
    + unfold isoweekday. cbv zeta.
      replace (toordinal p' mod 7) with (toordinal week_start mod 7)
        by (Z.to_euclidean_division_equations; lia).
      reflexivity.
    + unfold isoweekday. cbv zeta.
      replace (toordinal n' mod 7) with (toordinal week_start mod 7)
        by (Z.to_euclidean_division_equations; lia).
      reflexivity.
Qed.

(** X4. When the week shown starts on a Monday, the seven dates that
    [show_week_common] prints are consecutive valid dates, the [d]-th one
    having ISO weekday [d], the index of its day label. The one exception
    is the week of Monday 9999-12-27, the last of the calendar: its
    Saturday and Sunday do not exist, and there the addition raises
    OverflowError. *)
Theorem week_day_dates_weekdays (week_start : date) :
  valid_date week_start -> isoweekday week_start = 1 ->
  map fst (week_day_dates week_start) = [1; 2; 3; 4; 5; 6; 7]
  /\ (forall d od,
        In (d, od) (week_day_dates week_start) ->
        match od with
        | Some e =>
            valid_date e /\ isoweekday e = d
            /\ days_between e week_start = d - 1
        | None => week_start = mkdate 9999 12 27 /\ 6 <= d <= 7
        end)
  /\ (week_start = mkdate 9999 12 27 ->
      In (6, None) (week_day_dates week_start)
      /\ In (7, None) (week_day_dates week_start)).
Proof.
  intros Hw Hmon. split; [reflexivity|]. split.
  - intros d od Hin.
    unfold week_day_dates in Hin. apply in_map_iff in Hin.
    destruct Hin as (d' & [= <- <-] & Hd).
    assert (Hk : 0 <= d' - 1 <= 6) by (simpl in Hd; lia).
    pose proof (valid_toordinal _ Hw) as Hn.
    destruct (date_add week_start (d' - 1)) as [e|] eqn:He.
    + destruct (date_add_spec _ _ _ He) as (Hord & Hval).
      destruct (week_of_monday_spec _ _ _ Hw Hmon Hk He) as (_ & Hwd).
      split; [exact Hval|]. split; [lia|]. unfold days_between. lia.
    + assert (Hover : _MAXORDINAL < toordinal week_start + (d' - 1)).
      { destruct (Z.le_gt_cases (toordinal week_start + (d' - 1))
                                _MAXORDINAL) as [Hle|Hgt]; [|lia].
        rewrite date_add_some in He by lia. discriminate He. }
      assert (Hm7 : toordinal week_start mod 7 = 1).
      { revert Hmon. unfold isoweekday. cbv zeta.
        destruct (toordinal week_start mod 7 =? 0); [discriminate | auto]. }
      unfold _MAXORDINAL in *.
      assert (Ho : toordinal week_start = 3652055)
        by (Z.to_euclidean_division_equations; lia).
      split; [|lia].
      rewrite <- (fromordinal_toordinal week_start Hw), Ho.
      vm_compute. reflexivity.
  - intros ->. split; vm_compute; auto 10.
Qed.

(* --- get_week_status along the calendar --- *)

Lemma scan_some_covers (d : date) (ps : list period) (k : string) :
  scan_periods d ps = Some k ->
  exists p, In p ps /\ covers p d /\ p_kind p = k.
Proof.
  induction ps as [|[[s e] k'] ps IH]; simpl; [discriminate|].
  destruct (date_le s d && date_le d e) eqn:E.
  - intros [= <-]. exists (s, e, k'). split; [now left|].
    apply andb_true_iff in E. unfold covers, p_start, p_end. simpl.
    now rewrite <- !date_le_spec.
  - intros H. destruct (IH H) as (p & Hp & Hc & Hk). exists p. auto.
Qed.

Lemma status_uncovered (x : date_like) :
  (forall q, In q SPECIAL_PERIODS -> ~ covers q (as_date x)) ->
  get_week_status x = computed_status (toordinal (as_date x)).
Proof.
  intros H. unfold get_week_status. cbv zeta.
  now rewrite (scan_periods_none _ _ H).
Qed.

Lemma semester_start_ordinal : toordinal SEMESTER_START = 739495.
Proof. reflexivity. Qed.

Lemma semester_start_valid : valid_date SEMESTER_START.
Proof.
  unfold valid_date.
  split; [|split]; split; apply Z.leb_le; reflexivity.
Qed.

Lemma periods_after_start :
  Forall (fun p => date_leq SEMESTER_START (p_start p)) SPECIAL_PERIODS.
Proof.
  apply Forall_forall. intros p Hp. apply date_le_spec.
  assert (H : forallb (fun q => date_le SEMESTER_START (p_start q))
                      SPECIAL_PERIODS = true) by reflexivity.
  rewrite forallb_forall in H. exact (H p Hp).
Qed.

Lemma period_kinds_not_before :
  Forall (fun p => p_kind p <> "before"%string) SPECIAL_PERIODS.
Proof.
  apply Forall_forall. intros p Hp.
  assert (H : forallb (fun q => negb (String.eqb (p_kind q) "before"))
                      SPECIAL_PERIODS = true) by reflexivity.
  rewrite forallb_forall in H. specialize (H p Hp).
  apply negb_true_iff, String.eqb_neq in H. exact H.
Qed.

(** X5. A valid date resolves to "before" exactly when it lies before the
    semester start and is not a Sunday. *)
Theorem before_iff_precedes_semester (d : date) :
  valid_date d ->
  (get_week_status (D d) = "before"%string
   <-> date_lt d SEMESTER_START /\ isoweekday d <> 7).
Proof.
  intros Hd.
  assert (Hord : toordinal d < 739495 <-> date_lt d SEMESTER_START).
  { rewrite <- semester_start_ordinal. split.
    - intros Hlt.
      destruct (date_trichotomy d SEMESTER_START) as [H|[H|H]];
        [exact H | subst; lia |].
      pose proof (toordinal_lt _ _ semester_start_valid Hd H). lia.
    - now apply toordinal_lt; [|apply semester_start_valid]. }
  split.
  - intros Hb. unfold get_week_status in Hb. cbv zeta in Hb.
    cbn [as_date] in Hb.
    destruct (scan_periods d SPECIAL_PERIODS) as [k|] eqn:Es.
    + exfalso. destruct (scan_some_covers _ _ _ Es) as (p & Hp & _ & Hk).
      pose proof period_kinds_not_before as F. rewrite Forall_forall in F.
      apply (F p Hp). congruence.
    + destruct (isoweekday d =? 7) eqn:E7; [discriminate|].
      apply Z.eqb_neq in E7. split; [|exact E7].
      apply Hord. fold (days_between d SEMESTER_START) in Hb.
      unfold days_between in Hb. rewrite semester_start_ordinal in Hb.
      destruct ((toordinal d - 739495) / 7 + 1 <=? 0) eqn:Ew.
      * apply Z.leb_le in Ew. Z.to_euclidean_division_equations. lia.
      * destruct (_ =? 0) in Hb; discriminate.
  - intros [Hlt H7].
    rewrite status_uncovered.
    + cbn [as_date]. unfold computed_status. fold (isoweekday d).
      apply Z.eqb_neq in H7. rewrite H7. cbv zeta.
      apply Hord in Hlt. rewrite semester_start_ordinal.
      replace ((toordinal d - 739495) / 7 + 1 <=? 0) with true;
        [reflexivity|].
      symmetry. apply Z.leb_le. Z.to_euclidean_division_equations. lia.
    + cbn [as_date]. intros q Hq [Hc _].
      pose proof periods_after_start as F. rewrite Forall_forall in F.
      specialize (F q Hq).
      clear - Hlt Hc F. unfold date_lt, date_leq in *.
      destruct (p_start q) as [ys ms ds], d as [yd md dd].
      cbn in *. lia.
Qed.

(** X6. A day that is not a Sunday has the status of the Monday of its
    week, whenever no override period covers the day or that Monday: the
    week index only changes on Mondays, the semester start being one. *)
Theorem weekday_status_of_monday (d m : date) :
  valid_date d ->
  monday_of_week d = Some m ->
  isoweekday d <> 7 ->
  (forall q, In q SPECIAL_PERIODS -> ~ covers q d) ->
  (forall q, In q SPECIAL_PERIODS -> ~ covers q m) ->
  get_week_status (D d) = get_week_status (D m).
Proof.
  intros Hd Hm H7 Hcd Hcm.
  destruct (monday_of_week_spec d Hd) as (m' & Hm' & _ & Hmon & Hdiff & Hr).
  rewrite Hm in Hm'. injection Hm' as <-.
  rewrite (status_uncovered (D d) Hcd), (status_uncovered (D m) Hcm).
  cbn [as_date]. unfold computed_status. cbv zeta.
  fold (isoweekday d). fold (isoweekday m). rewrite Hmon.
  apply Z.eqb_neq in H7. rewrite H7. change (1 =? 7) with false. cbv iota.
  rewrite semester_start_ordinal.
  unfold days_between in Hdiff, Hr.
  assert (Hm7 : toordinal m mod 7 = 1).
  { revert Hmon. unfold isoweekday. cbv zeta.
    destruct (toordinal m mod 7 =? 0); [discriminate | auto]. }
  replace ((toordinal d - 739495) / 7) with ((toordinal m - 739495) / 7);
    [reflexivity|].
  pose proof (isoweekday_range d).
  Z.to_euclidean_division_equations. lia.
Qed.

(** X7. Seven weeks (49 days) after an odd day the status is even, and
    seven weeks after an even day it is odd, whenever no override period
    covers either date. *)
Theorem parity_flips_after_seven_weeks (d e : date) :
  date_add d 49 = Some e ->
  (forall q, In q SPECIAL_PERIODS -> ~ covers q d) ->
  (forall q, In q SPECIAL_PERIODS -> ~ covers q e) ->
  (get_week_status (D d) = "odd"%string ->
   get_week_status (D e) = "even"%string)
  /\ (get_week_status (D d) = "even"%string ->
      get_week_status (D e) = "odd"%string).
Proof.
  intros He Hcd Hce.
  destruct (date_add_spec _ _ _ He) as (Hord & _).
  rewrite (status_uncovered (D d) Hcd), (status_uncovered (D e) Hce).
  cbn [as_date]. rewrite Hord. unfold computed_status. cbv zeta.
  rewrite semester_start_ordinal.
  replace ((toordinal d + 49) mod 7) with (toordinal d mod 7)
    by (Z.to_euclidean_division_equations; lia).
  replace ((toordinal d + 49 - 739495) / 7 + 1)
    with ((toordinal d - 739495) / 7 + 1 + 7)
    by (Z.to_euclidean_division_equations; lia).
  set (w := (toordinal d - 739495) / 7 + 1).
  destruct ((if toordinal d mod 7 =? 0 then 7 else toordinal d mod 7) =? 7);
    [split; discriminate|].
  destruct (w <=? 0) eqn:Ew; [split; discriminate|].
  apply Z.leb_gt in Ew.
  replace (w + 7 <=? 0) with false by (symmetry; apply Z.leb_gt; lia).
  replace ((w + 7 - 1) / 7) with ((w - 1) / 7 + 1)
    by (Z.to_euclidean_division_equations; lia).
  destruct (((w - 1) / 7) mod 2 =? 0) eqn:Eb.
  - apply Z.eqb_eq in Eb.
    replace (((w - 1) / 7 + 1) mod 2 =? 0) with false.
    + split; [reflexivity | discriminate].
    + symmetry. apply Z.eqb_neq. Z.to_euclidean_division_equations. lia.
  - apply Z.eqb_neq in Eb.
    replace (((w - 1) / 7 + 1) mod 2 =? 0) with true.
    + split; [discriminate | reflexivity].
    + symmetry. apply Z.eqb_eq. Z.to_euclidean_division_equations. lia.
Qed.

Lemma status_in_regimes (x : date_like) : In (get_week_status x) regimes.
Proof.
  unfold get_week_status. cbv zeta.
  destruct (scan_periods (as_date x) SPECIAL_PERIODS) as [k|] eqn:E.
  - destruct (scan_some_covers _ _ _ E) as (p & Hp & _ & <-).
    unfold regimes. simpl in Hp.
    repeat (destruct Hp as [<-|Hp]; [simpl; auto 10|]). destruct Hp.
  - unfold regimes.
    destruct (isoweekday _ =? 7); [simpl; auto|].
    destruct (_ <=? 0); [simpl; auto 10|].
    destruct (_ =? 0); simpl; auto.
Qed.

(** X8. Every status that [get_week_status] returns has a label in
    STATUS_RU, so [parity_ru_full] never falls back to the raw tag; and
    [show_week_common] announces a week without classes exactly for
    holiday, vacation, exam and before, queries the odd lessons exactly for
    odd, and the even lessons for even and for rc. *)
Theorem status_label_and_view (x : date_like) :
  let status := get_week_status x in
  (exists label,
      In (status, label) STATUS_RU /\ parity_ru_full status = label
      /\ label <> status)
  /\ (week_query_parity status = None
      <-> In status ["holiday"; "vacation"; "exam"; "before"]%string)
  /\ (week_query_parity status = Some "odd"%string
      <-> status = "odd"%string)
  /\ (week_query_parity status = Some "even"%string
      <-> status = "even"%string \/ status = "rc"%string).
Proof.
  intros status. pose proof (status_in_regimes x) as H. fold status in H.
  unfold regimes in H. simpl in H.
  repeat (destruct H as [<-|H];
          [split; [eexists; split; [|split]; [|reflexivity|];
                   [simpl; auto 10 | discriminate]|];
           vm_compute; repeat split; intros; try discriminate; auto 10;
           repeat match goal with
                  | H : _ \/ _ |- _ => destruct H
                  | H : False |- _ => destruct H
                  end; try discriminate|]).
  destruct H.
Qed.

(** ** Witnesses *)

Ltac valid_date_by_evaluation :=
  unfold valid_date; split; [|split]; split; apply Z.leb_le; reflexivity.

Lemma monday_of_week_monday_witness :
  exists m,
    monday_of_week (mkdate 2025 9 7) = Some m
    /\ valid_date m
    /\ isoweekday m = 1
    /\ days_between (mkdate 2025 9 7) m = isoweekday (mkdate 2025 9 7) - 1
    /\ 0 <= days_between (mkdate 2025 9 7) m <= 6.
Proof.
  apply (monday_of_week_monday (mkdate 2025 9 7)).
  valid_date_by_evaluation.
Defined.

Lemma monday_of_week_same_week_witness :
  monday_of_week (mkdate 2025 9 4) = Some (mkdate 2025 9 1)
  /\ isoweekday (mkdate 2025 9 4) = 3 + 1.
Proof.
  apply (monday_of_week_same_week (mkdate 2025 9 1) (mkdate 2025 9 4) 3).
  - valid_date_by_evaluation.
  - reflexivity.
  - lia.
  - reflexivity.
Defined.

Lemma week_nav_round_trip_witness :
  date_add (mkdate 2025 8 25) 7 = Some (mkdate 2025 9 1)
  /\ date_sub (mkdate 2025 9 8) 7 = Some (mkdate 2025 9 1)
  /\ isoweekday (mkdate 2025 8 25) = isoweekday (mkdate 2025 9 1)
  /\ isoweekday (mkdate 2025 9 8) = isoweekday (mkdate 2025 9 1)
  /\ monday_of_week (mkdate 2025 9 10) = Some (mkdate 2025 9 8).
Proof.
  apply (proj2 (week_nav_round_trip (mkdate 2025 9 1) (mkdate 2025 9 10)
                  ltac:(valid_date_by_evaluation)
                  ltac:(valid_date_by_evaluation))).
  reflexivity.
Defined.

Lemma week_day_dates_weekdays_witness :
  map fst (week_day_dates (mkdate 2025 9 1)) = [1; 2; 3; 4; 5; 6; 7]
  /\ (forall d od,
        In (d, od) (week_day_dates (mkdate 2025 9 1)) ->
        match od with
        | Some e =>
            valid_date e /\ isoweekday e = d
            /\ days_between e (mkdate 2025 9 1) = d - 1
        | None => mkdate 2025 9 1 = mkdate 9999 12 27 /\ 6 <= d <= 7
        end)
  /\ (mkdate 2025 9 1 = mkdate 9999 12 27 ->
      In (6, None) (week_day_dates (mkdate 2025 9 1))
      /\ In (7, None) (week_day_dates (mkdate 2025 9 1))).
Proof.
  apply (week_day_dates_weekdays (mkdate 2025 9 1)).
  - valid_date_by_evaluation.
  - reflexivity.
Defined.

Lemma before_iff_precedes_semester_witness :
  get_week_status (D (mkdate 2025 8 30)) = "before"%string
  <-> date_lt (mkdate 2025 8 30) SEMESTER_START
      /\ isoweekday (mkdate 2025 8 30) <> 7.
Proof.
  apply (before_iff_precedes_semester (mkdate 2025 8 30)).
  valid_date_by_evaluation.
Defined.

Lemma weekday_status_of_monday_witness :
  get_week_status (D (mkdate 2025 9 17))
  = get_week_status (D (mkdate 2025 9 15)).
Proof.
  apply (weekday_status_of_monday (mkdate 2025 9 17) (mkdate 2025 9 15)).
  - valid_date_by_evaluation.
  - reflexivity.
  - vm_compute. discriminate.
  - apply misses_all_spec. reflexivity.
  - apply misses_all_spec. reflexivity.
Defined.

Lemma parity_flips_after_seven_weeks_witness :
  (get_week_status (D (mkdate 2025 9 17)) = "odd"%string ->
   get_week_status (D (mkdate 2025 11 5)) = "even"%string)
  /\ (get_week_status (D (mkdate 2025 9 17)) = "even"%string ->
      get_week_status (D (mkdate 2025 11 5)) = "odd"%string).
Proof.
  apply (parity_flips_after_seven_weeks (mkdate 2025 9 17)
           (mkdate 2025 11 5)).
  - reflexivity.
  - apply misses_all_spec. reflexivity.
  - apply misses_all_spec. reflexivity.
Defined.

End CalendarArithmetic.

(* ================================================================== *)
(** * Part VIII: HTML formatting of the week view (src/app/bot.py) *)
(* ================================================================== *)

Lemma replace_char_app (old : codepoint) (new a b : pystr) :
  replace_char old new (a ++ b)
  = replace_char old new a ++ replace_char old new b.
Proof. unfold replace_char. apply flat_map_app. Qed.

Lemma hesc_cons (c : codepoint) (s : pystr) :
  hesc (Some (c :: s)) = hesc_char c ++ hesc (Some s).
Proof.
  unfold hesc, hesc_char.
  change (c :: s) with ([c] ++ s).
  rewrite !replace_char_app. f_equal.
  unfold replace_char. cbn [flat_map app].
  destruct (N.eqb_spec c 38) as [->|H38]; [reflexivity|].
  cbn [flat_map app].
  destruct (N.eqb_spec c 60) as [->|H60]; [reflexivity|].
  cbn [flat_map app].
  destruct (N.eqb_spec c 62) as [->|H62]; reflexivity.
Qed.

Lemma hesc_nil : hesc (Some []) = [].
Proof. reflexivity. Qed.

Lemma hesc_none : hesc None = [].
Proof. reflexivity. Qed.

Lemma hesc_no_angle (s : option pystr) : no_angle (hesc s).
Proof.
  destruct s as [s|]; [|constructor].
  induction s as [|c s IH]; [constructor|].
  rewrite hesc_cons. apply Forall_app. split; [|exact IH].
  unfold hesc_char.
  destruct (N.eqb_spec c 38); [repeat constructor; discriminate|].
  destruct (N.eqb_spec c 60); [repeat constructor; discriminate|].
  destruct (N.eqb_spec c 62); [repeat constructor; discriminate|].
  repeat constructor; assumption.
Qed.

Lemma hesc_length (s : pystr) :
  (List.length s <= List.length (hesc (Some s)))%nat.
Proof.
  induction s as [|c s IH]; [apply le_n|].
  rewrite hesc_cons, length_app. unfold hesc_char.
  destruct (c =? 38)%N; [simpl; lia|].
  destruct (c =? 60)%N; [simpl; lia|].
  destruct (c =? 62)%N; simpl; lia.
Qed.

Lemma unescape_fuel_hesc (s : pystr) (fuel : nat) :
  (List.length (hesc (Some s)) <= fuel)%nat ->
  unescape_fuel fuel (hesc (Some s)) = s.
Proof.
  revert fuel. induction s as [|c s IH]; intros fuel Hf.
  - destruct fuel; reflexivity.
  - rewrite hesc_cons in *. rewrite length_app in Hf.
    unfold hesc_char in *.
    destruct (N.eqb_spec c 38) as [->|H38].
    { destruct fuel as [|fuel]; [simpl in Hf; lia|].
      simpl in Hf. cbn. f_equal. apply IH. lia. }
    destruct (N.eqb_spec c 60) as [->|H60].
    { destruct fuel as [|fuel]; [simpl in Hf; lia|].
      simpl in Hf. cbn. f_equal. apply IH. lia. }
    destruct (N.eqb_spec c 62) as [->|H62].
    { destruct fuel as [|fuel]; [simpl in Hf; lia|].
      simpl in Hf. cbn. f_equal. apply IH. lia. }
    destruct fuel as [|fuel]; [simpl in Hf; lia|].
    simpl in Hf. cbn [app unescape_fuel].
    assert (E : forall p, startswith (38%N :: p) (c :: hesc (Some s)) = false).
    { intros p. cbn [startswith].
      destruct (N.eqb_spec 38 c); [congruence | reflexivity]. }
    change (u "&amp;") with (38%N :: u "amp;").
    change (u "&lt;") with (38%N :: u "lt;").
    change (u "&gt;") with (38%N :: u "gt;").
    rewrite !E. f_equal. apply IH. lia.
Qed.

Lemma unescape_hesc (s : pystr) : unescape (hesc (Some s)) = s.
Proof. unfold unescape. apply unescape_fuel_hesc. apply le_n. Qed.

Lemma hesc_fixed_iff (s : pystr) : hesc (Some s) = s <-> plain_text s.
Proof.
  unfold plain_text. split.
  - induction s as [|c s IH]; intros H; [constructor|].
    rewrite hesc_cons in H. unfold hesc_char in H.
    pose proof (hesc_length s) as Hl.
    destruct (N.eqb_spec c 38) as [->|H38];
      [apply (f_equal (@List.length _)) in H; simpl in H; lia|].
    destruct (N.eqb_spec c 60) as [->|H60];
      [apply (f_equal (@List.length _)) in H; simpl in H; lia|].
    destruct (N.eqb_spec c 62) as [->|H62];
      [apply (f_equal (@List.length _)) in H; simpl in H; lia|].
    injection H as H. constructor; [auto | now apply IH].
  - induction 1 as [|c s (H38 & H60 & H62) _ IH]; [reflexivity|].
    rewrite hesc_cons, IH. unfold hesc_char.
    destruct (N.eqb_spec c 38); [contradiction|].
    destruct (N.eqb_spec c 60); [contradiction|].
    destruct (N.eqb_spec c 62); [contradiction|]. reflexivity.
Qed.

(** X9. [hesc] never leaves an angle bracket in its output; decoding the
    three entities it writes gives the text back, so no text is lost; and
    it leaves a text unchanged exactly when the text has none of the
    characters [&], [<] and [>]. *)
Theorem hesc_safe_and_reversible (s : pystr) :
  no_angle (hesc (Some s))
  /\ unescape (hesc (Some s)) = s
  /\ (hesc (Some s) = s <-> plain_text s).
Proof.
  split; [apply hesc_no_angle|].
  split; [apply unescape_hesc | apply hesc_fixed_iff].
Qed.

Section RenderingProperties.

Variable str_upper : pystr -> pystr.

Lemma join_no_angle (sep : pystr) (parts : list pystr) :
  no_angle sep -> Forall no_angle parts -> no_angle (join sep parts).
Proof.
  intros Hsep. induction 1 as [|p ps Hp Hps IH]; [constructor|].
  destruct ps as [|q ps]; [exact Hp|].
  change (join sep (p :: q :: ps)) with (p ++ sep ++ join sep (q :: ps)).
  apply Forall_app. split; [exact Hp|].
  apply Forall_app. split; [exact Hsep | exact IH].
Qed.

Lemma html_quote_body (lines : list pystr) :
  exists body,
    html_quote lines = u "<blockquote>" ++ body ++ u "</blockquote>"
    /\ no_angle body
    /\ body = join [10%N] (map (fun x => hesc (Some x)) lines).
Proof.
  eexists. split; [reflexivity|]. split; [|reflexivity].
  apply join_no_angle.
  - repeat constructor; discriminate.
  - apply Forall_forall. intros x Hx. apply in_map_iff in Hx.
    destruct Hx as (y & <- & _). apply hesc_no_angle.
Qed.

(** X10. Whatever the header and the rows hold, the text of a day block is
    one blockquote element: the opening tag, a body without any angle
    bracket, the closing tag. *)
Theorem render_day_block_one_element (header_line : pystr)
        (rows : list lesson_row) :
  exists body,
    render_day_block str_upper header_line rows
    = u "<blockquote>" ++ body ++ u "</blockquote>"
    /\ no_angle body.
Proof.
  unfold render_day_block.
  destruct rows as [|r rows].
  - destruct (html_quote_body [header_line; u "пар нет"]) as (b & E & H & _).
    exists b. auto.
  - destruct (html_quote_body
                (pop_blank
                   (header_line
                    :: flat_map (fun r0 => row_to_lines str_upper r0 ++ [[]])
                                (r :: rows)))) as (b & E & H & _).
    exists b. auto.
Qed.

Lemma pop_blank_cases (l : list pystr) :
  pop_blank l = l \/ exists l', l = l' ++ [[]] /\ pop_blank l = l'.
Proof.
  unfold pop_blank. destruct (rev l) as [|x xs] eqn:E; [now left|].
  destruct x as [|c x]; [|now left].
  right. exists (rev xs). split; [|reflexivity].
  rewrite <- (rev_involutive l), E. reflexivity.
Qed.

Lemma pop_blank_cons2 (a b : pystr) (rest : list pystr) :
  rest <> [] -> exists tail, pop_blank (a :: b :: rest) = a :: b :: tail.
Proof.
  intros Hr.
  destruct (pop_blank_cases (a :: b :: rest)) as [->|(l' & E & ->)];
    [eauto|].
  destruct l' as [|x [|y l'']]; cbn [app] in E.
  - discriminate E.
  - injection E as _ _ E. contradiction.
  - injection E as -> -> _. eauto.
Qed.

(** X11. The title of a row is escaped twice, once by [row_to_lines] and
    once by [html_quote]: after the escaped header, the block continues
    with [hesc(hesc(title))], so that decoding the entities once gives
    [hesc(title)], not the title, unless the title is plain text. *)
Theorem render_day_block_escapes_title_twice (header_line : pystr)
        (r : lesson_row) (rows : list lesson_row) :
  let t := match r_title r with Some t => t | None => [] end in
  (exists rest,
      render_day_block str_upper header_line (r :: rows)
      = u "<blockquote>" ++ hesc (Some header_line) ++ [10%N]
          ++ hesc (Some (hesc (Some t))) ++ rest)
  /\ unescape (hesc (Some (hesc (Some t)))) = hesc (Some t)
  /\ (hesc (Some t) = t <-> plain_text t).
Proof.
  intros t.
  assert (Et : hesc (r_title r) = hesc (Some t))
    by (subst t; destruct (r_title r); reflexivity).
  split; [|split].
  - unfold render_day_block, html_quote.
    cbn [flat_map]. unfold row_to_lines at 1. cbn [app].
    match goal with
    | |- context [pop_blank (?a :: ?b :: ?rest)] =>
        destruct (pop_blank_cons2 a b rest) as (tail & ->)
    end.
    { destruct (text_truthy (r_teacher r)); discriminate. }
    cbn [map]. rewrite Et.
    destruct (map (fun x => hesc (Some x)) tail) as [|l ls] eqn:El.
    + exists (u "</blockquote>"). cbn [join].
      rewrite <- !app_assoc. reflexivity.
    + eexists.
      change (join [10%N] (hesc (Some header_line)
                :: hesc (Some (hesc (Some t))) :: l :: ls))
        with (hesc (Some header_line) ++ [10%N]
              ++ hesc (Some (hesc (Some t))) ++ [10%N]
              ++ join [10%N] (l :: ls)).
      rewrite <- !app_assoc. reflexivity.
  - apply unescape_hesc.
  - apply hesc_fixed_iff.
Qed.

End RenderingProperties.

(* ================================================================== *)
(** * Part IX: more on the normalizer (src/app/vlsu_api.py) *)
(* ================================================================== *)

(** ** [_pick] *)

Lemma pick_blank (d : dict) (keys : list pystr) (default : json) :
  Forall (blank_at d) keys -> _pick d keys default = default.
Proof.
  induction 1 as [|k ks Hk _ IH]; [reflexivity|].
  cbn [_pick]. unfold blank_at in Hk.
  destruct (dict_get d k) as [v|]; [now rewrite Hk | exact IH].
Qed.

(** X12. [_pick] returns the value of the first key, in the order given,
    that the dict holds with a value other than [None] and the empty
    string, and the default when there is no such key; so it never returns
    [None] or an empty string taken from the dict. *)
Theorem pick_first_nonblank (d : dict) (keys : list pystr) (default : json) :
  (Forall (blank_at d) keys -> _pick d keys default = default)
  /\ (forall pre k post v,
         keys = pre ++ k :: post ->
         Forall (blank_at d) pre ->
         dict_get d k = Some v -> none_or_empty v = false ->
         _pick d keys default = v)
  /\ (none_or_empty (_pick d keys default) = true ->
      _pick d keys default = default).
Proof.
  split; [apply pick_blank|]. split.
  - intros pre k post v -> Hpre Hk Hv.
    induction Hpre as [|k0 pre Hk0 _ IH]; cbn [app _pick].
    + now rewrite Hk, Hv.
    + unfold blank_at in Hk0.
      destruct (dict_get d k0) as [v0|]; [now rewrite Hk0 | exact IH].
  - induction keys as [|k ks IH]; [reflexivity|].
    cbn [_pick].
    destruct (dict_get d k) as [v|]; [|exact IH].
    destruct (none_or_empty v) eqn:E; [exact IH|].
    intros H. congruence.
Qed.

Lemma pick_first_nonblank_witness :
  _pick [(u "Start", JStr []); (u "Begin", JStr (u "08:30"))]
        START_KEYS JNull
  = JStr (u "08:30").
Proof.
  apply (proj1 (proj2 (pick_first_nonblank
                         [(u "Start", JStr []); (u "Begin", JStr (u "08:30"))]
                         START_KEYS JNull))
               [u "Start"; u "TimeStart"] (u "Begin")
               [u "From"; u "StartTime"]).
  - reflexivity.
  - repeat constructor.
  - reflexivity.
  - reflexivity.
Defined.

(** ** [_parse_cell_text] *)

Lemma cell_tokens_nonempty (s p : pystr) :
  In p (cell_tokens s) -> p <> [].
Proof.
  unfold cell_tokens. intros H. apply in_map_iff in H.
  destruct H as (q & <- & Hq). apply filter_In in Hq.
  destruct Hq as [_ Hq]. apply negb_true_iff, Nat.eqb_neq in Hq.
  intros E. rewrite E in Hq. now apply Hq.
Qed.

Lemma enumerate_in {A} (l : list A) (i : nat) (x : A) :
  In (i, x) (enumerate l) -> In x l.
Proof. unfold enumerate. apply in_combine_r. Qed.

Lemma first_unused_some (test : pystr -> bool) (used : list nat)
      (parts : list pystr) (i : nat) (p : pystr) :
  first_unused test used (enumerate parts) = Some (i, p) ->
  In p parts /\ test p = true.
Proof.
  unfold first_unused. intros H. apply find_some in H.
  destruct H as [Hin Ht]. cbn [fst snd] in Ht.
  apply andb_true_iff in Ht. destruct Ht as [_ Ht].
  split; [now apply enumerate_in in Hin | exact Ht].
Qed.

Lemma join_nonempty (sep p : pystr) (ps : list pystr) :
  p <> [] -> join sep (p :: ps) <> [].
Proof.
  intros Hp. destruct ps as [|q ps]; [exact Hp|].
  change (join sep (p :: q :: ps)) with (p ++ sep ++ join sep (q :: ps)).
  destruct p; [contradiction | discriminate].
Qed.

Lemma parse_cell_text_eq (s : pystr) :
  s <> [] ->
  _parse_cell_text s =
  let parts := cell_tokens s in
  let kind_used :=
    match parts with
    | p0 :: _ =>
        if (List.length p0 <=? 3)%nat then (Some p0, [0%nat]) else (None, [])
    | [] => (None, [])
    end in
  let room_used :=
    match first_unused _looks_like_room (snd kind_used) (enumerate parts) with
    | Some (i, p) => (Some p, i :: snd kind_used)
    | None => (None, snd kind_used)
    end in
  let teacher_used :=
    match first_unused _looks_like_teacher (snd room_used) (enumerate parts)
    with
    | Some (i, p) => (Some p, i :: snd room_used)
    | None => (None, snd room_used)
    end in
  let title_parts :=
    map snd (filter (fun ip => negb (used_has (snd teacher_used) (fst ip)))
                    (enumerate parts)) in
  (fst kind_used, fst room_used, fst teacher_used,
   match title_parts with
   | [] => None
   | _ => Some (join (u ", ") title_parts)
   end).
Proof.
  intros Hs. destruct s as [|c s]; [contradiction|].
  unfold _parse_cell_text. fold (cell_tokens (c :: s)). cbv zeta.
  destruct (cell_tokens (c :: s)) as [|p0 ps];
    [|destruct (List.length p0 <=? 3)%nat];
    cbn [fst snd];
    repeat match goal with
           | |- context [first_unused ?t ?us ?l] =>
               destruct (first_unused t us l) as [[? ?]|]; cbn [fst snd]
           end; reflexivity.
Qed.

(** X13. In the result of [_parse_cell_text], the kind is the first token
    and has one to three characters; the room is a token that passes the
    room test and the teacher a token that passes the teacher test; the
    title is not empty; and all four are absent exactly when the cell has
    no token. *)
Theorem parse_cell_text_fields (s : pystr) :
  let '(kind, room, teacher, title) := _parse_cell_text s in
  match kind with
  | Some k => (1 <= List.length k <= 3)%nat /\ hd_error (cell_tokens s) = Some k
  | None => True
  end
  /\ match room with
     | Some r => In r (cell_tokens s) /\ _looks_like_room r = true
     | None => True
     end
  /\ match teacher with
     | Some t => In t (cell_tokens s) /\ _looks_like_teacher t = true
     | None => True
     end
  /\ match title with
     | Some t => t <> []
     | None => True
     end
  /\ ((kind, room, teacher, title) = (None, None, None, None)
      <-> cell_tokens s = []).
Proof.
  destruct s as [|c0 s0] eqn:Es.
  { cbn. repeat split; auto. }
  rewrite <- Es. assert (Hs : s <> []) by (rewrite Es; discriminate).
  clear Es. rewrite (parse_cell_text_eq s Hs). cbv zeta.
  pose proof (cell_tokens_nonempty s) as Hne.
  destruct (cell_tokens s) as [|p0 ps] eqn:Ep.
  { cbn. repeat split; auto. }
  set (parts := p0 :: ps) in *.
  set (kind_used :=
         if (List.length p0 <=? 3)%nat then (Some p0, [0%nat])
         else (None, [])).
  set (room_used :=
         match first_unused _looks_like_room (snd kind_used) (enumerate parts)
         with
         | Some (i, p) => (Some p, i :: snd kind_used)
         | None => (None, snd kind_used)
         end).
  set (teacher_used :=
         match first_unused _looks_like_teacher (snd room_used)
                            (enumerate parts) with
         | Some (i, p) => (Some p, i :: snd room_used)
         | None => (None, snd room_used)
         end).
  assert (Hkind : match fst kind_used with
                  | Some k => (1 <= List.length k <= 3)%nat
                              /\ hd_error parts = Some k
                  | None => True
                  end).
  { subst kind_used. destruct (List.length p0 <=? 3)%nat eqn:E; [|exact I].
    cbn [fst]. apply Nat.leb_le in E. split; [|reflexivity].
    assert (p0 <> []) by (apply Hne; now left).
    destruct p0; [contradiction | simpl in *; lia]. }
  assert (Hroom : match fst room_used with
                  | Some r => In r parts /\ _looks_like_room r = true
                  | None => True
                  end).
  { subst room_used.
    destruct (first_unused _looks_like_room (snd kind_used) (enumerate parts))
      as [[i p]|] eqn:E; [|exact I].
    cbn [fst]. exact (first_unused_some _ _ _ _ _ E). }
  assert (Hteacher : match fst teacher_used with
                     | Some t => In t parts /\ _looks_like_teacher t = true
                     | None => True
                     end).
  { subst teacher_used.
    destruct (first_unused _looks_like_teacher (snd room_used)
                           (enumerate parts)) as [[i p]|] eqn:E; [|exact I].
    cbn [fst]. exact (first_unused_some _ _ _ _ _ E). }
  set (title_parts :=
         map snd (filter (fun ip => negb (used_has (snd teacher_used) (fst ip)))
                         (enumerate parts))).
  assert (Htitle : match title_parts with
                   | [] => True
                   | t :: ts => join (u ", ") (t :: ts) <> []
                   end).
  { destruct title_parts as [|t ts] eqn:Et; [exact I|].
    apply join_nonempty. apply Hne.
    assert (Hin : In t title_parts) by (rewrite Et; now left).
    subst title_parts. apply in_map_iff in Hin.
    destruct Hin as ([i q] & <- & Hq). apply filter_In in Hq.
    destruct Hq as [Hq _]. now apply enumerate_in in Hq. }
  split; [exact Hkind|]. split; [exact Hroom|]. split; [exact Hteacher|].
  split.
  { destruct title_parts; [exact I | exact Htitle]. }
  split; [|discriminate].
  intros H. exfalso.
  (* the first token is either used or part of the title *)
  assert (H0 : In (0%nat, p0) (enumerate parts)) by (now left).
  destruct (used_has (snd teacher_used) 0) eqn:Eu.
  - (* used: one of kind, room, teacher is present *)
    assert (Hused : snd teacher_used <> [])
      by (intros E; rewrite E in Eu; discriminate).
    injection H as Hk Hr Ht _.
    subst teacher_used room_used kind_used.
    destruct (List.length p0 <=? 3)%nat; [discriminate Hk|].
    cbn [fst snd] in *.
    destruct (first_unused _looks_like_room [] (enumerate parts))
      as [[i p]|]; [discriminate Hr|].
    cbn [fst snd] in *.
    destruct (first_unused _looks_like_teacher [] (enumerate parts))
      as [[i p]|]; [discriminate Ht|].
    cbn [snd] in Hused. contradiction.
  - assert (Hin : In p0 title_parts).
    { subst title_parts. apply in_map_iff. exists (0%nat, p0).
      split; [reflexivity|]. apply filter_In. split; [exact H0|].
      cbn [fst]. now rewrite Eu. }
    injection H as _ _ _ Hti.
    destruct title_parts; [destruct Hin | discriminate Hti].
Qed.

Lemma for_each_raise_inv {A B} (f : A -> pyresult (list B)) (xs : list A)
      (e : exn) :
  for_each f xs = Raise e -> exists x, In x xs /\ f x = Raise e.
Proof.
  induction xs as [|a xs IH]; cbn [for_each]; [discriminate|].
  destruct (f a) as [ys|e'] eqn:Ea; cbn [bind].
  - destruct (for_each f xs) as [zs|e''] eqn:Er; cbn [bind]; [discriminate|].
    intros [= <-]. destruct (IH eq_refl) as (x & Hx & Hf).
    exists x. split; [now right | exact Hf].
  - intros [= <-]. exists a. split; [now left | exact Ea].
Qed.

Lemma for_each_raise_some {A B} (f : A -> pyresult (list B)) (xs : list A)
      (x : A) (e : exn) :
  In x xs -> f x = Raise e -> exists e', for_each f xs = Raise e'.
Proof.
  intros Hx Hf. induction xs as [|a xs IH]; [destruct Hx|].
  cbn [for_each]. destruct (f a) as [ys|e'] eqn:Ea; cbn [bind]; [|eauto].
  destruct Hx as [->|Hx]; [congruence|].
  destruct (IH Hx) as (e' & ->). cbn [bind]. eauto.
Qed.

Lemma dedup_loop_raise (ls : list lesson) :
  forall seen uniq e,
    dedup_loop ls seen uniq = Raise e ->
    e = TypeError
    /\ exists l, In l ls /\ forallb hashable (lesson_key l) = false.
Proof.
  induction ls as [|l ls IH]; intros seen uniq e; cbn [dedup_loop];
    [discriminate|].
  destruct (forallb hashable (lesson_key l)) eqn:Eh; cbn [negb].
  - destruct (existsb (key_eqb (lesson_key l)) seen); intros H;
      destruct (IH _ _ _ H) as (-> & l' & Hl' & Hh);
      (split; [reflexivity | exists l'; split; [now right | exact Hh]]).
  - intros [= <-]. split; [reflexivity|].
    exists l. split; [now left | exact Eh].
Qed.

Lemma dedup_loop_unhashable (ls : list lesson) (l : lesson) :
  In l ls -> forallb hashable (lesson_key l) = false ->
  forall seen uniq, dedup_loop ls seen uniq = Raise TypeError.
Proof.
  intros Hl Hh. induction ls as [|a ls IH]; [destruct Hl|].
  intros seen uniq. cbn [dedup_loop].
  destruct (forallb hashable (lesson_key a)) eqn:Ea; cbn [negb];
    [|reflexivity].
  destruct Hl as [->|Hl]; [congruence|].
  destruct (existsb (key_eqb (lesson_key a)) seen); now apply IH.
Qed.

Section NormalizerErrors.

Context {RT : PyRuntime}.

Lemma normalize_week_type_range (v : json) :
  In (JStr (normalize_week_type v)) WEEK_VALUES.
Proof.
  assert (Hint : forall n, In (JStr (week_of_int n)) WEEK_VALUES).
  { intros n. unfold week_of_int, WEEK_VALUES.
    destruct (n =? 1); [simpl; auto|].
    destruct (n =? 2); simpl; auto. }
  unfold normalize_week_type.
  destruct v; try apply Hint; try (left; reflexivity);
    repeat match goal with
           | |- context [if ?c then _ else _] => destruct c
           end; unfold WEEK_VALUES; simpl; auto.
Qed.

Lemma push_week (item cd cw : json) (l : lesson) :
  In l (push item cd cw) -> In (week l) WEEK_VALUES.
Proof.
  unfold push. destruct item; try (intros []).
  destruct (negb (any_truthy _)); [intros []|].
  intros [<-|[]]. cbn [week]. apply normalize_week_type_range.
Qed.

(** X14. Every record that [normalize_schedule] returns has as its week
    one of the strings "all", "odd" and "even", the values that the week
    column of the lessons table accepts. *)
Theorem normalize_week_in_schema (raw : json) (out : list lesson)
        (l : lesson) :
  normalize_schedule raw = Ok out -> In l out -> In (week l) WEEK_VALUES.
Proof.
  intros H Hl. destruct (is_slotted raw) eqn:Es.
  - destruct (normalize_slotted raw Es) as (xs & -> & E). rewrite E in H.
    destruct (slotted_shape _ _ _ H Hl) as (_ & [Hw|Hw] & _);
      rewrite Hw; unfold WEEK_VALUES; simpl; auto.
  - rewrite (normalize_generic raw Es) in H.
    pose proof (dedup_loop_subset _ _ _ H Hl) as Hw.
    exact (walk_pushes (fun x => In (week x) WEEK_VALUES) push_week
                       _ _ _ _ Hw).
Qed.

(** X15. On the generic path a TypeError of [normalize_schedule] always
    comes from the deduplication: the walk has then appended a record with
    a list or a dict in one of its eight fields, which cannot be hashed.
    Whenever the walk appends such a record, [normalize_schedule] returns
    no result. The generic path never raises AttributeError. *)
Theorem generic_path_type_error (raw : json) :
  is_slotted raw = false ->
  (normalize_schedule raw = Raise TypeError ->
   exists l, In l (walk raw JNull JNull)
             /\ forallb hashable (lesson_key l) = false)
  /\ ((exists l, In l (walk raw JNull JNull)
                 /\ forallb hashable (lesson_key l) = false) ->
      forall out, normalize_schedule raw <> Ok out)
  /\ normalize_schedule raw <> Raise AttributeError.
Proof.
  intros Hs. rewrite (normalize_generic raw Hs).
  split; [|split].
  - intros H. now destruct (dedup_loop_raise _ _ _ _ H).
  - intros (l & Hl & Hh) out.
    rewrite (dedup_loop_unhashable _ l Hl Hh). discriminate.
  - intros H. destruct (dedup_loop_raise _ _ _ _ H) as [E _]. discriminate E.
Qed.

(** *** The slotted-day parser *)

Lemma cell_text_raise (d : dict) (key : pystr) (e : exn) :
  cell_text d key = Raise e <->
  e = AttributeError
  /\ exists v, dict_get d key = Some v /\ not_text v.
Proof.
  unfold cell_text, not_text. split.
  - destruct (dict_get d key) as [v|]; [|discriminate].
    destruct (truthy v) eqn:Et; [|discriminate].
    destruct v; try discriminate; intros [= <-];
      (split; [reflexivity|]); eexists; (split; [reflexivity|]);
      (split; [exact Et | intros s; discriminate]).
  - intros (-> & v & -> & Ht & Hs). rewrite Ht.
    destruct v; try reflexivity. exfalso. now apply (Hs s).
Qed.

Lemma slot_records_raise (d : dict) (n idx : Z) (key wk : pystr) (e : exn) :
  slot_records d n idx (key, wk) = Raise e <->
  cell_text d (key ++ str_of_Z idx) = Raise e.
Proof.
  unfold slot_records.
  destruct (cell_text d (key ++ str_of_Z idx)) as [c|e'] eqn:Ec; cbn [bind].
  - split; [|discriminate].
    destruct (Nat.eqb (List.length c) 0); [discriminate|].
    destruct (_parse_cell_text c) as [[[k r] t] ti].
    destruct (assoc_Z PAIR_TIMES idx) as [[s0 e0]|];
      destruct (negb _); discriminate.
  - split; intros [= <-]; reflexivity.
Qed.

Lemma day_records_raise (obj : json) (e : exn) :
  day_records obj = Raise e ->
  e = AttributeError
  /\ exists d, obj = JDict d /\ recognised_day d /\ bad_cell d.
Proof.
  unfold day_records.
  destruct obj as [| | | | | |d]; try discriminate.
  destruct (dict_get d (u "type")) as [[| | | |t| |]|] eqn:Et;
    try discriminate.
  destruct (str_eqb t (u "Lessons")) eqn:El; [|discriminate].
  apply str_eqb_eq in El. subst t.
  destruct (assoc_str DAY_MAP_RU (day_name d)) as [n|] eqn:En;
    [|discriminate].
  destruct (n =? 0); [discriminate|].
  intros H.
  destruct (for_each_raise_inv _ _ _ H) as (idx & Hidx & H1).
  destruct (for_each_raise_inv _ _ _ H1) as ([key wk] & Hslot & H2).
  apply slot_records_raise, cell_text_raise in H2.
  destruct H2 as (-> & v & Hv & Hnt).
  split; [reflexivity|]. exists d. split; [reflexivity|].
  split; [split; [exact Et | eauto]|].
  exists idx, (key, wk), v. auto.
Qed.

Lemma day_records_bad_cell (d : dict) :
  recognised_day d -> bad_cell d ->
  day_records (JDict d) = Raise AttributeError.
Proof.
  intros (Ht & n & Hn) (idx & [key wk] & v & Hidx & Hslot & Hv & Hnt).
  assert (Hn0 : (n =? 0) = false).
  { apply assoc_str_In in Hn.
    pose proof DAY_MAP_RU_range as R. rewrite Forall_forall in R.
    specialize (R _ Hn). cbn [snd] in R. apply Z.eqb_neq. lia. }
  assert (Hslot_raise : slot_records d n idx (key, wk) = Raise AttributeError).
  { apply slot_records_raise, cell_text_raise. split; [reflexivity|].
    exists v. auto. }
  destruct (for_each_raise_some _ _ _ _ Hslot Hslot_raise) as (e1 & H1).
  destruct (for_each_raise_some
              (fun i => for_each (slot_records d n i) SLOTS)
              _ _ _ Hidx H1) as (e2 & H2).
  assert (Hday : day_records (JDict d) = Raise e2).
  { unfold day_records. rewrite Ht, str_eqb_refl, Hn, Hn0. exact H2. }
  destruct (day_records_raise _ _ Hday) as [-> _]. exact Hday.
Qed.

(** X16. The slotted-day parser raises AttributeError exactly when some
    day-object that it goes through (type "Lessons", a weekday name) holds,
    under one of the slot keys n1..n7 and z1..z7, a value that is neither
    empty nor a string; it raises nothing else, and returns otherwise. *)
Theorem slotted_parser_raises_iff (raw : list json) :
  (_normalize_special_day_array raw = Raise AttributeError
   <-> exists d, In (JDict d) raw /\ recognised_day d /\ bad_cell d)
  /\ _normalize_special_day_array raw <> Raise TypeError.
Proof.
  unfold _normalize_special_day_array. split; [split|].
  - intros H. destruct (for_each_raise_inv _ _ _ H) as (obj & Hobj & H1).
    destruct (day_records_raise _ _ H1) as (_ & d & -> & Hr & Hb).
    exists d. auto.
  - intros (d & Hd & Hr & Hb).
    pose proof (day_records_bad_cell d Hr Hb) as H1.
    destruct (for_each_raise_some _ _ _ _ Hd H1) as (e & H).
    destruct (for_each_raise_inv _ _ _ H) as (obj & _ & H2).
    destruct (day_records_raise _ _ H2) as [-> _]. exact H.
  - intros H. destruct (for_each_raise_inv _ _ _ H) as (obj & _ & H1).
    destruct (day_records_raise _ _ H1) as [E _]. discriminate E.
Qed.

End NormalizerErrors.

(* ================================================================== *)
(** * Part X: groups (src/app/vlsu_api.py) *)
(* ================================================================== *)

Lemma startswith_refl (s : pystr) : startswith s s = true.
Proof.
  induction s as [|c s IH]; [reflexivity|].
  cbn [startswith]. now rewrite N.eqb_refl, IH.
Qed.

Lemma contains_refl (s : pystr) : contains s s = true.
Proof. destruct s; cbn [contains]; now rewrite startswith_refl. Qed.

Section GroupsProperties.

Context {RT : PyRuntime}.

Lemma first_group_some (test : pystr -> bool) (groups : list dict)
      (g : dict) :
  first_group test groups = Returns (Some g) ->
  In g groups
  /\ exists name, group_name_key g = Returns name /\ test name = true.
Proof.
  induction groups as [|a groups IH]; cbn [first_group]; [discriminate|].
  destruct (group_name_key a) as [name|e] eqn:Ea; [|discriminate].
  destruct (test name) eqn:Et.
  - intros [= <-]. split; [now left | eauto].
  - intros H. destruct (IH H) as [Hin Hn]. split; [now right | exact Hn].
Qed.

Lemma first_group_none (test : pystr -> bool) (groups : list dict) :
  first_group test groups = Returns None <->
  forall g, In g groups ->
            exists name, group_name_key g = Returns name /\ test name = false.
Proof.
  induction groups as [|a groups IH]; cbn [first_group].
  - split; [intros _ g [] | reflexivity].
  - destruct (group_name_key a) as [name|e] eqn:Ea.
    + destruct (test name) eqn:Et.
      * split; [discriminate|]. intros H.
        destruct (H a (or_introl eq_refl)) as (n' & E & Hn). congruence.
      * rewrite IH. split.
        -- intros H g [<-|Hg]; [eauto | now apply H].
        -- intros H g Hg. apply H. now right.
    + split; [discriminate|]. intros H.
      destruct (H a (or_introl eq_refl)) as (n' & E & _). congruence.
Qed.

Lemma first_group_first (test : pystr -> bool) (pre : list dict) (g : dict)
      (post : list dict) (name : pystr) :
  (forall x, In x pre ->
             exists nx, group_name_key x = Returns nx /\ test nx = false) ->
  group_name_key g = Returns name -> test name = true ->
  first_group test (pre ++ g :: post) = Returns (Some g).
Proof.
  intros Hpre Hg Ht. induction pre as [|a pre IH]; cbn [app first_group].
  - now rewrite Hg, Ht.
  - destruct (Hpre a (or_introl eq_refl)) as (na & -> & ->).
    apply IH. intros x Hx. apply Hpre. now right.
Qed.

(** X17. [find_group] returns a group of the list whose normalised name
    contains the normalised query; it returns [None] exactly when every
    group has a name and no name contains the query; and a group whose
    name equals the query is preferred to any group, even an earlier one,
    whose name merely contains it. *)
Theorem find_group_result (groups : list dict) (query : option pystr) :
  let q := group_query query in
  (forall g,
      find_group groups query = Returns (Some g) ->
      In g groups
      /\ exists name, group_name_key g = Returns name
                      /\ contains q name = true)
  /\ (find_group groups query = Returns None
      <-> forall g, In g groups ->
                    exists name, group_name_key g = Returns name
                                 /\ contains q name = false)
  /\ (forall pre g post,
         groups = pre ++ g :: post ->
         (forall x, In x groups -> exists nx, group_name_key x = Returns nx) ->
         group_name_key g = Returns q ->
         (forall x, In x pre -> group_name_key x <> Returns q) ->
         find_group groups query = Returns (Some g)).
Proof.
  intros q. unfold find_group. fold q.
  split; [|split].
  - intros g.
    destruct (first_group (str_eqb q) groups) as [[g'|]|e] eqn:E1.
    + intros [= <-]. destruct (first_group_some _ _ _ E1) as (Hin & n & Hn & Ht).
      split; [exact Hin|]. exists n. split; [exact Hn|].
      apply str_eqb_eq in Ht. subst n. apply contains_refl.
    + intros H. exact (first_group_some _ _ _ H).
    + discriminate.
  - destruct (first_group (str_eqb q) groups) as [[g'|]|e] eqn:E1.
    + split; [discriminate|]. intros H.
      destruct (first_group_some _ _ _ E1) as (Hin & n & Hn & Ht).
      destruct (H g' Hin) as (n' & Hn' & Hc).
      rewrite Hn in Hn'. injection Hn' as <-.
      apply str_eqb_eq in Ht. subst n. rewrite contains_refl in Hc.
      discriminate.
    + apply first_group_none.
    + split; [discriminate|]. intros H.
      assert (Hnone : first_group (contains q) groups = Returns None)
        by (now apply first_group_none).
      (* the first loop raises only on a group without a name *)
      exfalso. clear - H E1.
      induction groups as [|a groups IH]; cbn [first_group] in E1;
        [discriminate|].
      destruct (H a (or_introl eq_refl)) as (n & Hn & _).
      rewrite Hn in E1. destruct (str_eqb q n); [discriminate|].
      apply IH; [exact E1|]. intros g Hg. apply H. now right.
  - intros pre g post -> Hnames Hg Hpre.
    rewrite (first_group_first (str_eqb q) pre g post q); [reflexivity| |exact Hg|].
    + intros x Hx.
      destruct (Hnames x) as (nx & Hnx);
        [apply in_or_app; now left|].
      exists nx. split; [exact Hnx|].
      destruct (str_eqb q nx) eqn:E; [|reflexivity].
      apply str_eqb_eq in E. subst nx. exfalso. exact (Hpre x Hx Hnx).
    + apply str_eqb_refl.
Qed.

Lemma normalize_groups_named (raw : json) (g : dict) :
  In g (_normalize_groups raw) ->
  exists v, dict_get g (u "name") = Some v.
Proof.
  unfold _normalize_groups. destruct raw; try (intros []).
  intros H. apply in_flat_map in H. destruct H as (x & _ & H).
  destruct x as [| | | | | |d]; try (exfalso; exact H).
  destruct H as [<-|[]]. eexists. reflexivity.
Qed.

Lemma first_group_returns (test : pystr -> bool) (groups : list dict) :
  (forall g, In g groups -> exists v, dict_get g (u "name") = Some v) ->
  exists r, first_group test groups = Returns r.
Proof.
  induction groups as [|a groups IH]; intros H; cbn [first_group]; [eauto|].
  unfold group_name_key. destruct (H a (or_introl eq_refl)) as (v & ->).
  destruct (test _); [eauto|]. apply IH. intros g Hg. apply H. now right.
Qed.

(** X18. [_normalize_groups] gives one dict for each dict of the raw list,
    in order, and nothing for any other input; each of them has the key
    "name", so [find_group] never raises on the groups that [get_groups]
    returns. *)
Theorem find_group_on_normalized_groups (raw : json) (query : option pystr) :
  (exists r, find_group (_normalize_groups raw) query = Returns r)
  /\ List.length (_normalize_groups raw)
     = match raw with
       | JList xs =>
           List.length
             (filter (fun x => match x with JDict _ => true | _ => false end)
                     xs)
       | _ => 0%nat
       end.
Proof.
  split.
  - unfold find_group.
    destruct (first_group_returns (str_eqb (group_query query))
                (_normalize_groups raw) (normalize_groups_named raw))
      as ([g|] & ->); [eauto|].
    apply first_group_returns, normalize_groups_named.
  - unfold _normalize_groups. destruct raw; try reflexivity.
    induction xs as [|x xs IH]; [reflexivity|].
    destruct x; cbn [flat_map filter app List.length];
      try exact IH. f_equal. exact IH.
Qed.

End GroupsProperties.

(* ================================================================== *)
(** * Part XI: the structured dump and the table rows (src/app/cli.py) *)
(* ================================================================== *)

Lemma days_append_keys (dk : pystr) (x : packed) (days : day_lists) :
  map fst (days_append dk x days) = map fst days.
Proof.
  induction days as [|[k arr] days IH]; [reflexivity|].
  cbn [days_append]. destruct (str_eqb k dk); cbn [map fst]; [reflexivity|].
  now rewrite IH.
Qed.

Lemma days_append_lookup (dk k : pystr) (x : packed) (days : day_lists) :
  assoc_str (days_append dk x days) k
  = if str_eqb k dk then option_map (fun a => a ++ [x]) (assoc_str days k)
    else assoc_str days k.
Proof.
  induction days as [|[k0 arr] days IH]; cbn [days_append assoc_str].
  - now destruct (str_eqb k dk).
  - destruct (str_eqb k0 dk) eqn:E0; cbn [assoc_str].
    + apply str_eqb_eq in E0. subst k0. rewrite (str_eqb_sym dk k).
      now destruct (str_eqb k dk).
    + destruct (str_eqb k0 k) eqn:E1.
      * apply str_eqb_eq in E1. subst k0. now rewrite E0.
      * exact IH.
Qed.

Lemma weeks_append_shape (wk dk : pystr) (x : packed)
      (weeks : list (pystr * day_lists)) :
  shape (weeks_append wk dk x weeks) = shape weeks.
Proof.
  unfold shape.
  induction weeks as [|[k days] weeks IH]; [reflexivity|].
  cbn [weeks_append]. destruct (str_eqb k wk); cbn [map fst snd].
  - now rewrite days_append_keys.
  - now rewrite IH.
Qed.

Lemma weeks_append_lookup (wk dk w k : pystr) (x : packed)
      (weeks : list (pystr * day_lists)) :
  bucket (weeks_append wk dk x weeks) w k
  = if str_eqb wk w && str_eqb k dk
    then option_map (fun a => a ++ [x]) (bucket weeks w k)
    else bucket weeks w k.
Proof.
  unfold bucket.
  induction weeks as [|[k0 days] weeks IH]; cbn [weeks_append assoc_str].
  - now destruct (str_eqb wk w && str_eqb k dk).
  - destruct (str_eqb k0 wk) eqn:E0; cbn [assoc_str].
    + apply str_eqb_eq in E0. subst k0.
      destruct (str_eqb wk w); cbn [andb]; [|reflexivity].
      apply days_append_lookup.
    + destruct (str_eqb k0 w) eqn:E1.
      * apply str_eqb_eq in E1. subst k0. now rewrite (str_eqb_sym wk w), E0.
      * exact IH.
Qed.

Lemma day_cases (d : Z) :
  1 <= d <= 7 -> In d [1; 2; 3; 4; 5; 6; 7].
Proof. intros H. cbn [In]. lia. Qed.

Lemma str_of_day_eqb (d d' : Z) :
  1 <= d <= 7 -> 1 <= d' <= 7 ->
  str_eqb (str_of_Z d) (str_of_Z d') = (d' =? d).
Proof.
  intros H H'. apply day_cases in H, H'. cbn [In] in H, H'.
  repeat (destruct H as [<-|H]; [|]); try destruct H;
    repeat (destruct H' as [<-|H']; [|]); try destruct H';
    vm_compute; reflexivity.
Qed.

Lemma day_block_name_ru (d : Z) :
  1 <= d <= 7 ->
  exists name, assoc_Z DAYS_RU d = Some name
               /\ day_block_name (str_of_Z d) = name.
Proof.
  intros H. apply day_cases in H. cbn [In] in H.
  repeat (destruct H as [<-|H]; [eexists; split; vm_compute; reflexivity|]).
  destruct H.
Qed.

Lemma empty_weeks_bucket (wk : pystr) (d : Z) :
  In wk WEEK_NAMES -> 1 <= d <= 7 ->
  bucket empty_weeks wk (str_of_Z d) = Some [].
Proof.
  intros Hw H. apply day_cases in H. cbn [In] in H.
  unfold WEEK_NAMES in Hw. cbn [In] in Hw.
  repeat (destruct Hw as [<-|Hw]; [|]); try destruct Hw;
    repeat (destruct H as [<-|H]; [vm_compute; reflexivity|]); destruct H.
Qed.

Lemma clean_days_keys (days : day_lists) (k : pystr) :
  In k (map fst (clean_days days)) -> In k (map fst days).
Proof.
  unfold clean_days. induction days as [|[k0 arr] days IH];
    cbn [flat_map map fst snd]; [tauto|].
  rewrite map_app. intros H. apply in_app_or in H. destruct H as [H|H].
  - destruct arr; [destruct H|]. destruct H as [<-|[]]. now left.
  - right. now apply IH.
Qed.

Lemma clean_days_lookup (days : day_lists) (k : pystr) :
  NoDup (map fst days) ->
  assoc_str (clean_days days) k
  = match assoc_str days k with
    | Some (x :: xs) => Some (mkblock (day_block_name k) (x :: xs))
    | _ => None
    end.
Proof.
  unfold clean_days. induction days as [|[k0 arr] days IH];
    cbn [flat_map map fst snd assoc_str]; intros ND; [reflexivity|].
  inversion ND as [|? ? Hout ND']; subst.
  destruct (str_eqb k0 k) eqn:E.
  - apply str_eqb_eq in E. subst k0.
    destruct arr as [|x xs]; cbn [app assoc_str].
    + apply assoc_str_None. intros H. apply Hout. now apply clean_days_keys.
    + now rewrite str_eqb_refl.
  - destruct arr as [|x xs]; cbn [app assoc_str]; [now apply IH|].
    rewrite E. now apply IH.
Qed.

Lemma assoc_str_map {A B} (f : A -> B) (t : list (pystr * A)) (k : pystr) :
  assoc_str (map (fun kv => (fst kv, f (snd kv))) t) k
  = option_map f (assoc_str t k).
Proof.
  induction t as [|[k0 v] t IH]; [reflexivity|].
  cbn [map assoc_str fst snd]. now destruct (str_eqb k0 k).
Qed.

Lemma shape_days {A} (weeks : list (pystr * list (pystr * A)))
      (wk : pystr) (days : list (pystr * A)) :
  assoc_str weeks wk = Some days ->
  assoc_str (shape weeks) wk = Some (map fst days).
Proof.
  unfold shape. intros H.
  rewrite (assoc_str_map (fun ds => map fst ds)), H. reflexivity.
Qed.

Lemma day_keys_distinct :
  NoDup (map str_of_Z [1; 2; 3; 4; 5; 6; 7]).
Proof.
  apply (NoDup_map_inv (fun s => int_of_str s)). vm_compute.
  repeat constructor; cbn [In]; intros H;
    repeat (destruct H as [H|H]; [discriminate|]); destruct H.
Qed.

Lemma dump_day_keys (weeks : list (pystr * day_lists)) (wk : pystr)
      (days : day_lists) :
  shape weeks = shape empty_weeks ->
  assoc_str weeks wk = Some days ->
  map fst days = map str_of_Z [1; 2; 3; 4; 5; 6; 7].
Proof.
  intros S H. apply shape_days in H. rewrite S in H.
  apply assoc_str_In in H. cbn [shape empty_weeks WEEK_NAMES map In fst snd] in H.
  repeat (destruct H as [H|H]; [now injection H as _ <- |]). destruct H.
Qed.

Section StructuredPayloadProperties.

Context {RT : PyRuntime}.

Lemma file_lesson_effect (weeks weeks' : list (pystr * day_lists))
      (l : lesson) :
  file_lesson weeks l = Returns weeks' ->
  shape weeks' = shape weeks
  /\ forall w d, 1 <= d <= 7 ->
       bucket weeks' w (str_of_Z d)
       = option_map
           (fun a => a ++ (if filed_under w d l then [pack l] else []))
           (bucket weeks w (str_of_Z d)).
Proof.
  unfold file_lesson, filed_under.
  destruct (lesson_week l) as [wk|e]; [|discriminate].
  destruct (lesson_day l) as [d'|e]; [|discriminate].
  destruct ((d' <? 1) || (7 <? d')) eqn:E.
  - intros [= <-]. split; [reflexivity|]. intros w d Hd.
    replace (d' =? d) with false by (symmetry; apply Z.eqb_neq; lia).
    rewrite andb_false_r.
    destruct (bucket weeks w (str_of_Z d)); cbn [option_map];
      [now rewrite app_nil_r | reflexivity].
  - intros [= <-]. split; [apply weeks_append_shape|]. intros w d Hd.
    rewrite weeks_append_lookup, str_of_day_eqb by lia.
    destruct (str_eqb wk w && (d' =? d)); [reflexivity|].
    destruct (bucket weeks w (str_of_Z d)); cbn [option_map];
      [now rewrite app_nil_r | reflexivity].
Qed.

Lemma file_lessons_effect (lessons : list lesson) :
  forall weeks weeks',
  file_lessons weeks lessons = Returns weeks' ->
  shape weeks' = shape weeks
  /\ forall w d, 1 <= d <= 7 ->
       bucket weeks' w (str_of_Z d)
       = option_map (fun a => a ++ selection lessons w d)
                    (bucket weeks w (str_of_Z d)).
Proof.
  induction lessons as [|l lessons IH]; intros weeks weeks';
    cbn [file_lessons].
  - intros [= <-]. split; [reflexivity|]. intros w d _.
    unfold selection. cbn [filter map].
    destruct (bucket weeks w (str_of_Z d)); cbn [option_map];
      [now rewrite app_nil_r | reflexivity].
  - destruct (file_lesson weeks l) as [weeks1|e] eqn:E1; [|discriminate].
    intros H. destruct (file_lesson_effect _ _ _ E1) as (S1 & B1).
    destruct (IH _ _ H) as (S2 & B2).
    split; [now rewrite S2|]. intros w d Hd.
    rewrite (B2 w d Hd), (B1 w d Hd).
    destruct (bucket weeks w (str_of_Z d)); cbn [option_map]; [|reflexivity].
    f_equal. rewrite <- app_assoc. f_equal.
    unfold selection. cbn [filter].
    now destruct (filed_under w d l).
Qed.

Lemma file_lessons_raise (lessons : list lesson) :
  forall weeks e,
  file_lessons weeks lessons = Raises e ->
  exists l, In l lessons
            /\ (lesson_week l = Raises e
                \/ lesson_day l = Raises e).
Proof.
  induction lessons as [|l lessons IH]; intros weeks e;
    cbn [file_lessons]; [discriminate|].
  destruct (file_lesson weeks l) as [weeks1|e1] eqn:E1.
  - intros H. destruct (IH _ _ H) as (l' & Hin & Hl').
    exists l'. split; [now right | exact Hl'].
  - intros [= ->]. exists l. split; [now left|].
    unfold file_lesson in E1.
    destruct (lesson_week l) as [wk|e2]; [|left; congruence].
    destruct (lesson_day l) as [d'|e2]; [|right; congruence].
    now destruct ((d' <? 1) || (7 <? d')).
Qed.

Lemma structured_weeks_lookup (lessons : list lesson)
      (out : list (pystr * list (pystr * day_block))) (wk : pystr) (d : Z) :
  structured_weeks lessons = Returns out ->
  In wk WEEK_NAMES -> 1 <= d <= 7 ->
  exists name,
    assoc_Z DAYS_RU d = Some name
    /\ bucket out wk (str_of_Z d)
       = match selection lessons wk d with
         | [] => None
         | arr => Some (mkblock name arr)
         end.
Proof.
  unfold structured_weeks.
  destruct (file_lessons empty_weeks lessons) as [weeks|e] eqn:E;
    [|discriminate].
  intros [= <-] Hwk Hd.
  destruct (file_lessons_effect _ _ _ E) as (S & B).
  specialize (B wk d Hd). rewrite (empty_weeks_bucket wk d Hwk Hd) in B.
  cbn [option_map app] in B.
  destruct (day_block_name_ru d Hd) as (name & Hname & Hblock).
  exists name. split; [exact Hname|].
  unfold bucket in B |- *.
  rewrite (assoc_str_map clean_days).
  unfold day_lists in *.
  destruct (assoc_str weeks wk) as [days|] eqn:Ew; [|discriminate B].
  cbn [option_map]. rewrite clean_days_lookup.
  - rewrite B, Hblock. now destruct (selection lessons wk d).
  - rewrite (dump_day_keys _ _ _ S Ew). exact day_keys_distinct.
Qed.

Lemma structured_weeks_keys (lessons : list lesson)
      (out : list (pystr * list (pystr * day_block))) (wk k : pystr)
      (blk : day_block) :
  structured_weeks lessons = Returns out ->
  bucket out wk k = Some blk ->
  exists d, 1 <= d <= 7 /\ k = str_of_Z d.
Proof.
  unfold structured_weeks.
  destruct (file_lessons empty_weeks lessons) as [weeks|e] eqn:E;
    [|discriminate].
  intros [= <-]. destruct (file_lessons_effect _ _ _ E) as (S & _).
  unfold bucket. rewrite (assoc_str_map clean_days).
  unfold day_lists in *.
  destruct (assoc_str weeks wk) as [days|] eqn:Ew; [|discriminate].
  cbn [option_map]. intros H. apply assoc_str_In in H.
  apply (in_map fst) in H. cbn [fst] in H. apply clean_days_keys in H.
  unfold day_lists in *. rewrite (dump_day_keys _ _ _ S Ew) in H.
  apply in_map_iff in H. destruct H as (d & <- & Hd).
  exists d. split; [cbn [In] in Hd; lia | reflexivity].
Qed.

Lemma structured_weeks_names (lessons : list lesson)
      (out : list (pystr * list (pystr * day_block))) :
  structured_weeks lessons = Returns out -> map fst out = WEEK_NAMES.
Proof.
  unfold structured_weeks.
  destruct (file_lessons empty_weeks lessons) as [weeks|e] eqn:E;
    [|discriminate].
  intros [= <-]. destruct (file_lessons_effect _ _ _ E) as (S & _).
  apply (f_equal (map fst)) in S. unfold shape in S.
  rewrite !map_map in S. cbn [fst] in S.
  rewrite map_map. cbn [fst]. exact S.
Qed.

(** X19. In the structured dump the weeks dict has exactly the keys "all",
    "odd" and "even"; under week [wk] the key [str(d)] of a day 1..7 is
    there exactly when some lesson is filed under that week and day, and
    then holds the Russian name of the day and those lessons, packed, in
    input order; no other day key occurs. *)
Theorem structured_dump_buckets (lessons : list lesson)
        (out : list (pystr * list (pystr * day_block))) :
  structured_weeks lessons = Returns out ->
  map fst out = WEEK_NAMES
  /\ (forall wk d, In wk WEEK_NAMES -> 1 <= d <= 7 ->
        exists name,
          assoc_Z DAYS_RU d = Some name
          /\ bucket out wk (str_of_Z d)
             = match selection lessons wk d with
               | [] => None
               | arr => Some (mkblock name arr)
               end)
  /\ (forall wk k blk, bucket out wk k = Some blk ->
        exists d, 1 <= d <= 7 /\ k = str_of_Z d).
Proof.
  intros H. split; [exact (structured_weeks_names _ _ H)|]. split.
  - intros wk d. exact (structured_weeks_lookup _ _ wk d H).
  - intros wk k blk. exact (structured_weeks_keys _ _ wk k blk H).
Qed.

Section LowerCase.

Hypothesis lower_odd : str_lower (u "odd") = u "odd".
Hypothesis lower_even : str_lower (u "even") = u "even".

Lemma slotted_lesson_filed (l : lesson) :
  day_in_range l -> week_is_parity l ->
  exists wk d,
    (wk = u "odd" \/ wk = u "even") /\ 1 <= d <= 7
    /\ week l = JStr wk /\ day l = JInt d
    /\ lesson_week l = Returns wk /\ lesson_day l = Returns d.
Proof.
  intros (name & n & _ & Hday & Hn) Hweek.
  assert (Hd : lesson_day l = Returns n).
  { unfold lesson_day. rewrite Hday. cbn [truthy].
    replace (n =? 0) with false by (symmetry; apply Z.eqb_neq; lia).
    reflexivity. }
  destruct Hweek as [Hw|Hw]; [exists (u "odd") | exists (u "even")];
    exists n; (split; [auto|]); (split; [exact Hn|]);
    (split; [exact Hw|]); (split; [exact Hday|]); (split; [|exact Hd]);
    unfold lesson_week; rewrite Hw;
    change (truthy (JStr (u _))) with true; cbn iota;
    [rewrite lower_odd | rewrite lower_even]; reflexivity.
Qed.

(** X20. The dump of what the slotted-day parser returns never raises; each
    of the records is listed under its own week, "odd" or "even", and its
    own day, and the block of the week "all" is empty. *)
Theorem slotted_schedule_dump (raw : list json) (lessons : list lesson) :
  _normalize_special_day_array raw = Ok lessons ->
  exists out,
    structured_weeks lessons = Returns out
    /\ (forall l, In l lessons ->
          exists wk d blk,
            week l = JStr wk /\ day l = JInt d
            /\ bucket out wk (str_of_Z d) = Some blk
            /\ In (pack l) (b_lessons blk))
    /\ (forall k, bucket out (u "all") k = None).
Proof.
  intros Hraw.
  assert (Hfiled : forall l, In l lessons ->
            exists wk d,
              (wk = u "odd" \/ wk = u "even") /\ 1 <= d <= 7
              /\ week l = JStr wk /\ day l = JInt d
              /\ lesson_week l = Returns wk /\ lesson_day l = Returns d).
  { intros l Hl. destruct (slotted_shape _ _ _ Hraw Hl) as (Hd & Hw & _).
    now apply slotted_lesson_filed. }
  destruct (structured_weeks lessons) as [out|e] eqn:E.
  - exists out. split; [reflexivity|]. split.
    + intros l Hl.
      destruct (Hfiled l Hl) as (wk & d & Hwk & Hd & Hw & Hday & Lw & Ld).
      assert (Hin : In wk WEEK_NAMES).
      { unfold WEEK_NAMES. destruct Hwk as [->| ->]; simpl; auto. }
      destruct (structured_weeks_lookup _ _ wk d E Hin Hd)
        as (name & _ & Hb).
      assert (Hsel : In (pack l) (selection lessons wk d)).
      { unfold selection. apply in_map. apply filter_In.
        split; [exact Hl|]. unfold filed_under.
        rewrite Lw, Ld, str_eqb_refl, Z.eqb_refl. reflexivity. }
      destruct (selection lessons wk d) as [|p ps] eqn:Es; [destruct Hsel|].
      exists wk, d, (mkblock name (p :: ps)).
      split; [exact Hw|]. split; [exact Hday|]. split; [exact Hb|].
      exact Hsel.
    + intros k. destruct (bucket out (u "all") k) as [blk|] eqn:Eb;
        [exfalso | reflexivity].
      destruct (structured_weeks_keys _ _ _ _ _ E Eb) as (d & Hd & ->).
      assert (Hin : In (u "all") WEEK_NAMES) by now left.
      destruct (structured_weeks_lookup _ _ _ d E Hin Hd)
        as (name & _ & Hb).
      rewrite Eb in Hb.
      destruct (selection lessons (u "all") d) as [|p ps] eqn:Es;
        [discriminate|].
      assert (Hp : In p (selection lessons (u "all") d))
        by (rewrite Es; now left).
      unfold selection in Hp. apply in_map_iff in Hp.
      destruct Hp as (l & _ & Hl). apply filter_In in Hl.
      destruct Hl as (Hl & Hf).
      destruct (Hfiled l Hl) as (wk & d' & Hwk & _ & _ & _ & Lw & Ld).
      unfold filed_under in Hf. rewrite Lw, Ld in Hf.
      destruct Hwk as [->| ->]; discriminate Hf.
  - exfalso. unfold structured_weeks in E.
    destruct (file_lessons empty_weeks lessons) as [weeks|e'] eqn:E';
      [discriminate|].
    destruct (file_lessons_raise _ _ _ E') as (l & Hl & Hr).
    destruct (Hfiled l Hl) as (wk & d & _ & _ & _ & _ & Lw & Ld).
    rewrite Lw, Ld in Hr. destruct Hr; discriminate.
Qed.

End LowerCase.

End StructuredPayloadProperties.

(** ** The rows of the lessons table *)

Lemma lesson_db_rows_each (gid : pystr) (lessons : list lesson) :
  forall rows,
  lesson_db_rows gid lessons = Returns rows ->
  Forall2 (fun x r => lesson_db_row gid x = Returns r) lessons rows.
Proof.
  induction lessons as [|x lessons IH]; intros rows; cbn [lesson_db_rows].
  - intros [= <-]. constructor.
  - destruct (lesson_db_row gid x) as [r|e] eqn:E; [|discriminate].
    destruct (lesson_db_rows gid lessons) as [rs|e]; [|discriminate].
    intros [= <-]. constructor; [exact E | now apply IH].
Qed.

Lemma lesson_db_rows_returns (gid : pystr) (lessons : list lesson) :
  Forall (fun x => exists d, int_of_json (day x) = Returns d) lessons ->
  exists rows, lesson_db_rows gid lessons = Returns rows.
Proof.
  induction 1 as [|x lessons (d & Hd) _ (rows & IH)];
    cbn [lesson_db_rows]; [eauto|].
  unfold lesson_db_row. rewrite Hd, IH. eauto.
Qed.

Lemma lesson_db_rows_raise (gid : pystr) (lessons : list lesson)
      (x : lesson) (e : Exc.t) :
  In x lessons -> int_of_json (day x) = Raises e ->
  exists e', lesson_db_rows gid lessons = Raises e'.
Proof.
  intros Hin Hx. induction lessons as [|y lessons IH]; [destruct Hin|].
  cbn [lesson_db_rows].
  destruct (lesson_db_row gid y) as [r|e1] eqn:E; [|eauto].
  destruct Hin as [->|Hin].
  - unfold lesson_db_row in E. rewrite Hx in E. discriminate.
  - destruct (IH Hin) as (e' & ->). eauto.
Qed.

(** X21. From the records of the slotted-day parser [_db_save_lessons]
    builds one row for each record, without raising, and every row fits the
    lessons table: its day is an integer 1..7, time_start and time_end are
    not NULL, and week is one of 'all', 'odd', 'even'. *)
Theorem slotted_rows_fit_table {RT : PyRuntime} (raw : list json)
        (lessons : list lesson) (gid : pystr) :
  _normalize_special_day_array raw = Ok lessons ->
  exists rows,
    lesson_db_rows gid lessons = Returns rows
    /\ List.length rows = List.length lessons
    /\ Forall (fun r => db_group_id r = gid /\ 1 <= db_day r <= 7
                        /\ row_fits_table r) rows.
Proof.
  intros Hraw.
  assert (Hshape : forall l, In l lessons ->
            day_in_range l /\ week_is_parity l /\ times_from_table l)
    by (intros l; exact (slotted_shape _ _ _ Hraw)).
  clear Hraw.
  destruct (lesson_db_rows_returns gid lessons) as (rows & Hrows).
  { apply Forall_forall. intros l Hl.
    destruct (Hshape l Hl) as ((name & n & _ & Hd & _) & _).
    exists n. now rewrite Hd. }
  exists rows. split; [exact Hrows|].
  apply lesson_db_rows_each in Hrows.
  split; [symmetry; exact (Forall2_length Hrows)|].
  induction Hrows as [|x r lessons rows Hx _ IH]; constructor.
  - destruct (Hshape x (or_introl eq_refl))
      as ((name & n & _ & Hd & Hn) & Hw & (idx & s & e & _ & Hs & He)).
    unfold lesson_db_row in Hx. rewrite Hd in Hx. cbn [int_of_json] in Hx.
    injection Hx as <-. cbn [db_group_id db_day]. unfold row_fits_table.
    cbn [db_time_start db_time_end db_week]. rewrite Hs, He.
    split; [reflexivity|]. split; [exact Hn|].
    split; [discriminate|]. split; [discriminate|].
    unfold WEEK_VALUES. destruct Hw as [-> | ->]; simpl; auto.
  - apply IH. intros l Hl. apply Hshape. now right.
Qed.

(** X22. The default of [x.get("day", 0)] never applies to a record of
    the normalizer, which has every key: a record whose day is None makes
    the construction of the rows raise, whereas the structured dump, which
    reads [l.get("day") or 0], only leaves the record out. *)
Theorem record_without_day {RT : PyRuntime} (gid : pystr)
        (lessons : list lesson) (l : lesson) :
  In l lessons -> day l = JNull ->
  (exists e, lesson_db_rows gid lessons = Raises e)
  /\ (forall weeks weeks',
         file_lesson weeks l = Returns weeks' -> weeks' = weeks).
Proof.
  intros Hin Hd. split.
  - apply (lesson_db_rows_raise gid lessons l Exc.TypeError Hin).
    now rewrite Hd.
  - intros weeks weeks'. unfold file_lesson, lesson_day. rewrite Hd.
    cbn [truthy int_of_json].
    destruct (lesson_week l); [|discriminate].
    cbn [Z.ltb Z.compare orb]. now intros [= <-].
Qed.

(** ** Instances for the basic runtime *)

Lemma normalize_week_in_schema_witness :
  In (week (math_lesson JNull "all")) WEEK_VALUES.
Proof.
  apply (normalize_week_in_schema nested_payload [math_lesson JNull "all"]).
  - vm_compute. reflexivity.
  - now left.
Defined.

Lemma generic_path_type_error_witness :
  (normalize_schedule nested_payload = Raise TypeError ->
   exists l, In l (walk nested_payload JNull JNull)
             /\ forallb hashable (lesson_key l) = false)
  /\ ((exists l, In l (walk nested_payload JNull JNull)
                 /\ forallb hashable (lesson_key l) = false) ->
      forall out, normalize_schedule nested_payload <> Ok out)
  /\ normalize_schedule nested_payload <> Raise AttributeError.
Proof.
  apply (generic_path_type_error nested_payload). reflexivity.
Defined.

Lemma structured_dump_buckets_witness :
  exists out,
    structured_weeks [tuesday_lecture "odd"; tuesday_lecture "even"]
    = Returns out
    /\ map fst out = WEEK_NAMES
    /\ (forall wk d, In wk WEEK_NAMES -> 1 <= d <= 7 ->
          exists name,
            assoc_Z DAYS_RU d = Some name
            /\ bucket out wk (str_of_Z d)
               = match selection
                         [tuesday_lecture "odd"; tuesday_lecture "even"]
                         wk d with
                 | [] => None
                 | arr => Some (mkblock name arr)
                 end)
    /\ (forall wk k blk, bucket out wk k = Some blk ->
          exists d, 1 <= d <= 7 /\ k = str_of_Z d).
Proof.
  destruct (structured_weeks [tuesday_lecture "odd"; tuesday_lecture "even"])
    as [out|e] eqn:E; [|vm_compute in E; discriminate E].
  exists out. split; [reflexivity|].
  exact (structured_dump_buckets _ out E).
Defined.

Lemma slotted_schedule_dump_witness :
  exists out,
    structured_weeks [tuesday_lecture "odd"; tuesday_lecture "even"]
    = Returns out
    /\ (forall l, In l [tuesday_lecture "odd"; tuesday_lecture "even"] ->
          exists wk d blk,
            week l = JStr wk /\ day l = JInt d
            /\ bucket out wk (str_of_Z d) = Some blk
            /\ In (pack l) (b_lessons blk))
    /\ (forall k, bucket out (u "all") k = None).
Proof.
  apply (@slotted_schedule_dump basic_runtime eq_refl eq_refl [tuesday_obj]).
  vm_compute. reflexivity.
Defined.

Lemma slotted_rows_fit_table_witness :
  exists rows,
    lesson_db_rows (u "g1") [tuesday_lecture "odd"; tuesday_lecture "even"]
    = Returns rows
    /\ List.length rows = 2%nat
    /\ Forall (fun r => db_group_id r = u "g1" /\ 1 <= db_day r <= 7
                        /\ row_fits_table r) rows.
Proof.
  apply (slotted_rows_fit_table [tuesday_obj]
           [tuesday_lecture "odd"; tuesday_lecture "even"] (u "g1")).
  vm_compute. reflexivity.
Defined.

Lemma record_without_day_witness :
  (exists e, lesson_db_rows (u "g1") [math_lesson JNull "all"] = Raises e)
  /\ (forall weeks weeks',
         file_lesson weeks (math_lesson JNull "all") = Returns weeks' ->
         weeks' = weeks).
Proof.
  apply (record_without_day (u "g1") [math_lesson JNull "all"]).
  - now left.
  - reflexivity.
Defined.

(* ================================================================== *)
(** * Part XII: keyboards and callback queries (src/app/bot.py) *)
(* ================================================================== *)

(** ** [int(str(n))] *)

Lemma uint_text_digits (d : Decimal.uint) :
  forallb ascii_digit (u (NilEmpty.string_of_uint d)) = true.
Proof. induction d; cbn; try exact IHd; reflexivity. Qed.

Lemma uint_text_value_acc (d : Decimal.uint) (acc : positive) :
  fold_left digit_step (u (NilEmpty.string_of_uint d)) (Some (Z.pos acc))
  = Some (Z.pos (Pos.of_uint_acc d acc)).
Proof.
  revert acc. induction d; intros acc; [reflexivity|..];
    cbn [NilEmpty.string_of_uint Pos.of_uint_acc];
    match goal with
    | |- context [u (String ?a ?s)] =>
        change (u (String a s)) with (N_of_ascii a :: u s)
    end;
    cbn [fold_left]; rewrite <- IHd; f_equal;
    unfold digit_step;
    match goal with
    | |- context [decimal_value ?c] =>
        let v := eval vm_compute in (decimal_value c) in
        change (decimal_value c) with v
    end; cbv beta iota; f_equal; lia.
Qed.

Lemma uint_text_value (d : Decimal.uint) :
  fold_left digit_step (u (NilEmpty.string_of_uint d)) (Some 0)
  = Some (Z.of_N (Pos.of_uint d)).
Proof.
  induction d; [reflexivity|exact IHd|..];
    cbn [NilEmpty.string_of_uint Pos.of_uint];
    match goal with
    | |- context [u (String ?a ?s)] =>
        change (u (String a s)) with (N_of_ascii a :: u s)
    end;
    cbn [fold_left];
    match goal with
    | |- context [digit_step (Some 0) ?c] =>
        let v := eval vm_compute in (digit_step (Some 0) c) in
        change (digit_step (Some 0) c) with v
    end;
    apply uint_text_value_acc.
Qed.

Lemma pos_text_nonempty (p : positive) :
  NilZero.string_of_uint (Pos.to_uint p)
  = NilEmpty.string_of_uint (Pos.to_uint p)
  /\ u (NilEmpty.string_of_uint (Pos.to_uint p)) <> [].
Proof.
  pose proof (DecimalPos.Unsigned.to_uint_nonnil p) as H.
  destruct (Pos.to_uint p) as [|d|d|d|d|d|d|d|d|d|d];
    try (now destruct H);
    (split; [reflexivity|]); cbn [NilEmpty.string_of_uint];
    match goal with
    | |- context [u (String ?a ?s)] =>
        change (u (String a s)) with (N_of_ascii a :: u s)
    end; discriminate.
Qed.

Lemma int_lstrip_digits (s : pystr) :
  forallb (fun c => negb (int_space c)) s = true -> int_lstrip s = s.
Proof.
  destruct s as [|c s]; [reflexivity|]. cbn [forallb int_lstrip].
  intros H. apply andb_true_iff in H. destruct H as [H _].
  now destruct (int_space c).
Qed.

Lemma int_strip_digits (s : pystr) :
  forallb (fun c => negb (int_space c)) s = true -> int_strip s = s.
Proof.
  intros H. unfold int_strip. rewrite (int_lstrip_digits s H).
  rewrite int_lstrip_digits; [apply rev_involutive|].
  apply forallb_forall. intros c Hc. apply in_rev in Hc.
  rewrite forallb_forall in H. now apply H.
Qed.

Lemma split_no_sep (sep : codepoint) (s : pystr) :
  forallb (fun c => negb (c =? sep)%N) s = true -> split sep s = [s].
Proof.
  induction s as [|c s IH]; [reflexivity|]. cbn [forallb split].
  intros H. apply andb_true_iff in H. destruct H as [H1 H2].
  destruct (c =? sep)%N; [discriminate|]. now rewrite (IH H2).
Qed.

Lemma ascii_digit_facts (c : codepoint) :
  ascii_digit c = true ->
  int_space c = false /\ (c =? 45)%N = false /\ (c =? 43)%N = false
  /\ (c =? 95)%N = false /\ (c =? 58)%N = false /\ isdecimal c = true.
Proof.
  unfold ascii_digit, in_range. intros H.
  apply andb_true_iff in H. destruct H as [H1 H2].
  apply N.leb_le in H1, H2.
  assert (Hc : In c [48; 49; 50; 51; 52; 53; 54; 55; 56; 57]%N).
  { cbn [In]. lia. }
  cbn [In] in Hc.
  repeat (destruct Hc as [<-|Hc]; [repeat split; reflexivity|]).
  destruct Hc.
Qed.

Lemma forallb_impl {A} (f g : A -> bool) (l : list A) :
  (forall x, f x = true -> g x = true) ->
  forallb f l = true -> forallb g l = true.
Proof.
  intros H Hf. apply forallb_forall. intros x Hx.
  rewrite forallb_forall in Hf. auto.
Qed.

(** [int] reads an unsigned decimal text as the value of its digits. *)
Lemma int_of_str_digits (s : pystr) :
  s <> [] -> forallb ascii_digit s = true ->
  int_of_str s = int_of_digits s.
Proof.
  intros Hne Hd. unfold int_of_str.
  rewrite int_strip_digits.
  2:{ revert Hd. apply forallb_impl. intros c Hc.
      destruct (ascii_digit_facts c Hc) as (-> & _). reflexivity. }
  destruct s as [|c s]; [now destruct Hne|].
  assert (Hc : ascii_digit c = true).
  { cbn [forallb] in Hd. now apply andb_true_iff in Hd. }
  destruct (ascii_digit_facts c Hc) as (_ & -> & -> & _).
  rewrite split_no_sep.
  2:{ revert Hd. apply forallb_impl. intros x Hx.
      destruct (ascii_digit_facts x Hx) as (_ & _ & _ & -> & _). reflexivity. }
  assert (Hdec : forallb isdecimal (c :: s) = true).
  { revert Hd. apply forallb_impl. intros x Hx.
    now destruct (ascii_digit_facts x Hx) as (_ & _ & _ & _ & _ & ->). }
  cbn [forallb List.length Nat.eqb negb andb List.concat] in Hdec |- *.
  rewrite app_nil_r, Hdec.
  cbn [andb]. now destruct (int_of_digits (c :: s)).
Qed.

Lemma int_of_digits_pos (p : positive) :
  str_limit (Z.pos p) ->
  int_of_digits (str_of_Z (Z.pos p)) = Some (Z.pos p).
Proof.
  unfold str_limit, str_of_Z. cbn [Z.abs Z.to_int NilZero.string_of_int].
  destruct (pos_text_nonempty p) as (-> & _). intros H.
  unfold int_of_digits.
  replace (4300 <? _)%nat with false by (symmetry; apply Nat.ltb_ge; lia).
  change (fold_left _ ?s ?a) with (fold_left digit_step s a).
  now rewrite uint_text_value, DecimalPos.Unsigned.of_to.
Qed.

Lemma int_of_str_of_Z (n : Z) :
  str_limit n -> int_of_str (str_of_Z n) = Some n.
Proof.
  destruct n as [|p|p]; intros H.
  - vm_compute. reflexivity.
  - rewrite int_of_str_digits.
    + now apply int_of_digits_pos.
    + unfold str_of_Z. cbn [Z.to_int NilZero.string_of_int].
      destruct (pos_text_nonempty p) as (-> & Hne). exact Hne.
    + unfold str_of_Z. cbn [Z.to_int NilZero.string_of_int].
      destruct (pos_text_nonempty p) as (-> & _). apply uint_text_digits.
  - pose proof (int_of_digits_pos p H) as Hv.
    assert (Hs : str_of_Z (Z.neg p) = 45%N :: str_of_Z (Z.pos p))
      by reflexivity.
    assert (Hd : forallb ascii_digit (str_of_Z (Z.pos p)) = true).
    { unfold str_of_Z. cbn [Z.to_int NilZero.string_of_int].
      destruct (pos_text_nonempty p) as (-> & _). apply uint_text_digits. }
    assert (Hne : str_of_Z (Z.pos p) <> []).
    { unfold str_of_Z. cbn [Z.to_int NilZero.string_of_int].
      destruct (pos_text_nonempty p) as (-> & Hne). exact Hne. }
    rewrite Hs. unfold int_of_str.
    rewrite int_strip_digits.
    2:{ cbn [forallb]. apply andb_true_iff. split; [reflexivity|].
        revert Hd. apply forallb_impl. intros c Hc.
        destruct (ascii_digit_facts c Hc) as (-> & _). reflexivity. }
    change (45 =? 45)%N with true. cbn iota.
    rewrite split_no_sep.
    2:{ revert Hd. apply forallb_impl. intros x Hx.
        destruct (ascii_digit_facts x Hx) as (_ & _ & _ & -> & _).
        reflexivity. }
    cbn [forallb List.concat]. rewrite app_nil_r.
    replace (forallb isdecimal (str_of_Z (Z.pos p))) with true.
    2:{ symmetry. revert Hd. apply forallb_impl. intros x Hx.
        now destruct (ascii_digit_facts x Hx) as (_ & _ & _ & _ & _ & ->). }
    destruct (str_of_Z (Z.pos p)) as [|c s] eqn:E; [now destruct Hne|].
    cbn [List.length Nat.eqb negb andb]. rewrite Hv. reflexivity.
Qed.

(** ** Callback data *)

Lemma startswith_app (p s : pystr) : startswith p (p ++ s) = true.
Proof.
  induction p as [|c p IH]; [reflexivity|].
  cbn [app startswith]. now rewrite N.eqb_refl, IH.
Qed.

Lemma split_cons (sep : codepoint) (s : pystr) :
  exists h t, split sep s = h :: t.
Proof.
  induction s as [|c s (h & t & IH)]; cbn [split]; [eauto|].
  destruct (c =? sep)%N; [eauto|]. rewrite IH. eauto.
Qed.

Lemma split_prefix (sep : codepoint) (p rest : pystr) :
  forallb (fun c => negb (c =? sep)%N) p = true ->
  split sep (p ++ sep :: rest) = p :: split sep rest.
Proof.
  induction p as [|c p IH]; cbn [app forallb split]; intros H.
  - now rewrite N.eqb_refl.
  - apply andb_true_iff in H. destruct H as [H1 H2].
    destruct (c =? sep)%N; [discriminate|]. now rewrite (IH H2).
Qed.

(** The part of a text before its first colon. *)
Lemma split_head_length (sep : codepoint) (s : pystr) :
  (List.length (hd [] (split sep s)) <= List.length s)%nat
  /\ (In sep s ->
      (List.length (hd [] (split sep s)) < List.length s)%nat).
Proof.
  induction s as [|c s [IH1 IH2]]; cbn [split].
  - split; [cbn; lia | intros []].
  - destruct (c =? sep)%N eqn:E.
    + cbn [hd List.length]. split; [lia | intros _; lia].
    + destruct (split_cons sep s) as (h & t & Hs). rewrite Hs in *.
      cbn [hd List.length] in *. split; [lia|].
      intros [->|H]; [now rewrite N.eqb_refl in E|].
      specialize (IH2 H). lia.
Qed.

Lemma callback_arg_prefix (p arg : pystr) :
  forallb (fun c => negb (c =? 58)%N) p = true ->
  callback_arg (p ++ 58%N :: arg) = Some (hd [] (split 58%N arg)).
Proof.
  intros H. unfold callback_arg. rewrite (split_prefix _ _ _ H).
  destruct (split_cons 58%N arg) as (h & t & ->). reflexivity.
Qed.

Lemma callback_arg_plain (p arg : pystr) :
  forallb (fun c => negb (c =? 58)%N) p = true ->
  forallb (fun c => negb (c =? 58)%N) arg = true ->
  callback_arg (p ++ 58%N :: arg) = Some arg.
Proof.
  intros Hp Ha. rewrite (callback_arg_prefix _ _ Hp).
  now rewrite (split_no_sep _ _ Ha).
Qed.

Lemma str_of_Z_no_colon (n : Z) :
  forallb (fun c => negb (c =? 58)%N) (str_of_Z n) = true.
Proof.
  assert (H : forall p, forallb (fun c => negb (c =? 58)%N)
                                (str_of_Z (Z.pos p)) = true).
  { intros p. unfold str_of_Z. cbn [Z.to_int NilZero.string_of_int].
    destruct (pos_text_nonempty p) as (-> & _).
    apply (forallb_impl ascii_digit); [|apply uint_text_digits].
    intros c Hc. now destruct (ascii_digit_facts c Hc) as (_&_&_&_& -> &_). }
  destruct n as [|p|p]; [reflexivity | apply H |].
  change (str_of_Z (Z.neg p)) with (45%N :: str_of_Z (Z.pos p)).
  cbn [forallb]. now rewrite H.
Qed.

(** ** Slices *)

Lemma py_slice_page {A} (items : list A) (page per_page : Z) :
  0 <= page -> 0 <= per_page ->
  py_slice items (page * per_page) (page * per_page + per_page)
  = firstn (Z.to_nat per_page) (skipn (Z.to_nat (page * per_page)) items).
Proof.
  intros Hp Hpp. unfold py_slice, slice_index.
  set (n := Z.of_nat (List.length items)).
  set (s := page * per_page).
  assert (Hs : 0 <= s) by (unfold s; nia).
  replace (s <? 0) with false by (symmetry; apply Z.ltb_ge; lia).
  replace (s + per_page <? 0) with false by (symmetry; apply Z.ltb_ge; lia).
  destruct (Z.le_gt_cases n s) as [Hle|Hgt].
  - rewrite !skipn_all2 by (unfold n in *; lia).
    now rewrite !firstn_nil.
  - rewrite (Z.min_l s n) by lia.
    destruct (Z.le_gt_cases (s + per_page) n) as [H1|H1].
    + rewrite Z.min_l by lia. f_equal. lia.
    + rewrite Z.min_r by lia.
      rewrite (firstn_all2 (n := Z.to_nat per_page));
        [| rewrite length_skipn; unfold n in *; lia].
      apply firstn_all2. rewrite length_skipn. unfold n in *. lia.
Qed.

Lemma firstn_add {A} (a b : nat) (l : list A) :
  firstn (a + b) l = firstn a l ++ firstn b (skipn a l).
Proof.
  revert l. induction a as [|a IH]; intros l; [reflexivity|].
  destruct l as [|x l]; cbn [Nat.add firstn skipn app].
  - now rewrite firstn_nil.
  - now rewrite IH.
Qed.

Lemma pages_concat {A} (items : list A) (pp m : nat) :
  List.concat (map (fun p => firstn pp (skipn (p * pp) items)) (seq 0 m))
  = firstn (m * pp) items.
Proof.
  induction m as [|m IH]; [reflexivity|].
  rewrite seq_S, map_app, concat_app, IH. cbn [map List.concat Nat.add].
  rewrite app_nil_r. replace (S m * pp)%nat with (m * pp + pp)%nat by lia.
  now rewrite firstn_add.
Qed.

(** ** The group keyboard *)

Lemma kb_groups_page (items : list group_row) (page : Z) :
  0 <= page ->
  kb_groups items page 12
  = map (fun r => mkbutton (row_name r) (u "group:" ++ row_id r))
        (firstn 12 (skipn (Z.to_nat page * 12) items))
    ++ (if 0 <? page
        then [mkbutton (u "« Назад")
                       (u "grouppage:" ++ str_of_Z (page - 1))]
        else [])
    ++ (if page * 12 + 12 <? Z.of_nat (List.length items)
        then [mkbutton (u "Вперёд »")
                       (u "grouppage:" ++ str_of_Z (page + 1))]
        else []).
Proof.
  intros Hp. unfold kb_groups. rewrite py_slice_page by lia.
  replace (Z.to_nat (page * 12)) with (Z.to_nat page * 12)%nat by lia.
  reflexivity.
Qed.

Lemma dispatch_group (gid : pystr) :
  dispatch (u "group:" ++ gid) = Some h_pick_group.
Proof. reflexivity. Qed.

Lemma dispatch_grouppage (arg : pystr) :
  dispatch (u "grouppage:" ++ arg) = Some h_group_page.
Proof. reflexivity. Qed.

Lemma group_page_of_number (items : list group_row) (q : Z) :
  str_limit q ->
  group_page (u "grouppage:" ++ str_of_Z q) items
  = Some (kb_groups items q 12).
Proof.
  intros H. unfold group_page.
  change (u "grouppage:" ++ str_of_Z q)
    with (u "grouppage" ++ 58%N :: str_of_Z q).
  rewrite callback_arg_plain;
    [| reflexivity | apply str_of_Z_no_colon].
  now rewrite int_of_str_of_Z.
Qed.

(** X23. Paging through the group keyboard shows every group once: over
    the pages 0 .. m-1, when m pages of twelve are enough, the buttons that
    [pick_group] handles are one for each group, in the order of the
    list. *)
Theorem kb_groups_pages_cover (items : list group_row) (m : nat) :
  (List.length items <= 12 * m)%nat ->
  List.concat
    (map (fun p =>
            filter (fun b => callback_filter h_pick_group (btn_data b))
                   (kb_groups items (Z.of_nat p) 12))
         (seq 0 m))
  = map (fun r => mkbutton (row_name r) (u "group:" ++ row_id r)) items.
Proof.
  intros Hm.
  set (gb := fun r : group_row =>
               mkbutton (row_name r) (u "group:" ++ row_id r)).
  assert (Hpage : forall p,
            filter (fun b => callback_filter h_pick_group (btn_data b))
                   (kb_groups items (Z.of_nat p) 12)
            = map gb (firstn 12 (skipn (p * 12) items))).
  { intros p. rewrite kb_groups_page by lia. rewrite Nat2Z.id.
    fold gb. rewrite !filter_app.
    replace (filter _ (map gb _)) with
      (map gb (firstn 12 (skipn (p * 12) items))).
    2:{ symmetry. apply forallb_filter_id. apply forallb_forall.
        intros b Hb. apply in_map_iff in Hb. destruct Hb as (r & <- & _).
        apply startswith_app. }
    destruct (0 <? Z.of_nat p);
      destruct (Z.of_nat p * 12 + 12 <? Z.of_nat (List.length items));
      cbn [filter btn_data callback_filter];
      try change (startswith (u "group:") (u "grouppage:" ++ ?x)) with false;
      cbn [app]; now rewrite app_nil_r. }
  rewrite (map_ext _ _ Hpage).
  rewrite <- (map_map (fun p => firstn 12 (skipn (p * 12) items)) (map gb)).
  rewrite <- concat_map, pages_concat.
  rewrite firstn_all2 by lia. reflexivity.
Qed.

(** X24. On a page of the group keyboard, every button is handled: a group
    button by [pick_group], a paging button by [group_page], which then
    shows the page before or the page after; there is a button to the page
    before exactly from page 1 on, and a button to the page after exactly
    when groups are left beyond this page. *)
Theorem kb_groups_navigation (items : list group_row) (page : Z) :
  0 <= page -> str_limit (page - 1) -> str_limit (page + 1) ->
  let shows q b :=
    dispatch (btn_data b) = Some h_group_page
    /\ group_page (btn_data b) items = Some (kb_groups items q 12) in
  (forall b, In b (kb_groups items page 12) ->
     dispatch (btn_data b) = Some h_pick_group
     \/ (0 < page /\ shows (page - 1) b)
     \/ (12 * (page + 1) < Z.of_nat (List.length items)
         /\ shows (page + 1) b))
  /\ (0 < page ->
      exists b, In b (kb_groups items page 12) /\ shows (page - 1) b)
  /\ (12 * (page + 1) < Z.of_nat (List.length items) ->
      exists b, In b (kb_groups items page 12) /\ shows (page + 1) b).
Proof.
  intros Hp Hb Hf shows. rewrite kb_groups_page by lia.
  assert (Sb : shows (page - 1)
                 (mkbutton (u "« Назад")
                           (u "grouppage:" ++ str_of_Z (page - 1)))).
  { split; [apply dispatch_grouppage | now apply group_page_of_number]. }
  assert (Sf : shows (page + 1)
                 (mkbutton (u "Вперёд »")
                           (u "grouppage:" ++ str_of_Z (page + 1)))).
  { split; [apply dispatch_grouppage | now apply group_page_of_number]. }
  split; [|split].
  - intros b H. apply in_app_or in H. destruct H as [H|H].
    { apply in_map_iff in H. destruct H as (r & <- & _). left.
      apply dispatch_group. }
    apply in_app_or in H. destruct H as [H|H].
    + destruct (Z.ltb_spec 0 page) as [Hlt|_]; [|destruct H].
      destruct H as [<-|[]]. right. left. split; [exact Hlt | exact Sb].
    + destruct (Z.ltb_spec (page * 12 + 12) (Z.of_nat (List.length items)))
        as [Hlt|_]; [|destruct H].
      destruct H as [<-|[]]. right. right. split; [lia | exact Sf].
  - intros Hlt. eexists. split; [|exact Sb].
    apply in_or_app. right. apply in_or_app. left.
    replace (0 <? page) with true by (symmetry; apply Z.ltb_lt; lia).
    now left.
  - intros Hlt. eexists. split; [|exact Sf].
    apply in_or_app. right. apply in_or_app. right.
    replace (page * 12 + 12 <? _) with true
      by (symmetry; apply Z.ltb_lt; lia).
    now left.
Qed.

(** X25. [pick_group] reads from the data of a group button the id up to
    its first colon: for an id without a colon it stores that id, and, when
    no other row of the list has the id under another name, the name on
    the button; an id with a colon is cut short. *)
Theorem pick_group_reads_button (groups : list group_row) (r : group_row) :
  In r groups ->
  let data := u "group:" ++ row_id r in
  (exists name,
      pick_group data groups = Some (hd [] (split 58%N (row_id r)), name))
  /\ (forallb (fun c => negb (c =? 58)%N) (row_id r) = true ->
      (forall r', In r' groups -> row_id r' = row_id r ->
                  row_name r' = row_name r) ->
      pick_group data groups = Some (row_id r, row_name r))
  /\ (In 58%N (row_id r) ->
      forall gid name, pick_group data groups = Some (gid, name) ->
                       (List.length gid < List.length (row_id r))%nat).
Proof.
  intros Hin data.
  assert (Harg : callback_arg data = Some (hd [] (split 58%N (row_id r)))).
  { unfold data.
    change (u "group:" ++ row_id r) with (u "group" ++ 58%N :: row_id r).
    now apply callback_arg_prefix. }
  unfold pick_group. rewrite Harg. split; [eauto|]. split.
  - intros Hplain Huniq. rewrite (split_no_sep _ _ Hplain). cbn [hd].
    destruct (find _ groups) as [r'|] eqn:E.
    + apply find_some in E. destruct E as (Hr' & E).
      apply str_eqb_eq in E. now rewrite (Huniq r' Hr' E).
    + exfalso. apply (find_none _ _ E) in Hin.
      now rewrite str_eqb_refl in Hin.
  - intros Hcolon gid name [= <- _].
    now apply split_head_length.
Qed.

(** ** The institute keyboard *)

Lemma py_slice_incl {A} (items : list A) (start stop : Z) (x : A) :
  In x (py_slice items start stop) -> In x items.
Proof.
  unfold py_slice. intros H.
  set (a := Z.to_nat (slice_index _ start)) in *.
  set (n := Z.to_nat _) in H.
  rewrite <- (firstn_skipn a items). apply in_or_app. right.
  rewrite <- (firstn_skipn n (skipn a items)). apply in_or_app. now left.
Qed.

Lemma dispatch_instpage (arg : pystr) :
  dispatch (u "instpage:" ++ arg) = None.
Proof. reflexivity. Qed.

(** X26. The buttons of the institute keyboard that name an institute are
    handled by [pick_inst], but no handler accepts the data of its two
    paging buttons: whenever institutes are left beyond the page, the
    keyboard has a button that nothing handles. *)
Theorem institute_paging_unhandled (insts : list inst_row) (page : Z) :
  (forall b, In b (build_inst_page insts page) ->
     (exists r, In r insts /\ b = mkbutton (snd r) (u "inst:" ++ fst r)
                /\ dispatch (btn_data b) = Some h_pick_inst)
     \/ ((btn_text b = u "« Назад" \/ btn_text b = u "Вперёд »")
         /\ dispatch (btn_data b) = None))
  /\ (page * 10 + 10 < Z.of_nat (List.length insts) ->
      exists b, In b (build_inst_page insts page)
                /\ btn_text b = u "Вперёд »"
                /\ dispatch (btn_data b) = None)
  /\ (0 < page ->
      exists b, In b (build_inst_page insts page)
                /\ btn_text b = u "« Назад"
                /\ dispatch (btn_data b) = None).
Proof.
  unfold build_inst_page. split; [|split].
  - intros b H. apply in_app_or in H. destruct H as [H|H].
    { apply in_map_iff in H. destruct H as (r & <- & Hr). left.
      exists r. split; [|split; reflexivity].
      exact (py_slice_incl _ _ _ _ Hr). }
    right. apply in_app_or in H. destruct H as [H|H].
    + destruct (0 <? page); [|destruct H]. destruct H as [<-|[]].
      split; [now left | apply dispatch_instpage].
    + destruct (page * 10 + 10 <? _); [|destruct H]. destruct H as [<-|[]].
      split; [now right | apply dispatch_instpage].
  - intros Hlt.
    exists (mkbutton (u "Вперёд »") (u "instpage:" ++ str_of_Z (page + 1))).
    split; [|split; [reflexivity | apply dispatch_instpage]].
    apply in_or_app. right. apply in_or_app. right.
    replace (page * 10 + 10 <? _) with true
      by (symmetry; apply Z.ltb_lt; lia).
    now left.
  - intros Hlt.
    exists (mkbutton (u "« Назад") (u "instpage:" ++ str_of_Z (page - 1))).
    split; [|split; [reflexivity | apply dispatch_instpage]].
    apply in_or_app. right. apply in_or_app. left.
    replace (0 <? page) with true by (symmetry; apply Z.ltb_lt; lia).
    now left.
Qed.

(** ** The course keyboard *)

Lemma str_of_pos_digits (p : positive) :
  exists c s, str_of_Z (Z.pos p) = c :: s
              /\ forallb ascii_digit (c :: s) = true.
Proof.
  pose proof (uint_text_digits (Pos.to_uint p)) as Hd.
  unfold str_of_Z. cbn [Z.to_int NilZero.string_of_int].
  destruct (pos_text_nonempty p) as (-> & Hne).
  destruct (u (NilEmpty.string_of_uint (Pos.to_uint p))) as [|c s];
    [now destruct Hne | eauto].
Qed.

Lemma str_of_Z_cases (n : Z) :
  exists c s, str_of_Z (Z.abs n) = c :: s
              /\ forallb ascii_digit (c :: s) = true
              /\ (str_of_Z n = c :: s \/ str_of_Z n = 45%N :: c :: s).
Proof.
  destruct n as [|p|p].
  - exists 48%N, []. repeat split. now left.
  - destruct (str_of_pos_digits p) as (c & s & E & Hd).
    exists c, s. cbn [Z.abs]. auto.
  - destruct (str_of_pos_digits p) as (c & s & E & Hd).
    exists c, s. cbn [Z.abs]. split; [exact E|]. split; [exact Hd|].
    right. change (str_of_Z (Z.neg p)) with (45%N :: str_of_Z (Z.pos p)).
    now rewrite E.
Qed.

Lemma str_of_Z_not_all (n : Z) : str_eqb (str_of_Z n) (u "all") = false.
Proof.
  destruct (str_of_Z_cases n) as (c & s & _ & Hd & [-> | ->]);
    [|reflexivity].
  cbn [forallb] in Hd. apply andb_true_iff in Hd. destruct Hd as [Hc _].
  unfold ascii_digit, in_range in Hc. apply andb_true_iff in Hc.
  destruct Hc as [_ Hc]. apply N.leb_le in Hc.
  change (u "all") with [97; 108; 108]%N. cbn [str_eqb].
  replace (c =? 97)%N with false by (symmetry; apply N.eqb_neq; lia).
  reflexivity.
Qed.

Lemma digit_run_stop (ds rest : pystr) (x : codepoint) :
  forallb isdecimal ds = true -> isdecimal x = false ->
  digit_run (ds ++ x :: rest) = ds.
Proof.
  intros Hd Hx. induction ds as [|c ds IH]; cbn [app digit_run].
  - now rewrite Hx.
  - cbn [forallb] in Hd. apply andb_true_iff in Hd. destruct Hd as [-> Hd].
    now rewrite (IH Hd).
Qed.

Lemma digits_decimal (s : pystr) :
  forallb ascii_digit s = true -> forallb isdecimal s = true.
Proof.
  apply forallb_impl. intros c Hc.
  now destruct (ascii_digit_facts c Hc) as (_ & _ & _ & _ & _ & ->).
Qed.

Lemma course_label_number (n : Z) :
  str_limit n ->
  _course_to_int (Some (str_of_Z n ++ u " курс")) = Some (Some (Z.abs n)).
Proof.
  intros Hl.
  assert (Habs : int_of_str (str_of_Z (Z.abs n)) = Some (Z.abs n)).
  { apply int_of_str_of_Z. unfold str_limit in *.
    now rewrite Z.abs_idemp. }
  destruct (str_of_Z_cases n) as (c & s & E & Hd & Hn).
  rewrite E in Habs. apply digits_decimal in Hd.
  assert (Hrun : digit_run (s ++ u " курс") = s).
  { cbn [forallb] in Hd. apply andb_true_iff in Hd.
    change (u " курс") with (32%N :: u "курс").
    now apply digit_run_stop. }
  assert (Hc : isdecimal c = true).
  { cbn [forallb] in Hd. now apply andb_true_iff in Hd. }
  unfold _course_to_int.
  destruct Hn as [-> | ->]; cbn [app search_digits].
  - now rewrite Hc, Hrun, Habs.
  - change (isdecimal 45%N) with false. cbn iota.
    now rewrite Hc, Hrun, Habs.
Qed.

(** X27. On the course keyboard the button of a course number [c] carries
    data that [pick_course] reads back as the course [c], and a text from
    which [_course_to_int] gets [c] again (its absolute value, as the sign
    is no digit); the last button is read as all courses; and every button
    of the keyboard is handled by [pick_course]. *)
Theorem course_keyboard_round_trip (course_nums : list Z) (c : Z) :
  In c course_nums -> str_limit c ->
  let b := mkbutton (str_of_Z c ++ u " курс") (u "course:" ++ str_of_Z c) in
  In b (kb_courses course_nums)
  /\ pick_course (btn_data b) = Some (Course c)
  /\ _course_to_int (Some (btn_text b)) = Some (Some (Z.abs c))
  /\ (exists pre,
        kb_courses course_nums
        = pre ++ [mkbutton (u "Все курсы") (u "course:all")]
        /\ pick_course (u "course:all") = Some AllCourses)
  /\ (forall x, In x (kb_courses course_nums) ->
                dispatch (btn_data x) = Some h_pick_course).
Proof.
  intros Hin Hl b. split; [|split; [|split; [|split]]].
  - unfold kb_courses. apply in_or_app. left.
    apply in_map_iff. exists c. split; [reflexivity | exact Hin].
  - unfold pick_course, b. cbn [btn_data].
    change (u "course:" ++ str_of_Z c)
      with (u "course" ++ 58%N :: str_of_Z c).
    rewrite callback_arg_plain;
      [| reflexivity | apply str_of_Z_no_colon].
    rewrite str_of_Z_not_all, int_of_str_of_Z by exact Hl. reflexivity.
  - now apply course_label_number.
  - eexists. split; [reflexivity|]. reflexivity.
  - intros x Hx. unfold kb_courses in Hx. apply in_app_or in Hx.
    destruct Hx as [Hx|[<-|[]]]; [|reflexivity].
    apply in_map_iff in Hx. destruct Hx as (n & <- & _). reflexivity.
Qed.

Lemma kb_groups_pages_cover_witness :
  List.concat
    (map (fun p =>
            filter (fun b => callback_filter h_pick_group (btn_data b))
                   (kb_groups (repeat (u "g1", u "A-1", u "1") 13)
                              (Z.of_nat p) 12))
         (seq 0 2))
  = map (fun r => mkbutton (row_name r) (u "group:" ++ row_id r))
        (repeat (u "g1", u "A-1", u "1") 13).
Proof.
  apply (kb_groups_pages_cover (repeat (u "g1", u "A-1", u "1") 13) 2).
  cbn. lia.
Defined.

Lemma kb_groups_navigation_witness :
  let items := repeat (u "g1", u "A-1", u "1") 13 in
  let shows q b :=
    dispatch (btn_data b) = Some h_group_page
    /\ group_page (btn_data b) items = Some (kb_groups items q 12) in
  (forall b, In b (kb_groups items 0 12) ->
     dispatch (btn_data b) = Some h_pick_group
     \/ (0 < 0 /\ shows (0 - 1) b)
     \/ (12 * (0 + 1) < Z.of_nat (List.length items) /\ shows (0 + 1) b))
  /\ (0 < 0 -> exists b, In b (kb_groups items 0 12) /\ shows (0 - 1) b)
  /\ (12 * (0 + 1) < Z.of_nat (List.length items) ->
      exists b, In b (kb_groups items 0 12) /\ shows (0 + 1) b).
Proof.
  apply (kb_groups_navigation (repeat (u "g1", u "A-1", u "1") 13) 0).
  - lia.
  - unfold str_limit. vm_compute. lia.
  - unfold str_limit. vm_compute. lia.
Defined.

Lemma pick_group_reads_button_witness :
  let groups := [(u "g1", u "A-1", u "1"); (u "g:2", u "B-2", u "2")] in
  let r := (u "g:2", u "B-2", u "2") in
  let data := u "group:" ++ row_id r in
  (exists name,
      pick_group data groups = Some (hd [] (split 58%N (row_id r)), name))
  /\ (forallb (fun c => negb (c =? 58)%N) (row_id r) = true ->
      (forall r', In r' groups -> row_id r' = row_id r ->
                  row_name r' = row_name r) ->
      pick_group data groups = Some (row_id r, row_name r))
  /\ (In 58%N (row_id r) ->
      forall gid name, pick_group data groups = Some (gid, name) ->
                       (List.length gid < List.length (row_id r))%nat).
Proof.
  apply (pick_group_reads_button
           [(u "g1", u "A-1", u "1"); (u "g:2", u "B-2", u "2")]
           (u "g:2", u "B-2", u "2")).
  right. now left.
Defined.

Lemma course_keyboard_round_trip_witness :
  let b := mkbutton (str_of_Z 2 ++ u " курс") (u "course:" ++ str_of_Z 2) in
  In b (kb_courses [1; 2; 4])
  /\ pick_course (btn_data b) = Some (Course 2)
  /\ _course_to_int (Some (btn_text b)) = Some (Some (Z.abs 2))
  /\ (exists pre,
        kb_courses [1; 2; 4]
        = pre ++ [mkbutton (u "Все курсы") (u "course:all")]
        /\ pick_course (u "course:all") = Some AllCourses)
  /\ (forall x, In x (kb_courses [1; 2; 4]) ->
                dispatch (btn_data x) = Some h_pick_course).
Proof.
  apply (course_keyboard_round_trip [1; 2; 4] 2).
  - right. now left.
  - unfold str_limit. vm_compute. lia.
Defined.

(* ================================================================== *)
(** * Part XIII: numbers in texts (src/app/vlsu_api.py, src/app/bot.py) *)
(* ================================================================== *)

(** ** Week types given as texts *)

Lemma contains_head_in (c : codepoint) (p s : pystr) :
  contains (c :: p) s = true -> In c s.
Proof.
  induction s as [|x s IH]; cbn [contains startswith]; [discriminate|].
  destruct (N.eqb_spec c x) as [->|_]; [intros _; now left|].
  cbn [andb orb]. intros H. right. auto.
Qed.

Lemma str_of_Z_chars (n : Z) (c : codepoint) :
  In c (str_of_Z n) -> c = 45%N \/ ascii_digit c = true.
Proof.
  destruct (str_of_Z_cases n) as (x & s & _ & Hd & [-> | ->]);
    rewrite forallb_forall in Hd.
  - intros H. right. auto.
  - intros [<-|H]; [now left | right; auto].
Qed.

Lemma number_text_lacks (n : Z) (c : codepoint) (p : pystr) :
  c <> 45%N -> ascii_digit c = false -> contains (c :: p) (str_of_Z n) = false.
Proof.
  intros H1 H2. destruct (contains (c :: p) (str_of_Z n)) eqn:E; [|reflexivity].
  apply contains_head_in, str_of_Z_chars in E. destruct E as [E|E]; congruence.
Qed.

Section WeekTypeOfText.

Context {RT : PyRuntime}.

(** X28. A week type that arrives as the text of a number is normalised
    to "all" whatever the number is, whereas the number itself gives "odd"
    for 1 and "even" for 2: the texts "1" and "2" do not select a
    parity. *)
Theorem week_type_of_number_text (s : pystr) (n : Z) :
  strip s = str_of_Z n ->
  str_lower (str_of_Z n) = str_of_Z n ->
  normalize_week_type (JStr s) = u "all"
  /\ (normalize_week_type (JInt n) = u "odd" <-> n = 1)
  /\ (normalize_week_type (JInt n) = u "even" <-> n = 2).
Proof.
  intros Hs Hl. split; [|split].
  - unfold normalize_week_type. cbn [py_str]. rewrite Hs, Hl.
    change (u "числ") with (1095%N :: u "исл").
    change (u "odd") with (111%N :: u "dd").
    change (u "знам") with (1079%N :: u "нам").
    change (u "even") with (101%N :: u "ven").
    rewrite !number_text_lacks by (try discriminate; reflexivity).
    cbn [orb]. now destruct (existsb _ _).
  - cbn [normalize_week_type]. unfold week_of_int.
    destruct (Z.eqb_spec n 1) as [->|H1]; [tauto|].
    destruct (n =? 2); split; intros H; try discriminate H; contradiction.
  - cbn [normalize_week_type]. unfold week_of_int.
    destruct (Z.eqb_spec n 1) as [->|H1]; [split; discriminate|].
    destruct (Z.eqb_spec n 2) as [->|H2]; [tauto|].
    split; intros H; [discriminate H | contradiction].
Qed.

End WeekTypeOfText.

(** ** The course list *)

Lemma insert_sorted_in (x y : Z) (l : list Z) :
  In y (insert_sorted x l) <-> y = x \/ In y l.
Proof.
  induction l as [|z l IH]; cbn [insert_sorted In]; [intuition|].
  destruct (Z.ltb_spec x z); cbn [In]; [intuition|].
  destruct (Z.eqb_spec x z); cbn [In]; [subst; intuition|].
  rewrite IH. intuition.
Qed.

Lemma insert_sorted_sorted (x : Z) (l : list Z) :
  StronglySorted Z.lt l -> StronglySorted Z.lt (insert_sorted x l).
Proof.
  induction 1 as [|z l Hs IH Hz]; cbn [insert_sorted].
  - repeat constructor.
  - destruct (Z.ltb_spec x z).
    + constructor; [now constructor|].
      constructor; [exact H|].
      rewrite Forall_forall in Hz |- *. intros y Hy. specialize (Hz y Hy). lia.
    + destruct (Z.eqb_spec x z); [now constructor|].
      constructor; [exact IH|].
      rewrite Forall_forall in Hz |- *. intros y Hy.
      apply insert_sorted_in in Hy. destruct Hy as [->|Hy]; [lia | auto].
Qed.

Lemma sorted_set_spec (xs : list Z) :
  StronglySorted Z.lt (sorted_set xs)
  /\ forall y, In y (sorted_set xs) <-> In y xs.
Proof.
  unfold sorted_set. induction xs as [|x xs [IH1 IH2]]; cbn [fold_right].
  - split; [constructor | tauto].
  - split; [now apply insert_sorted_sorted|].
    intros y. rewrite insert_sorted_in, IH2. cbn [In]. intuition.
Qed.

Lemma int_lstrip_incl (s : pystr) (c : codepoint) :
  In c (int_lstrip s) -> In c s.
Proof.
  induction s as [|x s IH]; cbn [int_lstrip]; [tauto|].
  destruct (int_space x); [intros H; right; auto | tauto].
Qed.

Lemma int_strip_incl (s : pystr) (c : codepoint) :
  In c (int_strip s) -> In c s.
Proof.
  unfold int_strip. intros H. apply in_rev in H.
  apply int_lstrip_incl in H. apply in_rev in H.
  now apply int_lstrip_incl in H.
Qed.

Lemma fold_digits_none (s : pystr) : fold_left digit_step s None = None.
Proof. induction s as [|c s IH]; [reflexivity | exact IH]. Qed.

Lemma decimal_value_nonneg (c : codepoint) (d : Z) :
  decimal_value c = Some d -> 0 <= d.
Proof.
  unfold decimal_value. destruct (find _ DECIMAL_ZEROS); [|discriminate].
  intros [= <-]. lia.
Qed.

Lemma fold_digits_nonneg (s : pystr) :
  forall acc n, 0 <= acc ->
  fold_left digit_step s (Some acc) = Some n -> 0 <= n.
Proof.
  induction s as [|c s IH]; intros acc n Ha; cbn [fold_left].
  - now intros [= <-].
  - unfold digit_step at 2.
    destruct (decimal_value c) as [d|] eqn:D.
    + apply IH. apply decimal_value_nonneg in D. lia.
    + now rewrite fold_digits_none.
Qed.

Lemma int_of_digits_nonneg (s : pystr) (n : Z) :
  int_of_digits s = Some n -> 0 <= n.
Proof.
  unfold int_of_digits. destruct (4300 <? List.length s)%nat; [discriminate|].
  change (fold_left _ ?s ?a) with (fold_left digit_step s a).
  now apply fold_digits_nonneg.
Qed.

Lemma int_of_str_negative (s : pystr) (n : Z) :
  int_of_str s = Some n -> n < 0 -> In 45%N s.
Proof.
  unfold int_of_str. intros H Hn.
  destruct (int_strip s) as [|c r] eqn:E.
  - exfalso. cbn in H. discriminate.
  - destruct (N.eqb_spec c 45) as [->|Hc].
    + apply int_strip_incl. rewrite E. now left.
    + exfalso.
      destruct (c =? 43)%N; cbv beta iota zeta in H;
        (destruct (forallb _ _); [|discriminate]);
        (destruct (int_of_digits _) as [v|] eqn:Ev; [|discriminate]);
        injection H as <-; apply int_of_digits_nonneg in Ev; lia.
Qed.

Lemma digit_run_decimal (s : pystr) : forallb isdecimal (digit_run s) = true.
Proof.
  induction s as [|c s IH]; [reflexivity|]. cbn [digit_run].
  destruct (isdecimal c) eqn:E; [|reflexivity].
  cbn [forallb]. now rewrite E, IH.
Qed.

Lemma search_digits_decimal (s m : pystr) :
  search_digits s = Some m ->
  forallb isdecimal m = true /\ m <> [] /\ forall c, In c m -> In c s.
Proof.
  induction s as [|c s IH]; cbn [search_digits]; [discriminate|].
  destruct (isdecimal c) eqn:E.
  - intros [= <-]. cbn [forallb]. rewrite E, digit_run_decimal.
    split; [reflexivity|]. split; [discriminate|].
    intros x [->|Hx]; [now left|]. right.
    clear -Hx. induction s as [|y s IHs]; [destruct Hx|].
    cbn [digit_run] in Hx. destruct (isdecimal y); [|destruct Hx].
    destruct Hx as [->|Hx]; [now left | right; auto].
  - intros H. destruct (IH H) as (H1 & H2 & H3).
    split; [exact H1|]. split; [exact H2|]. intros x Hx. right. auto.
Qed.

Lemma search_digits_none (s : pystr) :
  search_digits s = None <-> forallb (fun c => negb (isdecimal c)) s = true.
Proof.
  induction s as [|c s IH]; cbn [search_digits forallb]; [tauto|].
  destruct (isdecimal c); cbn [negb andb]; [split; discriminate | exact IH].
Qed.

Lemma course_to_int_nonneg (v : option pystr) (c : Z) :
  _course_to_int v = Some (Some c) -> 0 <= c.
Proof.
  unfold _course_to_int. destruct v as [[|x s]|]; try discriminate.
  destruct (search_digits (x :: s)) as [m|] eqn:E; [|discriminate].
  destruct (int_of_str m) as [n|] eqn:En; [|discriminate].
  intros [= <-]. destruct (Z.le_gt_cases 0 n) as [H|H]; [exact H|].
  exfalso. apply (int_of_str_negative _ _ En) in H.
  destruct (search_digits_decimal _ _ E) as (Hd & _).
  rewrite forallb_forall in Hd. specialize (Hd _ H). discriminate Hd.
Qed.

Lemma course_ints_spec (vals : list pystr) :
  forall cs, course_ints vals = Some cs ->
  forall c, In c cs <->
            c <> 0 /\ exists v, In v vals
                                /\ _course_to_int (Some v) = Some (Some c).
Proof.
  induction vals as [|v vals IH]; cbn [course_ints]; intros cs.
  - intros [= <-] c. cbn [In]. split; [tauto | intros (_ & x & [] & _)].
  - destruct (_course_to_int (Some v)) as [r|] eqn:Ev; [|discriminate].
    destruct (course_ints vals) as [cs0|]; [|discriminate].
    intros [= <-] c. specialize (IH cs0 eq_refl c).
    assert (Hrest : In c cs0 ->
              c <> 0 /\ exists x, In x (v :: vals)
                                  /\ _course_to_int (Some x) = Some (Some c)).
    { intros H. apply IH in H. destruct H as (H0 & x & Hx & Hc).
      split; [exact H0|]. exists x. split; [now right | exact Hc]. }
    assert (Hback : forall x, In x vals ->
              _course_to_int (Some x) = Some (Some c) -> c <> 0 -> In c cs0).
    { intros x Hx Hc H0. apply IH. eauto. }
    destruct r as [n|].
    + destruct (Z.eqb_spec n 0) as [->|Hn].
      * split; [exact Hrest|]. intros (H0 & x & [<-|Hx] & Hc).
        -- rewrite Ev in Hc. injection Hc as <-. now destruct H0.
        -- eauto.
      * cbn [In]. split.
        -- intros [<-|H]; [|auto]. split; [exact Hn|].
           exists v. split; [now left | exact Ev].
        -- intros (H0 & x & [<-|Hx] & Hc).
           ++ rewrite Ev in Hc. injection Hc as <-. now left.
           ++ right. eauto.
    + split; [exact Hrest|]. intros (H0 & x & [<-|Hx] & Hc).
      * rewrite Ev in Hc. discriminate.
      * eauto.
Qed.

(** X29. The course numbers offered after an institute is picked are in
    strictly ascending order, so without repeats, and all positive; a
    number is offered exactly when it is positive and is the first run of
    digits of the course text of some group of the institute. *)
Theorem course_numbers_sorted_positive (vals : list pystr) (cs : list Z) :
  q_courses_for_institute vals = Some cs ->
  StronglySorted Z.lt cs
  /\ forall c, In c cs <->
               0 < c /\ exists v, In v vals
                                  /\ _course_to_int (Some v) = Some (Some c).
Proof.
  unfold q_courses_for_institute.
  destruct (course_ints vals) as [cs0|] eqn:E; [|discriminate].
  intros [= <-]. destruct (sorted_set_spec cs0) as (Hs & Hin).
  split; [exact Hs|]. intros c.
  rewrite Hin, (course_ints_spec vals cs0 E c). split.
  - intros (H0 & v & Hv & Hc). split; [|eauto].
    pose proof (course_to_int_nonneg _ _ Hc). lia.
  - intros (H0 & v & Hv & Hc). split; [lia | eauto].
Qed.

Lemma week_type_of_number_text_witness :
  normalize_week_type (JStr (u " 1 ")) = u "all"
  /\ (normalize_week_type (JInt 1) = u "odd" <-> 1 = 1)
  /\ (normalize_week_type (JInt 1) = u "even" <-> 1 = 2).
Proof.
  apply (week_type_of_number_text (u " 1 ") 1); reflexivity.
Defined.

Lemma course_numbers_sorted_positive_witness :
  StronglySorted Z.lt [1; 2]
  /\ forall c, In c [1; 2] <->
               0 < c /\ exists v, In v [u "2 курс"; []; u "1 курс"; u "2"]
                                  /\ _course_to_int (Some v) = Some (Some c).
Proof.
  apply (course_numbers_sorted_positive
           [u "2 курс"; []; u "1 курс"; u "2"] [1; 2]).
  vm_compute. reflexivity.
Defined.
